(** * college-backend: data-layer invariants and request handlers

    A shallow embedding of the Mongoose models (User, Popup, Content, Blog,
    Course, College) and of the Express handlers that write them, followed by
    the properties established about them.

    Conventions of the embedding.
    - A collection is an association list of documents in insertion order.
    - A handler is a function from the request and the database to a
      response and the database after the request.
    - The database is either up (and holds the collections) or failing with
      a driver error; every store call on a failing database throws it.
    - `new Date()` is the explicit parameter [now].
    - Mongoose change tracking ([isModified]) is kept per document as the
      list of paths in the `modify` state.
    - A [string] is a JavaScript string whose code units are all below 256
      (the Latin-1 range), one [ascii] per code unit, so [String.length] is
      the `.length` of the code and its number of code points.
    - A Number that holds an integer is a [Z]; `x + 1` is [js_succ], which
      stops growing at 2^53 as the IEEE double of the code does. *)

From Stdlib Require Import List String Ascii ZArith QArith Bool Lia.
Import ListNotations.
Local Open Scope string_scope.

(** ** Shared vocabulary *)

(** A document id in its 24-character hexadecimal text form. *)
Definition oid := string.

(** An error thrown by the store layer: [error.name] and [error.message]. *)
Record StoreError := mkStoreError { ename : string; emessage : string }.

(** The status and JSON body of a response: `success`, `message` and, where
    a handler adds it, the `error` field.  The `data` payload is not part of
    the record: a handler that reads returns the documents found next to
    its response, a handler that writes returns the collection. *)
Record Response := mkResponse {
  status : Z;
  success : bool;
  message : option string;
  error : option string
}.

Definition respond (st : Z) (ok : bool) (msg : string) : Response :=
  mkResponse st ok (Some msg) None.

(** A computation that may throw a store error. *)
Inductive Result (A : Type) : Type :=
| Ok (a : A)
| Throw (e : StoreError).
Arguments Ok {A} a.
Arguments Throw {A} e.

Definition bindR {A B} (r : Result A) (f : A -> Result B) : Result B :=
  match r with
  | Ok a => f a
  | Throw e => Throw e
  end.

Notation "'let!' x ':=' r 'in' k" := (bindR r (fun x => k))
  (at level 10, x pattern, r at level 100, k at level 200).

(** A collection of the document store.  A failing store throws its error
    from every call made on it. *)
Inductive Db (A : Type) : Type :=
| Up (docs : list A)
| Down (e : StoreError).
Arguments Up {A} docs.
Arguments Down {A} e.

Definition read {A} (db : Db A) : Result (list A) :=
  match db with
  | Up docs => Ok docs
  | Down e => Throw e
  end.

(** Characters of an ObjectId and the cast Mongoose applies to an id taken
    from the URL: 24 hexadecimal digits, read case-insensitively; anything
    else throws a CastError. *)
Definition is_digit (c : ascii) : bool :=
  let n := nat_of_ascii c in (48 <=? n)%nat && (n <=? 57)%nat.

Definition is_hex (c : ascii) : bool :=
  let n := nat_of_ascii c in
  is_digit c || ((97 <=? n)%nat && (n <=? 102)%nat)
             || ((65 <=? n)%nat && (n <=? 70)%nat).

Definition to_lower (c : ascii) : ascii :=
  let n := nat_of_ascii c in
  if (65 <=? n)%nat && (n <=? 90)%nat then ascii_of_nat (n + 32) else c.

Fixpoint str_forall (f : ascii -> bool) (s : string) : bool :=
  match s with
  | EmptyString => true
  | String c s' => f c && str_forall f s'
  end.

Fixpoint str_map (f : ascii -> ascii) (s : string) : string :=
  match s with
  | EmptyString => EmptyString
  | String c s' => String (f c) (str_map f s')
  end.

(** The double quote character, for the messages that quote a value. *)
Definition dquote : string := String (ascii_of_nat 34) EmptyString.

Definition quoted (s : string) : string := dquote ++ s ++ dquote.

(** Mongoose's CastError for a string that is no ObjectId, as a query
    reports it.  The value appears as `util.inspect` prints it, which for a
    text without quotes, backslashes and control characters is the text
    between double quotes. *)
Definition CastError (value path model : string) : StoreError :=
  mkStoreError "CastError"
    ("Cast to ObjectId failed for value " ++ quoted value
       ++ " (type string) at path " ++ quoted path
       ++ " for model " ++ quoted model).

Definition castObjectId (model raw : string) : Result oid :=
  if (String.length raw =? 24)%nat && str_forall is_hex raw
  then Ok (str_map to_lower raw)
  else Throw (CastError raw "_id" model).

(** Reading a property of `undefined` (`req.user.id` on a request no
    middleware attached a user to). *)
Definition TypeError_undefined_id : StoreError :=
  mkStoreError "TypeError" "Cannot read properties of undefined (reading 'id')".

(** The white space and line terminators of `String.prototype.trim` and of
    the `\s` of validator's `trim`, among the code units below 256: TAB, LF,
    VT, FF, CR, SPACE and the no-break space U+00A0.  (The others, U+1680,
    U+2000 to U+200A, U+2028, U+2029, U+202F, U+205F, U+3000 and U+FEFF, lie
    above 255.) *)
Definition is_space (c : ascii) : bool :=
  let n := nat_of_ascii c in
  (n =? 32)%nat || ((9 <=? n)%nat && (n <=? 13)%nat) || (n =? 160)%nat.

Fixpoint trim_start (s : string) : string :=
  match s with
  | EmptyString => EmptyString
  | String c s' => if is_space c then trim_start s' else s
  end.

Fixpoint trim_end (s : string) : string :=
  match s with
  | EmptyString => EmptyString
  | String c s' =>
      match trim_end s' with
      | EmptyString => if is_space c then EmptyString else String c EmptyString
      | t => String c t
      end
  end.

Definition trim (s : string) : string := trim_end (trim_start s).

(** `x + 1` on a Number that holds the integer [x].  Up to 2^53 in absolute
    value every integer is a double and the sum is exact below 2^53; from
    there to 2^54 the doubles are the even integers and `x + 1` is a tie,
    rounded to the neighbour with the even significand; beyond, `x + 1`
    rounds back to [x]. *)
Definition two53 : Z := 9007199254740992.

Definition js_succ (x : Z) : Z :=
  if ((- two53 <=? x) && (x <? two53))%Z then (x + 1)%Z
  else if ((- (2 * two53) <? x) && (x <? 2 * two53))%Z
       then (if Z.even (x / 2) then x else x + 2)%Z
       else x.

(** The first of two optional values that is there. *)
Definition first {A} (a b : option A) : option A :=
  match a with Some _ => a | None => b end.

(** JavaScript truthiness of a string-valued body field that may be absent. *)
Definition truthy (v : option string) : bool :=
  match v with
  | None => false
  | Some s => negb (s =? "")
  end.

(** ** models/User.js *)

Module User.

Inductive Role := admin | moderator | user.

Inductive Permission :=
| create_course | edit_course | delete_course
| create_college | edit_college | delete_college
| manage_users | view_analytics.

Definition Role_eqb (a b : Role) : bool :=
  match a, b with
  | admin, admin | moderator, moderator | user, user => true
  | _, _ => false
  end.

Definition Permission_eqb (a b : Permission) : bool :=
  match a, b with
  | create_course, create_course | edit_course, edit_course
  | delete_course, delete_course | create_college, create_college
  | edit_college, edit_college | delete_college, delete_college
  | manage_users, manage_users | view_analytics, view_analytics => true
  | _, _ => false
  end.

(** The stored account.  `lastLogin`, the password-reset token and its
    expiry, and `createdAt` are left out: none of the routes modelled here
    reads or writes them. *)
Record t := mk {
  _id : oid;
  name : string;
  email : string;
  password : string;
  role : Role;
  avatar : string;
  phone : option string;
  isActive : bool;
  permissions : list Permission;
  updatedAt : Z
}.

(** `Array.prototype.includes` on the permission enum. *)
Fixpoint includes (l : list Permission) (p : Permission) : bool :=
  match l with
  | [] => false
  | x :: l' => Permission_eqb x p || includes l' p
  end.

(** `userSchema.methods.hasPermission` *)
Definition hasPermission (this : t) (permission : Permission) : bool :=
  if Role_eqb (role this) admin then true
  else includes (permissions this) permission.

(** The `rolePermissions` table of `getPermissions`. *)
Definition rolePermissions (r : Role) : list Permission :=
  match r with
  | admin => [create_course; edit_course; delete_course; create_college;
              edit_college; delete_college; manage_users; view_analytics]
  | moderator => [create_course; edit_course; create_college; edit_college;
                  view_analytics]
  | user => []
  end.

(** `[...new Set(xs)]`: the elements of [xs] in order of first occurrence.
    [seen] holds, most recent first, what the set already contains. *)
Fixpoint set_spread (seen : list Permission) (xs : list Permission)
  : list Permission :=
  match xs with
  | [] => rev seen
  | x :: xs' =>
      if includes seen x then set_spread seen xs'
      else set_spread (x :: seen) xs'
  end.

(** `userSchema.methods.getPermissions` *)
Definition getPermissions (this : t) : list Permission :=
  let basePermissions := rolePermissions (role this) in
  set_spread [] (basePermissions ++ permissions this).

(** `email.split('@')[0]`: the text before the first `@`. *)
Fixpoint before_at (s : string) : string :=
  match s with
  | EmptyString => EmptyString
  | String c s' => if Ascii.eqb c "@" then EmptyString else String c (before_at s')
  end.

(** The `displayName` virtual: `this.name || this.email.split('@')[0]`. *)
Definition displayName (this : t) : string :=
  if (name this =? "") then before_at (email this) else name this.

End User.

(** ** middleware/auth *)

Module Middleware.

(** The outcome of a guard: the request goes on with the resolved account,
    or is answered at once. *)
Inductive Gate :=
| Pass (account : User.t)
| Reject (r : Response).

(** Modelled from the spec: `middleware/auth.js` is not among the sources.
    Authentication resolves the bearer credential to an account
    ([credential] is the account it resolves to, [None] when it is missing,
    invalid or expired) and fails with 401 when there is none or when the
    account has `isActive = false`. *)
Definition auth (credential : option User.t) : Gate :=
  match credential with
  | None => Reject (respond 401 false "Unauthorized")
  | Some account =>
      if User.isActive account then Pass account
      else Reject (respond 401 false "Unauthorized")
  end.

(** Modelled from the spec: the role check fails with 403 unless the
    account's role is admin. *)
Definition adminAuth (account : User.t) : Gate :=
  if User.Role_eqb (User.role account) User.admin then Pass account
  else Reject (respond 403 false "Forbidden").

(** Modelled from the spec: the permission check fails with 403 unless
    [hasPermission account p]. *)
Definition requirePermission (p : User.Permission) (account : User.t) : Gate :=
  if User.hasPermission account p then Pass account
  else Reject (respond 403 false "Forbidden").

Definition andThen (g : Gate) (k : User.t -> Gate) : Gate :=
  match g with
  | Pass account => k account
  | Reject r => Reject r
  end.

End Middleware.

(** `req.user.id`, which throws when no middleware attached a user. *)
Definition req_user_id (req_user : option User.t) : Result oid :=
  match req_user with
  | Some u => Ok (User._id u)
  | None => Throw TypeError_undefined_id
  end.

(** ** models/Popup.js and routes/popup.js *)

Module Popup.

(** The stored popup.  The `createdAt`/`updatedAt` stamps of the
    `timestamps` option are left out: no handler reads them except to sort
    the admin listing. *)
Record t := mk {
  _id : oid;
  title : string;
  content : string;
  buttonText : string;
  buttonLink : option string;
  isActive : bool;
  displayDelay : Z;
  backgroundColor : string;
  textColor : string;
  buttonColor : string;
  createdBy : option oid;
  updatedBy : option oid
}.

(** A document in memory: its fields, the paths in the `modify` state and
    whether it has never been stored. *)
Record Doc := mkDoc {
  fields : t;
  modified : list string;
  isNew : bool
}.

Definition isModified (d : Doc) (path : string) : bool :=
  existsb (String.eqb path) (modified d).

(** The paths an update document may set.  `createdBy` comes as the text
    of an id. *)
Record Paths := mkPaths {
  p_title : option string;
  p_content : option string;
  p_buttonText : option string;
  p_buttonLink : option string;
  p_isActive : option bool;
  p_displayDelay : option Z;
  p_backgroundColor : option string;
  p_textColor : option string;
  p_buttonColor : option string;
  p_createdBy : option string
}.

(** The keys of a request body that reach the schema: the paths of the
    popup at the top level and, for the update route that spreads the whole
    body into the update document, the `$set` operator (the one update
    operator that is represented).  `isActive` and `createdBy` are listed
    because a client may send them; the creation handler destructures
    neither, and it ignores `$set`. *)
Record Body := mkBody {
  b_title : option string;
  b_content : option string;
  b_buttonText : option string;
  b_buttonLink : option string;
  b_isActive : option bool;
  b_displayDelay : option Z;
  b_backgroundColor : option string;
  b_textColor : option string;
  b_buttonColor : option string;
  b_createdBy : option string;
  b_set : option Paths
}.

Definition or_default {A} (v : option A) (d : A) : A :=
  match v with Some a => a | None => d end.

Definition given {A} (path : string) (v : option A) : list string :=
  match v with Some _ => [path] | None => [] end.

(** `new Popup({ title, content, buttonText, buttonLink, displayDelay,
    backgroundColor, textColor, buttonColor })`.  A key whose value is
    `undefined` keeps the schema default; a default is applied in the
    `default` state, so only the keys that were given are modified. *)
Definition newPopup (fresh : oid) (b : Body) : Doc :=
  mkDoc
    (mk fresh
        (trim (or_default (b_title b) ""))
        (or_default (b_content b) "")
        (or_default (b_buttonText b) "Learn More")
        (option_map trim (b_buttonLink b))
        true
        (or_default (b_displayDelay b) 30000%Z)
        (or_default (b_backgroundColor b) "#ffffff")
        (or_default (b_textColor b) "#333333")
        (or_default (b_buttonColor b) "#007bff")
        None None)
    (given "title" (b_title b) ++ given "content" (b_content b)
       ++ given "buttonText" (b_buttonText b)
       ++ given "buttonLink" (b_buttonLink b)
       ++ given "displayDelay" (b_displayDelay b)
       ++ given "backgroundColor" (b_backgroundColor b)
       ++ given "textColor" (b_textColor b)
       ++ given "buttonColor" (b_buttonColor b))
    true.

(** A document as `findById` hydrates it. *)
Definition hydrate (p : t) : Doc := mkDoc p [] false.

Definition with_isActive (p : t) (v : bool) : t :=
  mk (_id p) (title p) (content p) (buttonText p) (buttonLink p) v
     (displayDelay p) (backgroundColor p) (textColor p) (buttonColor p)
     (createdBy p) (updatedBy p).

Definition with_updatedBy (p : t) (v : option oid) : t :=
  mk (_id p) (title p) (content p) (buttonText p) (buttonLink p) (isActive p)
     (displayDelay p) (backgroundColor p) (textColor p) (buttonColor p)
     (createdBy p) v.

(** `doc.isActive = v`: the path is marked modified when the document is
    new or the value differs from the current one. *)
Definition set_isActive (d : Doc) (v : bool) : Doc :=
  mkDoc (with_isActive (fields d) v)
        (if isNew d || negb (Bool.eqb (isActive (fields d)) v)
         then "isActive" :: modified d else modified d)
        (isNew d).

Definition option_oid_eqb (a b : option oid) : bool :=
  match a, b with
  | Some x, Some y => (x =? y)
  | None, None => true
  | _, _ => false
  end.

Definition set_updatedBy (d : Doc) (v : oid) : Doc :=
  mkDoc (with_updatedBy (fields d) (Some v))
        (if isNew d || negb (option_oid_eqb (updatedBy (fields d)) (Some v))
         then "updatedBy" :: modified d else modified d)
        (isNew d).

Definition ValidationError (msg : string) : StoreError :=
  mkStoreError "ValidationError" ("Popup validation failed: " ++ msg).

(** The validation `save` runs first, on every path of the document: the
    required paths and the bounds of `displayDelay` (between 5000 and
    120000). *)
Definition validate (d : Doc) : Result unit :=
  let p := fields d in
  if (title p =? "") then Throw (ValidationError "title: Path `title` is required.")
  else if (content p =? "") then Throw (ValidationError "content: Path `content` is required.")
  else if (displayDelay p <? 5000)%Z || (120000 <? displayDelay p)%Z
  then Throw (ValidationError "displayDelay is out of range.")
  else Ok tt.

(** `updateMany({ _id: { $ne: id } }, { isActive: false })` *)
Definition deactivate_others (id : oid) (docs : list t) : list t :=
  map (fun p => if (_id p =? id) then p else with_isActive p false) docs.

(** `popupSchema.pre('save')`: ensure only one active popup at a time. *)
Definition pre_save (this : Doc) (docs : list t) : list t :=
  if isActive (fields this) && isModified this "isActive"
  then deactivate_others (_id (fields this)) docs
  else docs.

Definition findById (id : oid) (docs : list t) : option t :=
  find (fun p => _id p =? id) docs.

(** The write that ends `save`: an insert for a new document, otherwise an
    update of the stored document with the same `_id`. *)
Definition persist (this : Doc) (docs : list t) : list t :=
  if isNew this then docs ++ [fields this]
  else map (fun p => if (_id p =? _id (fields this)) then fields this else p) docs.

(** `doc.save()`: validation, then the pre-save hook, then the write. *)
Definition save (this : Doc) (db : Db t) : Result (Db t) :=
  let! _ := validate this in
  let! docs := read db in
  Ok (Up (persist this (pre_save this docs))).

(** `router.post('/')` *)
Definition create (b : Body) (fresh : oid) (db : Db t) : Response * Db t :=
  if negb (truthy (b_title b)) || negb (truthy (b_content b)) then
    (respond 400 false "Title and content are required", db)
  else
    match save (newPopup fresh b) db with
    | Ok db' => (respond 201 true "Popup created successfully", db')
    | Throw _ => (respond 500 false "Server error", db)
    end.

(** The update document: `{ ...req.body, updatedBy: req.user.id }` as
    Mongoose reads it.  A path given at the top level is moved into `$set`,
    over the value `$set` had for it. *)
Definition updateData (b : Body) : Paths :=
  let s := match b_set b with
           | Some s => s
           | None => mkPaths None None None None None None None None None None
           end in
  mkPaths (first (b_title b) (p_title s))
          (first (b_content b) (p_content s))
          (first (b_buttonText b) (p_buttonText s))
          (first (b_buttonLink b) (p_buttonLink s))
          (first (b_isActive b) (p_isActive s))
          (first (b_displayDelay b) (p_displayDelay s))
          (first (b_backgroundColor b) (p_backgroundColor s))
          (first (b_textColor b) (p_textColor s))
          (first (b_buttonColor b) (p_buttonColor s))
          (first (b_createdBy b) (p_createdBy s)).

(** The cast of the update document.  The string paths pass their setters
    when the document is applied; `createdBy` must be the text of an id. *)
Definition castUpdate (u : Paths) : Result (option oid) :=
  match p_createdBy u with
  | None => Ok None
  | Some raw =>
      if (String.length raw =? 24)%nat && str_forall is_hex raw
      then Ok (Some (str_map to_lower raw))
      else Throw (CastError raw "createdBy" "Popup")
  end.

(** The stored popup after the update document was applied to it. *)
Definition applyUpdate (u : Paths) (by_ : oid) (p : t) : t :=
  mk (_id p)
     (or_default (option_map trim (p_title u)) (title p))
     (or_default (p_content u) (content p))
     (or_default (p_buttonText u) (buttonText p))
     (match p_buttonLink u with Some l => Some (trim l) | None => buttonLink p end)
     (or_default (p_isActive u) (isActive p))
     (or_default (p_displayDelay u) (displayDelay p))
     (or_default (p_backgroundColor u) (backgroundColor p))
     (or_default (p_textColor u) (textColor p))
     (or_default (p_buttonColor u) (buttonColor p))
     (match p_createdBy u with
      | Some raw => Some (str_map to_lower raw)
      | None => createdBy p
      end)
     (Some by_).

(** `runValidators: true`: the validators of the paths being set. *)
Definition validateUpdate (u : Paths) : Result unit :=
  match option_map trim (p_title u), p_content u, p_displayDelay u with
  | Some EmptyString, _, _ => Throw (ValidationError "title: Path `title` is required.")
  | _, Some EmptyString, _ => Throw (ValidationError "content: Path `content` is required.")
  | _, _, Some d =>
      if (d <? 5000)%Z || (120000 <? d)%Z
      then Throw (ValidationError "displayDelay is out of range.")
      else Ok tt
  | _, _, None => Ok tt
  end.

(** `Popup.findByIdAndUpdate(id, update, { new: true, runValidators: true })`.
    It is a query: no `save` middleware runs. *)
Definition findByIdAndUpdate (raw : string) (u : Paths) (by_ : oid) (db : Db t)
  : Result (option t * Db t) :=
  let! id := castObjectId "Popup" raw in
  let! _ := castUpdate u in
  let! _ := validateUpdate u in
  let! docs := read db in
  match findById id docs with
  | None => Ok (None, db)
  | Some p =>
      Ok (Some (applyUpdate u by_ p),
          Up (map (fun q => if (_id q =? id) then applyUpdate u by_ q else q) docs))
  end.

(** `router.put('/:id')` *)
Definition update (raw : string) (b : Body) (req_user : option User.t)
  (db : Db t) : Response * Db t :=
  match (let! by_ := req_user_id req_user in
         findByIdAndUpdate raw (updateData b) by_ db) with
  | Ok (None, _) => (respond 404 false "Popup not found", db)
  | Ok (Some _, db') => (respond 200 true "Popup updated successfully", db')
  | Throw _ => (respond 500 false "Server error", db)
  end.

(** `router.patch('/:id/toggle')` *)
Definition toggle (raw : string) (req_user : option User.t) (db : Db t)
  : Response * Db t :=
  match (let! id := castObjectId "Popup" raw in
         let! docs := read db in
         match findById id docs with
         | None => Ok None
         | Some p =>
             let popup := set_isActive (hydrate p) (negb (isActive p)) in
             let! by_ := req_user_id req_user in
             let popup := set_updatedBy popup by_ in
             let! db' := save popup db in
             Ok (Some (popup, db'))
         end) with
  | Ok None => (respond 404 false "Popup not found", db)
  | Ok (Some (popup, db')) =>
      (respond 200 true
         (if isActive (fields popup) then "Popup activated successfully"
          else "Popup deactivated successfully"), db')
  | Throw _ => (respond 500 false "Server error", db)
  end.

(** `router.delete('/:id')`: `findByIdAndDelete`. *)
Definition delete (raw : string) (db : Db t) : Response * Db t :=
  match (let! id := castObjectId "Popup" raw in
         let! docs := read db in
         Ok (findById id docs, id, docs)) with
  | Ok (None, _, _) => (respond 404 false "Popup not found", db)
  | Ok (Some _, id, docs) =>
      (respond 200 true "Popup deleted successfully",
       Up (filter (fun p => negb (_id p =? id)) docs))
  | Throw _ => (respond 500 false "Server error", db)
  end.

(** `router.get('/active')`: `findOne({ isActive: true })`; the answer has
    no `message`. *)
Definition getActive (db : Db t) : Response * option t :=
  match read db with
  | Ok docs => (mkResponse 200 true None None, find isActive docs)
  | Throw _ => (respond 500 false "Server error", None)
  end.

(** The number of popups that are active. *)
Definition activeCount (docs : list t) : nat :=
  List.length (filter isActive docs).

End Popup.

(** ** JSON values, for the `Mixed` path of the content schema *)

#[local] Unset Elimination Schemes.
Inductive Json :=
| JNull
| JBool (b : bool)
| JNum (z : Z)
| JStr (s : string)
| JArr (items : list Json)
| JObj (members : list (string * Json)).
#[local] Set Elimination Schemes.

(** Deep equality of two values, as the setter of a `Mixed` path compares
    the new value with the current one. *)
Fixpoint deepEqual (a b : Json) : bool :=
  match a, b with
  | JNull, JNull => true
  | JBool x, JBool y => Bool.eqb x y
  | JNum x, JNum y => (x =? y)%Z
  | JStr x, JStr y => (x =? y)
  | JArr l, JArr m =>
      (fix all2 (l m : list Json) : bool :=
         match l, m with
         | [], [] => true
         | x :: l', y :: m' => deepEqual x y && all2 l' m'
         | _, _ => false
         end) l m
  | JObj l, JObj m =>
      (fix all2 (l m : list (string * Json)) : bool :=
         match l, m with
         | [], [] => true
         | (k, x) :: l', (k', y) :: m' => (k =? k') && deepEqual x y && all2 l' m'
         | _, _ => false
         end) l m
  | _, _ => false
  end.

(** The `minimize` option of a schema, which is on by default: what is
    written to the store holds no empty object.  A member whose value
    minimises to nothing is dropped, and an object left without members
    minimises to nothing itself; an object that is an item of an array is
    kept even when empty. *)
Fixpoint minimize (j : Json) : option Json :=
  match j with
  | JObj members =>
      match (fix members_of (l : list (string * Json)) : list (string * Json) :=
               match l with
               | [] => []
               | (k, v) :: l' =>
                   match minimize v with
                   | Some v' => (k, v') :: members_of l'
                   | None => members_of l'
                   end
               end) members with
      | [] => None
      | ms => Some (JObj ms)
      end
  | JArr items =>
      Some (JArr ((fix items_of (l : list Json) : list Json :=
                     match l with
                     | [] => []
                     | x :: l' =>
                         match minimize x with
                         | Some x' => x' :: items_of l'
                         | None => JObj [] :: items_of l'
                         end
                     end) items))
  | other => Some other
  end.

(** JavaScript truthiness of a body field holding any JSON value. *)
Definition json_truthy (v : option Json) : bool :=
  match v with
  | None | Some JNull => false
  | Some (JBool b) => b
  | Some (JNum z) => negb (z =? 0)%Z
  | Some (JStr s) => negb (s =? "")
  | Some (JArr _) | Some (JObj _) => true
  end.

(** ** models/Content.js and routes/content.js *)

Module Content.

(** The stored snapshot.  `sections` is absent from a stored document whose
    sections minimised to nothing. *)
Record t := mk {
  _id : oid;
  page : string;
  sections : option Json;
  lastUpdatedBy : oid;
  version : Z;
  isActive : bool
}.

Record Doc := mkDoc {
  fields : t;
  modified : list string;
  isNew : bool
}.

Definition isModified (d : Doc) (path : string) : bool :=
  existsb (String.eqb path) (modified d).

Definition hydrate (c : t) : Doc := mkDoc c [] false.

Definition mark (d : Doc) (path : string) (changed : bool) : list string :=
  if isNew d || changed then path :: modified d else modified d.

(** The deep equality of a new value with the current value of the path,
    which may be absent. *)
Definition same_sections (v : Json) (current : option Json) : bool :=
  match current with
  | Some old => deepEqual v old
  | None => false
  end.

(** `content.sections = v` *)
Definition set_sections (d : Doc) (v : Json) : Doc :=
  let c := fields d in
  mkDoc (mk (_id c) (page c) (Some v) (lastUpdatedBy c) (version c) (isActive c))
        (mark d "sections" (negb (same_sections v (sections c))))
        (isNew d).

(** `content.lastUpdatedBy = v` *)
Definition set_lastUpdatedBy (d : Doc) (v : oid) : Doc :=
  let c := fields d in
  mkDoc (mk (_id c) (page c) (sections c) v (version c) (isActive c))
        (mark d "lastUpdatedBy" (negb (v =? lastUpdatedBy c)))
        (isNew d).

(** `content.isActive = v` *)
Definition set_isActive (d : Doc) (v : bool) : Doc :=
  let c := fields d in
  mkDoc (mk (_id c) (page c) (sections c) (lastUpdatedBy c) (version c) v)
        (mark d "isActive" (negb (Bool.eqb v (isActive c))))
        (isNew d).

(** `new Content({ page, sections, lastUpdatedBy, isActive })`: `version`
    takes its default 1; the four keys given are modified. *)
Definition newContent (fresh : oid) (pg : string) (s : Json) (by_ : oid)
  (act : bool) : Doc :=
  mkDoc (mk fresh pg (Some s) by_ 1 act)
        ["page"; "sections"; "lastUpdatedBy"; "isActive"] true.

Definition validPage (pg : string) : bool :=
  (pg =? "home") || (pg =? "about") || (pg =? "contact") || (pg =? "footer").

Definition ValidationError (msg : string) : StoreError :=
  mkStoreError "ValidationError" ("Content validation failed: " ++ msg).

(** The schema validators: `page` must be one of the four page keys, and
    the required `sections` must be there. *)
Definition validate (d : Doc) : Result unit :=
  if negb (validPage (page (fields d)))
  then Throw (ValidationError "page: not a valid enum value for path `page`.")
  else match sections (fields d) with
       | None | Some JNull =>
           Throw (ValidationError "sections: Path `sections` is required.")
       | Some _ => Ok tt
       end.

(** `contentSchema.pre('save')`: increment the version when `sections` is
    modified. *)
Definition pre_save (this : Doc) : Doc :=
  if isModified this "sections" then
    let c := fields this in
    mkDoc (mk (_id c) (page c) (sections c) (lastUpdatedBy c)
              (js_succ (version c)) (isActive c))
          ("version" :: modified this) (isNew this)
  else this.

(** What the store keeps of a value of `sections`. *)
Definition written (s : option Json) : option Json :=
  match s with
  | Some v => minimize v
  | None => None
  end.

(** The update of a stored document by the modified paths of [this]. *)
Definition write (this : Doc) (c : t) : t :=
  let f := fields this in
  mk (_id c)
     (if isModified this "page" then page f else page c)
     (if isModified this "sections" then written (sections f) else sections c)
     (if isModified this "lastUpdatedBy" then lastUpdatedBy f else lastUpdatedBy c)
     (if isModified this "version" then version f else version c)
     (if isModified this "isActive" then isActive f else isActive c).

(** The write that ends `save`: an insert of the minimised document when
    it is new, otherwise an update of the stored document of the same
    `_id` by the modified paths. *)
Definition persist (this : Doc) (docs : list t) : list t :=
  let f := fields this in
  if isNew this
  then docs ++ [mk (_id f) (page f) (written (sections f)) (lastUpdatedBy f)
                   (version f) (isActive f)]
  else map (fun c => if (_id c =? _id f) then write this c else c) docs.

(** `doc.save()`; the document after the hook comes back with the store. *)
Definition save (this : Doc) (db : Db t) : Result (Doc * Db t) :=
  let! _ := validate this in
  let this' := pre_save this in
  let! docs := read db in
  Ok (this', Up (persist this' docs)).

(** `Content.findOne({ page })` *)
Definition findOne (pg : string) (docs : list t) : option t :=
  find (fun c => page c =? pg) docs.

(** The 500 answer of the content routes, which carries `error.message`. *)
Definition failure (msg : string) (e : StoreError) : Response :=
  mkResponse 500 false (Some msg) (Some (emessage e)).

(** `router.post('/:page', auth, ...)` *)
Definition post (pg : string) (b_sections : option Json)
  (b_isActive : option bool) (credential : option User.t) (fresh : oid)
  (db : Db t) : Response * Db t :=
  match Middleware.auth credential with
  | Middleware.Reject r => (r, db)
  | Middleware.Pass account =>
      match b_sections with
      | None => (respond 400 false "Sections data is required", db)
      | Some s =>
          if negb (json_truthy b_sections) then
            (respond 400 false "Sections data is required", db)
          else
            match (let! docs := read db in
                   match findOne pg docs with
                   | Some c =>
                       let content := set_sections (hydrate c) s in
                       let content := set_lastUpdatedBy content (User._id account) in
                       let content :=
                         match b_isActive with
                         | Some v => set_isActive content v
                         | None => content
                         end in
                       save content db
                   | None =>
                       save (newContent fresh pg s (User._id account)
                               (match b_isActive with Some v => v | None => true end))
                            db
                   end) with
            | Ok (content, db') =>
                (respond 200 true
                   (pg ++ " content "
                       ++ (if (version (fields content) =? 1)%Z then "created" else "updated")
                       ++ " successfully"), db')
            | Throw e => (failure "Error saving content" e, db)
            end
      end
  end.

(** `router.get('/:page')`: `findOne({ page, isActive: true })`; the answer
    to a hit has no `message`. *)
Definition get (pg : string) (db : Db t) : Response * option t :=
  match read db with
  | Ok docs =>
      match find (fun c => (page c =? pg) && isActive c) docs with
      | Some c => (mkResponse 200 true None None, Some c)
      | None => (respond 404 false "Content not found for this page", None)
      end
  | Throw e => (failure "Error fetching content" e, None)
  end.

(** `router.delete('/:page', auth, ...)`: `findOneAndDelete({ page })`
    removes the first snapshot of the page. *)
Fixpoint remove_first (pg : string) (docs : list t) : list t :=
  match docs with
  | [] => []
  | c :: rest => if (page c =? pg) then rest else c :: remove_first pg rest
  end.

Definition delete (pg : string) (credential : option User.t) (db : Db t)
  : Response * Db t :=
  match Middleware.auth credential with
  | Middleware.Reject r => (r, db)
  | Middleware.Pass _ =>
      match read db with
      | Throw e => (failure "Error deleting content" e, db)
      | Ok docs =>
          match findOne pg docs with
          | None => (respond 404 false "Content not found", db)
          | Some _ =>
              (respond 200 true "Content deleted successfully",
               Up (remove_first pg docs))
          end
      end
  end.

(** `router.get('/:page/history', auth, ...)`: the page and version of the
    snapshot, which is all the history there is. *)
Definition history (pg : string) (credential : option User.t) (db : Db t)
  : Response * option (string * Z * oid) :=
  match Middleware.auth credential with
  | Middleware.Reject r => (r, None)
  | Middleware.Pass _ =>
      match read db with
      | Throw e => (failure "Error fetching content history" e, None)
      | Ok docs =>
          match findOne pg docs with
          | None => (respond 404 false "Content not found", None)
          | Some c =>
              (mkResponse 200 true None None,
               Some (page c, version c, lastUpdatedBy c))
          end
      end
  end.

Definition obj (members : list (string * string)) : Json :=
  JObj (map (fun '(k, v) => (k, JStr v)) members).

(** The `defaultContents` of `POST /admin/initialize`. *)
Definition defaultContents : list (string * Json) :=
  [ ("home",
     JObj [("hero", obj [("title", "Your Gateway to Educational Excellence");
                         ("subtitle", "Discover the best colleges and courses for your future");
                         ("backgroundImage", "/images/hero-bg.jpg")]);
           ("stats", obj [("students", "10,000+"); ("colleges", "500+");
                          ("courses", "1,000+"); ("successRate", "95%")])]);
    ("about",
     JObj [("hero", obj [("title", "About The Education Expert");
                         ("subtitle", "Your trusted partner in educational journey")]);
           ("mission", obj [("title", "Our Mission");
                            ("description", "To provide comprehensive guidance for college admissions, career counseling, and academic excellence.")]);
           ("vision", obj [("title", "Our Vision");
                           ("description", "To be the leading educational consultancy that empowers students to achieve their academic dreams.")])]);
    ("contact",
     JObj [("hero", obj [("title", "Get in Touch");
                         ("subtitle", "We are here to help you with your educational journey")]);
           ("office", obj [("address", "guha road, dum dum, kolkata -700028 West Bengal, India");
                           ("phone", "+91 9064258642");
                           ("email", "info@admissionshala.com")]);
           ("hours", obj [("weekdays", "11:00 AM - 7:00 PM");
                          ("saturday", "11:00 AM - 5:00 PM");
                          ("sunday", "Closed")])]);
    ("footer",
     JObj [("company", obj [("name", "The Education Expert");
                            ("tagline", "Your Gateway to Success");
                            ("description", "The Education Expert is your trusted partner in educational journey. We provide comprehensive guidance for college admissions, career counseling, and academic excellence.")]);
           ("contact", obj [("address", "guha road, dum dum, kolkata -700028 West Bengal, India");
                            ("phone", "+91 9064258642");
                            ("email", "info@admissionshala.com")]);
           ("social", obj [("facebook", "#"); ("twitter", "#"); ("instagram", "#");
                           ("linkedin", "#"); ("youtube", "#")]);
           ("links",
            JObj [("quickLinks",
                   JArr [JStr "Home"; JStr "About Us"; JStr "Courses";
                         JStr "Colleges"; JStr "Blogs"; JStr "Contact Us"]);
                  ("services",
                   JArr [JStr "Career Counseling"; JStr "College Admissions";
                         JStr "Entrance Exam Prep"; JStr "Scholarship Guidance"])])]) ].

(** `new Content({ ...defaultContent, lastUpdatedBy })`: `isActive` and
    `version` keep their defaults. *)
Definition newDefault (fresh : oid) (pg : string) (s : Json) (by_ : oid) : Doc :=
  mkDoc (mk fresh pg (Some s) by_ 1 true) ["page"; "sections"; "lastUpdatedBy"] true.

(** The loop of the route over the default contents.  [fresh i] is the id
    the [i]-th `new Content` draws.  The loop stops at the first error and
    keeps what the saves before it stored. *)
Fixpoint initLoop (items : list (string * Json)) (i : nat) (fresh : nat -> oid)
  (by_ : oid) (results : list string) (db : Db t)
  : option StoreError * list string * Db t :=
  match items with
  | [] => (None, results, db)
  | (pg, s) :: rest =>
      match read db with
      | Throw e => (Some e, results, db)
      | Ok docs =>
          match findOne pg docs with
          | Some _ =>
              initLoop rest (S i) fresh by_
                (results ++ [pg ++ " content already exists"]) db
          | None =>
              match save (newDefault (fresh i) pg s by_) db with
              | Throw e => (Some e, results, db)
              | Ok (_, db') =>
                  initLoop rest (S i) fresh by_
                    (results ++ [pg ++ " content created"]) db'
              end
          end
      end
  end.

(** `router.post('/admin/initialize', auth, ...)`; the list is the `data`
    of the answer. *)
Definition initialize (credential : option User.t) (fresh : nat -> oid)
  (db : Db t) : Response * list string * Db t :=
  match Middleware.auth credential with
  | Middleware.Reject r => (r, [], db)
  | Middleware.Pass account =>
      match initLoop defaultContents 0 fresh (User._id account) [] db with
      | (None, results, db') =>
          (respond 200 true "Default content initialization completed",
           results, db')
      | (Some e, _, db') => (failure "Error initializing content" e, [], db')
      end
  end.

End Content.

(** ** models/Blog.js and routes/blogs.js *)

Module Blog.

Record t := mk {
  _id : oid;
  title : string;
  slug : string;
  excerpt : string;
  content : string;
  featuredImage : string;
  category : string;
  tags : list string;
  author : option oid;
  status : string;
  featured : bool;
  views : Z;
  likes : Z;
  publishedAt : option Z;
  seoTitle : option string;
  seoDescription : option string;
  readTime : Z
}.

Record Doc := mkDoc {
  fields : t;
  modified : list string;
  isNew : bool
}.

Definition isModified (d : Doc) (path : string) : bool :=
  existsb (String.eqb path) (modified d).

Definition hydrate (b : t) : Doc := mkDoc b [] false.

Definition with_views (b : t) (v : Z) : t :=
  mk (_id b) (title b) (slug b) (excerpt b) (content b) (featuredImage b)
     (category b) (tags b) (author b) (status b) (featured b) v (likes b)
     (publishedAt b) (seoTitle b) (seoDescription b) (readTime b).

Definition with_publishedAt (b : t) (v : option Z) : t :=
  mk (_id b) (title b) (slug b) (excerpt b) (content b) (featuredImage b)
     (category b) (tags b) (author b) (status b) (featured b) (views b)
     (likes b) v (seoTitle b) (seoDescription b) (readTime b).

(** `blog.views = v` *)
Definition set_views (d : Doc) (v : Z) : Doc :=
  mkDoc (with_views (fields d) v)
        (if isNew d || negb (v =? views (fields d))%Z
         then "views" :: modified d else modified d)
        (isNew d).

(** The fields of a request body (multipart form or JSON). *)
Record Body := mkBody {
  b_title : option string;
  b_slug : option string;
  b_excerpt : option string;
  b_content : option string;
  b_featuredImage : option string;
  b_category : option string;
  b_tags : option (list string);
  b_author : option oid;
  b_status : option string;
  b_featured : option bool;
  b_seoTitle : option string;
  b_seoDescription : option string;
  b_readTime : option Z
}.

(** The uploaded file of a request: none, one whose upload to the image
    host failed, or one stored under a URL. *)
Inductive Upload :=
| NoFile
| UploadFailed
| Uploaded (secure_url : string).

Definition str_or (v : option string) (d : string) : string :=
  match v with
  | Some s => if (s =? "") then d else s
  | None => d
  end.

(** `new Blog({ title: ..., ..., readTime: blogData.readTime || 5 })`.
    `status` is always given a value (`blogData.status || 'draft'`), so it
    is among the modified paths of the new document. *)
Definition newBlog (fresh : oid) (b : Body) (image : option string) : Doc :=
  mkDoc
    (mk fresh
        (trim (Popup.or_default (b_title b) ""))
        (trim (Popup.or_default (b_slug b) ""))
        (trim (Popup.or_default (b_excerpt b) ""))
        (Popup.or_default (b_content b) "")
        (Popup.or_default image "")
        (Popup.or_default (b_category b) "")
        (map trim (Popup.or_default (b_tags b) []))
        (b_author b)
        (str_or (b_status b) "draft")
        (Popup.or_default (b_featured b) false)
        0 0 None
        (option_map trim (b_seoTitle b))
        (option_map trim (b_seoDescription b))
        (match b_readTime b with
         | Some r => if (r =? 0)%Z then 5%Z else r
         | None => 5%Z
         end))
    (Popup.given "title" (b_title b) ++ Popup.given "slug" (b_slug b)
       ++ Popup.given "excerpt" (b_excerpt b)
       ++ Popup.given "content" (b_content b)
       ++ Popup.given "featuredImage" image
       ++ Popup.given "category" (b_category b)
       ++ ["tags"] ++ Popup.given "author" (b_author b)
       ++ ["status"; "featured"]
       ++ Popup.given "seoTitle" (b_seoTitle b)
       ++ Popup.given "seoDescription" (b_seoDescription b)
       ++ ["readTime"])
    true.

Definition ValidationError (msg : string) : StoreError :=
  mkStoreError "ValidationError" ("Blog validation failed: " ++ msg).

Definition validCategory (c : string) : bool :=
  existsb (String.eqb c)
    ["Education"; "Career"; "Admissions"; "Tips"; "News"; "Technology"; "Other"].

Definition validStatus (s : string) : bool :=
  existsb (String.eqb s) ["draft"; "published"; "archived"].

(** The schema validators. *)
Definition validate (d : Doc) : Result unit :=
  let b := fields d in
  if (title b =? "") || (slug b =? "") || (excerpt b =? "") || (content b =? "")
     || (category b =? "")
  then Throw (ValidationError "a required path is missing.")
  else if (300 <? String.length (excerpt b))%nat
  then Throw (ValidationError "excerpt is longer than the maximum allowed length (300).")
  else if negb (validCategory (category b))
  then Throw (ValidationError "category: not a valid enum value.")
  else if negb (validStatus (status b))
  then Throw (ValidationError "status: not a valid enum value.")
  else match seoDescription b with
       | Some s =>
           if (160 <? String.length s)%nat
           then Throw (ValidationError "seoDescription is longer than the maximum allowed length (160).")
           else Ok tt
       | None => Ok tt
       end.

(** `blogSchema.pre('save')`: set `publishedAt` when the status changes to
    published. *)
Definition pre_save (now : Z) (this : Doc) : Doc :=
  if isModified this "status"
     && (status (fields this) =? "published")
     && negb (match publishedAt (fields this) with Some _ => true | None => false end)
  then mkDoc (with_publishedAt (fields this) (Some now))
             ("publishedAt" :: modified this) (isNew this)
  else this.

Definition persist (this : Doc) (docs : list t) : list t :=
  if isNew this then docs ++ [fields this]
  else map (fun b => if (_id b =? _id (fields this)) then fields this else b) docs.

(** `doc.save()` *)
Definition save (now : Z) (this : Doc) (db : Db t) : Result (Db t) :=
  let! _ := validate this in
  let this' := pre_save now this in
  let! docs := read db in
  Ok (Up (persist this' docs)).

(** The 500 answer of the blog routes, which carries `error.message`. *)
Definition failure (msg : string) (e : StoreError) : Response :=
  mkResponse 500 false (Some msg) (Some (emessage e)).

Definition len_between (lo hi : nat) (v : option string) : bool :=
  let n := String.length (trim (Popup.or_default v "")) in
  (lo <=? n)%nat && (n <=? hi)%nat.

(** The express-validator chain of the creation route. *)
Definition createValid (b : Body) : bool :=
  len_between 3 200 (b_title b) && len_between 10 500 (b_excerpt b)
  && (50 <=? String.length (trim (Popup.or_default (b_content b) "")))%nat
  && len_between 2 100 (b_category b) && len_between 3 200 (b_slug b).

(** The body after the `trim()` sanitizers of that chain. *)
Definition sanitized (b : Body) : Body :=
  let t := fun v => Some (trim (Popup.or_default v "")) in
  mkBody (t (b_title b)) (t (b_slug b)) (t (b_excerpt b)) (t (b_content b))
         (b_featuredImage b) (t (b_category b)) (b_tags b) (b_author b)
         (b_status b) (b_featured b) (b_seoTitle b) (b_seoDescription b)
         (b_readTime b).

(** `router.post('/')` *)
Definition create (now : Z) (b : Body) (file : Upload) (fresh : oid)
  (db : Db t) : Response * Db t :=
  if negb (createValid b) then (respond 400 false "Validation failed", db)
  else
    let blogData := sanitized b in
    match (let! docs := read db in
           Ok (find (fun x => slug x =? Popup.or_default (b_slug blogData) "") docs)) with
    | Throw e => (failure "Error creating blog" e, db)
    | Ok (Some _) => (respond 400 false "Blog with this slug already exists", db)
    | Ok None =>
        match file with
        | UploadFailed => (respond 400 false "Failed to upload image", db)
        | _ =>
            let image :=
              match file with
              | Uploaded url => Some url
              | _ => b_featuredImage blogData
              end in
            match save now (newBlog fresh blogData image) db with
            | Ok db' => (respond 201 true "Blog created successfully", db')
            | Throw e => (failure "Error creating blog" e, db)
            end
        end
    end.

(** `router.get('/:slug')`: the published blog of that slug, whose view
    count the route increments and saves. *)
Definition view (now : Z) (sl : string) (db : Db t) : Response * Db t :=
  match (let! docs := read db in
         match find (fun x => (slug x =? sl) && (status x =? "published")) docs with
         | None => Ok None
         | Some b =>
             let blog := set_views (hydrate b) (js_succ (views b)) in
             let! db' := save now blog db in
             Ok (Some db')
         end) with
  | Ok None => (respond 404 false "Blog not found", db)
  | Ok (Some db') => (mkResponse 200 true None None, db')
  | Throw e => (failure "Error fetching blog" e, db)
  end.

Definition ReferenceError (ident : string) : StoreError :=
  mkStoreError "ReferenceError" (ident ++ " is not defined").

(** `router.put('/:id')`.  After the upload and the slug check the route
    builds the update from the identifiers `title`, `slug`, ..., which are
    declared nowhere in the handler or the module (the body is bound to
    `blogData`): evaluating the first of them throws, before
    `findByIdAndUpdate` is called. *)
Definition update (raw : string) (b : Body) (file : Upload) (db : Db t)
  : Response * Db t :=
  match file with
  | UploadFailed => (respond 400 false "Failed to upload image", db)
  | _ =>
      match (let! taken :=
               match b_slug b with
               | Some sl =>
                   if (sl =? "") then Ok false
                   else
                     let! id := castObjectId "Blog" raw in
                     let! docs := read db in
                     Ok (existsb (fun x => (slug x =? sl) && negb (_id x =? id)) docs)
               | None => Ok false
               end in
             if taken : bool then Ok tt else Throw (ReferenceError "title")) with
      | Ok _ => (respond 400 false "Blog with this slug already exists", db)
      | Throw e => (failure "Error updating blog" e, db)
      end
  end.

(** `router.delete('/:id')`: `findByIdAndDelete`. *)
Definition delete (raw : string) (db : Db t) : Response * Db t :=
  match (let! id := castObjectId "Blog" raw in
         let! docs := read db in
         Ok (id, docs)) with
  | Ok (id, docs) =>
      match find (fun x => _id x =? id) docs with
      | None => (respond 404 false "Blog not found", db)
      | Some _ =>
          (respond 200 true "Blog deleted successfully",
           Up (filter (fun x => negb (_id x =? id)) docs))
      end
  | Throw e => (failure "Error deleting blog" e, db)
  end.


(** The requests that write blogs. *)
Inductive Request :=
| Create (b : Body) (file : Upload) (fresh : oid)
| View (sl : string)
| Update (raw : string) (b : Body) (file : Upload)
| Delete (raw : string).

Definition handle (now : Z) (r : Request) (db : Db t) : Response * Db t :=
  match r with
  | Create b file fresh => create now b file fresh db
  | View sl => view now sl db
  | Update raw b file => update raw b file db
  | Delete raw => delete raw db
  end.

(** The id a creation request brings for the new document. *)
Definition brings (r : Request) (id : oid) : Prop :=
  match r with
  | Create _ _ fresh => fresh = id
  | _ => False
  end.

End Blog.

(** ** routes/admin.js: the user routes *)

Module Admin.

(** The paths an update document may set, with values of the types of the
    schema. *)
Record Paths := mkPaths {
  p_name : option string;
  p_email : option string;
  p_password : option string;
  p_role : option string;
  p_avatar : option string;
  p_phone : option string;
  p_isActive : option bool;
  p_permissions : option (list User.Permission)
}.

(** The keys of the body of an update request that reach the schema: the
    paths of the user at the top level and the `$set` operator (the one
    update operator that is represented), which the spread of the body
    carries into the update document.  The top-level `isActive` is kept as
    the JSON value that was sent: the route compares it with `false` before
    any cast. *)
Record Body := mkBody {
  b_name : option string;
  b_email : option string;
  b_password : option string;
  b_role : option string;
  b_avatar : option string;
  b_phone : option string;
  b_isActive : option Json;
  b_permissions : option (list User.Permission);
  b_set : option Paths
}.

Definition parseRole (s : string) : option User.Role :=
  if (s =? "admin") then Some User.admin
  else if (s =? "moderator") then Some User.moderator
  else if (s =? "user") then Some User.user
  else None.

(** `/^[6-9]\d{9}$/` *)
Definition validPhone (s : string) : bool :=
  match s with
  | String c rest =>
      let n := nat_of_ascii c in
      (54 <=? n)%nat && (n <=? 57)%nat
      && (String.length rest =? 9)%nat && str_forall is_digit rest
  | EmptyString => false
  end.

(** `isBoolean()` of express-validator: the text of the value is one of
    `true`, `false`, `1`, `0`. *)
Definition isBoolean (v : Json) : bool :=
  match v with
  | JBool _ => true
  | JNum z => (z =? 0)%Z || (z =? 1)%Z
  | JStr s => (s =? "true") || (s =? "false") || (s =? "1") || (s =? "0")
  | _ => false
  end.

(** The cast of a validated value to the Boolean of the schema. *)
Definition castBoolean (v : Json) : bool :=
  match v with
  | JBool b => b
  | JNum z => (z =? 1)%Z
  | JStr s => (s =? "true") || (s =? "1")
  | _ => false
  end.

Definition opt_ok {A} (f : A -> bool) (v : option A) : bool :=
  match v with Some a => f a | None => true end.

(** The express-validator chain of `PUT /users/:id`. *)
Definition updateValid (b : Body) : bool :=
  opt_ok (fun s => let n := String.length (trim s) in (2 <=? n)%nat && (n <=? 50)%nat)
         (b_name b)
  && opt_ok (fun s => match parseRole s with Some _ => true | None => false end)
            (b_role b)
  && opt_ok validPhone (b_phone b)
  && opt_ok isBoolean (b_isActive b).

(** `req.body.isActive === false` *)
Definition is_false (v : option Json) : bool :=
  match v with
  | Some (JBool false) => true
  | _ => false
  end.

(** `User.findById(id)` *)
Definition findById (raw : string) (db : Db User.t) : Result (option User.t) :=
  let! id := castObjectId "User" raw in
  let! docs := read db in
  Ok (find (fun u => User._id u =? id) docs).

(** `const updateData = { ...req.body }; delete updateData.password;
    delete updateData.email;` as Mongoose reads it.  The two deletes remove
    the top-level keys only; a path given at the top level is moved into
    `$set`, over the value `$set` had for it. *)
Definition updateData (b : Body) : Paths :=
  let s := match b_set b with
           | Some s => s
           | None => mkPaths None None None None None None None None
           end in
  mkPaths (first (b_name b) (p_name s))
          (p_email s)
          (p_password s)
          (first (b_role b) (p_role s))
          (first (b_avatar b) (p_avatar s))
          (first (b_phone b) (p_phone s))
          (first (option_map castBoolean (b_isActive b)) (p_isActive s))
          (first (b_permissions b) (p_permissions s)).

(** `String.prototype.toLowerCase` on a code unit below 256. *)
Definition lower (c : ascii) : ascii :=
  let n := nat_of_ascii c in
  if ((65 <=? n)%nat && (n <=? 90)%nat)
     || ((192 <=? n)%nat && (n <=? 222)%nat && negb (n =? 215)%nat)
  then ascii_of_nat (n + 32) else c.

(** The text after the first occurrence of [c]. *)
Fixpoint after (c : ascii) (s : string) : option string :=
  match s with
  | EmptyString => None
  | String x s' => if Ascii.eqb x c then Some s' else after c s'
  end.

(** A dot that is neither the first nor the last character. *)
Definition dot_inside (s : string) : bool :=
  match s with
  | EmptyString => false
  | String _ rest =>
      (fix go (r : string) : bool :=
         match r with
         | String x (String y r' as tl) => Ascii.eqb x "."%char || go tl
         | _ => false
         end) rest
  end.

(** `/^\S+@\S+\.\S+$/` *)
Definition validEmail (s : string) : bool :=
  str_forall (fun c => negb (is_space c)) s
  && match s with
     | EmptyString => false
     | String _ rest =>
         match after "@"%char rest with
         | Some t => dot_inside t
         | None => false
         end
     end.

Definition ValidationError (msg : string) : StoreError :=
  mkStoreError "ValidationError" ("Validation failed: " ++ msg).

(** `runValidators: true`: the validators of the paths being set, on the
    values their setters produced. *)
Definition validateUpdate (u : Paths) : Result unit :=
  if negb (opt_ok (fun n => negb (trim n =? "")) (p_name u))
  then Throw (ValidationError "name: Name is required")
  else if negb (opt_ok (fun n => (String.length (trim n) <=? 50)%nat) (p_name u))
  then Throw (ValidationError "name: Name cannot exceed 50 characters")
  else if negb (opt_ok (fun e => negb (e =? "")) (p_email u))
  then Throw (ValidationError "email: Email is required")
  else if negb (opt_ok (fun e => validEmail (str_map lower e)) (p_email u))
  then Throw (ValidationError "email: Please enter a valid email")
  else if negb (opt_ok (fun w => negb (w =? "")) (p_password u))
  then Throw (ValidationError "password: Password is required")
  else if negb (opt_ok (fun w => (6 <=? String.length w)%nat) (p_password u))
  then Throw (ValidationError "password: Password must be at least 6 characters")
  else if negb (opt_ok (fun r => match parseRole r with Some _ => true | None => false end)
                       (p_role u))
  then Throw (ValidationError "role: not a valid enum value for path `role`.")
  else if negb (opt_ok (fun t => (t =? "") || validPhone t) (p_phone u))
  then Throw (ValidationError "phone: Please enter a valid phone number")
  else Ok tt.

(** The stored user after the update document was applied to it; the
    `timestamps` option stamps `updatedAt`.  No `save` middleware runs, so
    a password is stored as it was sent. *)
Definition applyUpdate (now : Z) (u : Paths) (x : User.t) : User.t :=
  User.mk (User._id x)
          (match p_name u with Some n => trim n | None => User.name x end)
          (match p_email u with Some e => str_map lower e | None => User.email x end)
          (match p_password u with Some w => w | None => User.password x end)
          (match p_role u with
           | Some r => match parseRole r with Some r' => r' | None => User.role x end
           | None => User.role x
           end)
          (match p_avatar u with Some a => a | None => User.avatar x end)
          (match p_phone u with Some t => Some t | None => User.phone x end)
          (match p_isActive u with Some v => v | None => User.isActive x end)
          (match p_permissions u with Some ps => ps | None => User.permissions x end)
          now.

(** The error of the server when a write breaks the unique index of
    `email`. *)
Definition DuplicateKey : StoreError :=
  mkStoreError "MongoServerError"
    "E11000 duplicate key error collection: users index: email_1".

(** `User.findByIdAndUpdate(id, updateData, { new: true, runValidators:
    true })` *)
Definition findByIdAndUpdate (now : Z) (raw : string) (u : Paths)
  (db : Db User.t) : Result (Db User.t) :=
  let! id := castObjectId "User" raw in
  let! _ := validateUpdate u in
  let! docs := read db in
  match p_email u with
  | Some e =>
      if existsb (fun x => (User._id x =? id)) docs
         && existsb (fun x => negb (User._id x =? id)
                              && (User.email x =? str_map lower e)) docs
      then Throw DuplicateKey
      else Ok (Up (map (fun x => if (User._id x =? id) then applyUpdate now u x else x) docs))
  | None =>
      Ok (Up (map (fun x => if (User._id x =? id) then applyUpdate now u x else x) docs))
  end.

Definition updateWhere (raw : string) (f : User.t -> User.t) (db : Db User.t)
  : Result (Db User.t) :=
  let! id := castObjectId "User" raw in
  let! docs := read db in
  Ok (Up (map (fun u => if (User._id u =? id) then f u else u) docs)).

(** The `catch` of the user routes. *)
Definition caught (e : StoreError) (generic : string) : Response :=
  if (ename e =? "CastError") then respond 400 false "Invalid user ID format"
  else respond 500 false generic.

Definition guard (credential : option User.t) : Middleware.Gate :=
  Middleware.andThen (Middleware.auth credential) Middleware.adminAuth.

(** `router.put('/users/:id', [auth, adminAuth, ...])` *)
Definition updateUser (now : Z) (raw : string) (b : Body)
  (credential : option User.t) (db : Db User.t) : Response * Db User.t :=
  match guard credential with
  | Middleware.Reject r => (r, db)
  | Middleware.Pass req_user =>
      if negb (updateValid b) then (respond 400 false "Validation failed", db)
      else
        match findById raw db with
        | Throw e => (caught e "Server error while updating user", db)
        | Ok None => (respond 404 false "User not found", db)
        | Ok (Some _) =>
            if (raw =? User._id req_user) && is_false (b_isActive b) then
              (respond 400 false "You cannot deactivate your own account", db)
            else
              match findByIdAndUpdate now raw (updateData b) db with
              | Ok db' => (respond 200 true "User updated successfully", db')
              | Throw e => (caught e "Server error while updating user", db)
              end
        end
  end.

Definition deactivated (now : Z) (u : User.t) : User.t :=
  User.mk (User._id u) (User.name u) (User.email u) (User.password u)
          (User.role u) (User.avatar u) (User.phone u) false
          (User.permissions u) now.

(** `router.delete('/users/:id', [auth, adminAuth])` *)
Definition deleteUser (now : Z) (raw : string) (credential : option User.t)
  (db : Db User.t) : Response * Db User.t :=
  match guard credential with
  | Middleware.Reject r => (r, db)
  | Middleware.Pass req_user =>
      match findById raw db with
      | Throw e => (caught e "Server error while deleting user", db)
      | Ok None => (respond 404 false "User not found", db)
      | Ok (Some _) =>
          if (raw =? User._id req_user) then
            (respond 400 false "You cannot delete your own account", db)
          else
            match updateWhere raw (deactivated now) db with
            | Ok db' => (respond 200 true "User deactivated successfully", db')
            | Throw e => (caught e "Server error while deleting user", db)
            end
      end
  end.

End Admin.

(** ** models/Course.js and the delete route of routes/courses.js *)

Module Course.

Record t := mk {
  _id : oid;
  title : string;
  description : string;
  category : string;
  level : option string;
  duration : string;
  fees_min : Q;
  fees_max : Q;
  eligibility : string;
  image : string;
  featured : bool;
  trending : bool;
  rating : Q;
  enrollments : Z;
  syllabus : list (string * string);
  careerOpportunities : list string;
  topColleges : list oid;
  status : string;
  createdBy : oid;
  updatedBy : option oid;
  createdAt : Z;
  updatedAt : Z
}.

(** The update `{ status: 'deleted', updatedBy, updatedAt }` applied to a
    stored course.  `findByIdAndUpdate` is called without `runValidators`,
    so the `enum` of `status` is not checked. *)
Definition softDeleted (by_ : oid) (now : Z) (c : t) : t :=
  mk (_id c) (title c) (description c) (category c) (level c) (duration c)
     (fees_min c) (fees_max c) (eligibility c) (image c) (featured c)
     (trending c) (rating c) (enrollments c) (syllabus c)
     (careerOpportunities c) (topColleges c) "deleted" (createdBy c)
     (Some by_) (createdAt c) now.

Definition findById (raw : string) (db : Db t) : Result (option t) :=
  let! id := castObjectId "Course" raw in
  let! docs := read db in
  Ok (find (fun c => _id c =? id) docs).

Definition updateWhere (raw : string) (f : t -> t) (db : Db t) : Result (Db t) :=
  let! id := castObjectId "Course" raw in
  let! docs := read db in
  Ok (Up (map (fun c => if (_id c =? id) then f c else c) docs)).

Definition caught (e : StoreError) (generic : string) : Response :=
  if (ename e =? "CastError") then respond 400 false "Invalid course ID format"
  else respond 500 false generic.

(** `router.delete('/:id', [auth, requirePermission('delete_course')])` *)
Definition delete (now : Z) (raw : string) (credential : option User.t)
  (db : Db t) : Response * Db t :=
  match Middleware.andThen (Middleware.auth credential)
          (Middleware.requirePermission User.delete_course) with
  | Middleware.Reject r => (r, db)
  | Middleware.Pass req_user =>
      match findById raw db with
      | Throw e => (caught e "Server error while deleting course", db)
      | Ok None => (respond 404 false "Course not found", db)
      | Ok (Some _) =>
          match updateWhere raw (softDeleted (User._id req_user) now) db with
          | Ok db' => (respond 200 true "Course deleted successfully", db')
          | Throw e => (caught e "Server error while deleting course", db)
          end
      end
  end.

(** A course in memory as `GET /:id` handles it: the stored fields, the
    schema paths in the `modify` state, and the own property `views` the
    route assigns.  `views` is not a path of the schema, so the assignment
    marks nothing modified and `save` has nothing to write. *)
Record Doc := mkDoc {
  fields : t;
  modified : list string;
  views : option Z
}.

Definition hydrate (c : t) : Doc := mkDoc c [] None.

(** `course.views = (course.views || 0) + 1` *)
Definition bump_views (d : Doc) : Doc :=
  mkDoc (fields d) (modified d)
        (Some (match views d with
               | Some v => if (v =? 0)%Z then 1 else v + 1
               | None => 1
               end)%Z).

Definition ValidationError (msg : string) : StoreError :=
  mkStoreError "ValidationError" ("Course validation failed: " ++ msg).

Definition validCategory (c : string) : bool :=
  existsb (String.eqb c)
    ["Engineering"; "Medical"; "Management"; "Arts"; "Science"; "Commerce";
     "Law"; "Other"].

Definition validStatus (s : string) : bool :=
  existsb (String.eqb s) ["active"; "inactive"; "draft"].

(** The validators `save` runs on a stored course, on every path: the
    required paths, the lengths, the enums of `category` and `status`, the
    bounds of the fees, of `rating` and of `enrollments`, and the required
    texts of the syllabus and career items. *)
Definition validate (c : t) : Result unit :=
  if (title c =? "") || (description c =? "") || (category c =? "")
     || (duration c =? "") || (eligibility c =? "") || (image c =? "")
  then Throw (ValidationError "a required path is missing.")
  else if (100 <? String.length (title c))%nat
  then Throw (ValidationError "Course title cannot exceed 100 characters")
  else if (1000 <? String.length (description c))%nat
  then Throw (ValidationError "Course description cannot exceed 1000 characters")
  else if negb (validCategory (category c))
  then Throw (ValidationError "category: not a valid enum value.")
  else if negb (Qle_bool 0 (fees_min c)) || negb (Qle_bool 0 (fees_max c))
  then Throw (ValidationError "Fees cannot be negative")
  else if negb (Qle_bool 0 (rating c))
  then Throw (ValidationError "Rating cannot be less than 0")
  else if negb (Qle_bool (rating c) 5)
  then Throw (ValidationError "Rating cannot be more than 5")
  else if (enrollments c <? 0)%Z
  then Throw (ValidationError "Enrollments cannot be negative")
  else if negb (validStatus (status c))
  then Throw (ValidationError "status: not a valid enum value.")
  else if existsb (fun '(topic, text) => (topic =? "") || (text =? "")) (syllabus c)
          || existsb (fun o => o =? "") (careerOpportunities c)
  then Throw (ValidationError "a required path of a list item is missing.")
  else Ok tt.

(** `doc.save()` of a stored course: validation, then an update of the
    modified paths, none when nothing is modified. *)
Definition save (d : Doc) (db : Db t) : Result (Db t) :=
  let! _ := validate (fields d) in
  match modified d with
  | [] => Ok db
  | _ =>
      let! docs := read db in
      Ok (Up (map (fun c => if (_id c =? _id (fields d)) then fields d else c) docs))
  end.

(** `router.get('/:id')` *)
Definition getOne (raw : string) (db : Db t) : Response * option t * Db t :=
  match (let! found := findById raw db in
         match found with
         | None => Ok None
         | Some c =>
             let course := bump_views (hydrate c) in
             let! db' := save course db in
             Ok (Some (fields course, db'))
         end) with
  | Ok None => (respond 404 false "Course not found", None, db)
  | Ok (Some (c, db')) => (mkResponse 200 true None None, Some c, db')
  | Throw e => (caught e "Server error while fetching course", None, db)
  end.

End Course.

(** ** models/College.js and routes/colleges.js *)

Module College.

Record t := mk {
  _id : oid;
  name : string;
  description : string;
  image : option string;
  address : string;
  website : option string;
  status : string;
  createdBy : option oid;
  updatedBy : option oid;
  createdAt : Z;
  updatedAt : Z
}.

Definition softDeleted (by_ : oid) (now : Z) (c : t) : t :=
  mk (_id c) (name c) (description c) (image c) (address c) (website c)
     "deleted" (createdBy c) (Some by_) (createdAt c) now.

Definition findById (raw : string) (db : Db t) : Result (option t) :=
  let! id := castObjectId "College" raw in
  let! docs := read db in
  Ok (find (fun c => _id c =? id) docs).

Definition updateWhere (raw : string) (f : t -> t) (db : Db t) : Result (Db t) :=
  let! id := castObjectId "College" raw in
  let! docs := read db in
  Ok (Up (map (fun c => if (_id c =? id) then f c else c) docs)).

Definition caught (e : StoreError) (generic : string) : Response :=
  if (ename e =? "CastError") then respond 400 false "Invalid college ID format"
  else respond 500 false generic.

(** What `.select('name description image address status createdAt
    updatedAt')` keeps of a college, with the `_id` a selection always
    includes. *)
Record Selected := mkSelected {
  s_id : oid;
  s_name : string;
  s_description : string;
  s_image : option string;
  s_address : string;
  s_status : string;
  s_createdAt : Z;
  s_updatedAt : Z
}.

Definition select (c : t) : Selected :=
  mkSelected (_id c) (name c) (description c) (image c) (address c) (status c)
             (createdAt c) (updatedAt c).

(** `router.get('/:id')`; the answer to a hit has no `message`. *)
Definition getById (raw : string) (db : Db t) : Response * option Selected :=
  match findById raw db with
  | Throw e => (caught e "Server error while fetching college", None)
  | Ok None => (respond 404 false "College not found", None)
  | Ok (Some c) => (mkResponse 200 true None None, Some (select c))
  end.

(** `router.delete('/:id', [auth, requirePermission('delete_college')])` *)
Definition delete (now : Z) (raw : string) (credential : option User.t)
  (db : Db t) : Response * Db t :=
  match Middleware.andThen (Middleware.auth credential)
          (Middleware.requirePermission User.delete_college) with
  | Middleware.Reject r => (r, db)
  | Middleware.Pass req_user =>
      match findById raw db with
      | Throw e => (caught e "Server error while deleting college", db)
      | Ok None => (respond 404 false "College not found", db)
      | Ok (Some _) =>
          match updateWhere raw (softDeleted (User._id req_user) now) db with
          | Ok db' => (respond 200 true "College deleted successfully", db')
          | Throw e => (caught e "Server error while deleting college", db)
          end
      end
  end.

(** The text fields of a multipart request body.  `status` and `website`
    are listed because a client may send them; neither route reads them. *)
Record Body := mkBody {
  b_name : option string;
  b_description : option string;
  b_address : option string;
  b_status : option string;
  b_website : option string
}.

Definition ValidationError (msg : string) : StoreError :=
  mkStoreError "ValidationError" ("College validation failed: " ++ msg).

(** `error.code === 11000`: the duplicate-key error of the server, whose
    message starts with its code. *)
Definition is_duplicate_key (e : StoreError) : bool :=
  String.prefix "E11000" (emessage e).

(** `notEmpty()` on the three required fields. *)
Definition createValid (b : Body) : bool :=
  truthy (b_name b) && truthy (b_description b) && truthy (b_address b).

(** `new College(collegeData)` and its validation on `save`: the three
    required texts (`name` is trimmed by the schema). *)
Definition newCollege (fresh : oid) (now : Z) (nm ds ad : string)
  (img : option string) (by_ : oid) : t :=
  mk fresh (trim nm) ds img ad None "active" (Some by_) (Some by_) now now.

(** `/^https?:\/\/.+/`: the scheme and one more character that ends no
    line. *)
Definition validWebsite (v : string) : bool :=
  let rest_ok (r : string) :=
    match r with
    | String c _ => let n := nat_of_ascii c in negb ((n =? 10)%nat || (n =? 13)%nat)
    | EmptyString => false
    end in
  (String.prefix "http://" v && rest_ok (String.substring 7 (String.length v - 7) v))
  || (String.prefix "https://" v && rest_ok (String.substring 8 (String.length v - 8) v)).

Definition validate (c : t) : Result unit :=
  if (name c =? "") || (description c =? "") || (address c =? "")
  then Throw (ValidationError "a required path is missing.")
  else match website c with
       | Some v =>
           if (v =? "") || validWebsite v then Ok tt
           else Throw (ValidationError "Website must be a valid URL starting with http:// or https://")
       | None => Ok tt
       end.

(** `router.post('/', [auth, requirePermission('create_college'), ...])` *)
Definition create (now : Z) (b : Body) (file : Blog.Upload) (fresh : oid)
  (credential : option User.t) (db : Db t) : Response * Db t :=
  match Middleware.andThen (Middleware.auth credential)
          (Middleware.requirePermission User.create_college) with
  | Middleware.Reject r => (r, db)
  | Middleware.Pass req_user =>
      if negb (createValid b) then (respond 400 false "Validation failed", db)
      else
        match file with
        | Blog.UploadFailed => (respond 400 false "Failed to upload image", db)
        | _ =>
            let img := match file with
                       | Blog.Uploaded url => Some url
                       | _ => None
                       end in
            let college :=
              newCollege fresh now
                (trim (Popup.or_default (b_name b) ""))
                (trim (Popup.or_default (b_description b) ""))
                (trim (Popup.or_default (b_address b) ""))
                img (User._id req_user) in
            match (let! _ := validate college in
                   let! docs := read db in
                   Ok (Up (docs ++ [college]))) with
            | Ok db' => (respond 201 true "College created successfully", db')
            | Throw e =>
                if is_duplicate_key e
                then (respond 400 false "College with this name already exists", db)
                else (respond 500 false "Server error while creating college", db)
            end
        end
  end.

Definition nonempty (v : option string) : option string :=
  match v with
  | Some s => if (s =? "") then None else Some s
  | None => None
  end.

(** The update document of `PUT /:id` applied to a stored college: the
    three texts where the body gives a non-empty one, the uploaded image,
    `updatedBy` and `updatedAt`. *)
Definition applyUpdate (now : Z) (b : Body) (img : option string) (by_ : oid)
  (c : t) : t :=
  mk (_id c)
     (match nonempty (b_name b) with Some n => trim n | None => name c end)
     (match nonempty (b_description b) with Some d => d | None => description c end)
     (match img with Some url => Some url | None => image c end)
     (match nonempty (b_address b) with Some a => a | None => address c end)
     (website c) (status c) (createdBy c) (Some by_) (createdAt c) now.

(** `runValidators: true` on the paths being set: a `name` that is blank
    after the schema's trim fails `required`. *)
Definition validateUpdate (b : Body) : Result unit :=
  match nonempty (b_name b) with
  | Some n =>
      if (trim n =? "") then Throw (ValidationError "name: Path `name` is required.")
      else Ok tt
  | None => Ok tt
  end.

(** `router.put('/:id', [auth, requirePermission('edit_college'), ...])` *)
Definition update (now : Z) (raw : string) (b : Body) (file : Blog.Upload)
  (credential : option User.t) (db : Db t) : Response * Db t :=
  match Middleware.andThen (Middleware.auth credential)
          (Middleware.requirePermission User.edit_college) with
  | Middleware.Reject r => (r, db)
  | Middleware.Pass req_user =>
      match findById raw db with
      | Throw e => (caught e "Server error while updating college", db)
      | Ok None => (respond 404 false "College not found", db)
      | Ok (Some _) =>
          match file with
          | Blog.UploadFailed => (respond 400 false "Failed to upload image", db)
          | _ =>
              let img := match file with
                         | Blog.Uploaded url => Some url
                         | _ => None
                         end in
              match (let! _ := validateUpdate b in
                     updateWhere raw (applyUpdate now b img (User._id req_user)) db) with
              | Ok db' => (respond 200 true "College updated successfully", db')
              | Throw e => (caught e "Server error while updating college", db)
              end
          end
      end
  end.

(** The requests that write colleges. *)
Inductive Request :=
| Create (b : Body) (file : Blog.Upload) (fresh : oid)
| Update (raw : string) (b : Body) (file : Blog.Upload)
| Delete (raw : string).

Definition handle (now : Z) (credential : option User.t) (r : Request)
  (db : Db t) : Response * Db t :=
  match r with
  | Create b file fresh => create now b file fresh credential db
  | Update raw b file => update now raw b file credential db
  | Delete raw => delete now raw credential db
  end.

Definition brings (r : Request) (id : oid) : Prop :=
  match r with
  | Create _ _ fresh => fresh = id
  | _ => False
  end.

End College.

(** ** Sample documents *)

Module UserFixtures.

Definition root : User.t :=
  User.mk "64a000000000000000000001" "Admin User" "admin@admissionshala.com"
          "$2a$12$hash" User.admin "" None true [] 0.

Definition mod1 : User.t :=
  User.mk "64a000000000000000000002" "Moderator" "mod@admissionshala.com"
          "$2a$12$hash" User.moderator "" None true [] 0.


Definition rename : Admin.Body :=
  Admin.mkBody (Some " Head Moderator ") (Some "new@admissionshala.com")
               (Some "plaintext") None None None None
               (Some [User.delete_course]) None.

(** A body that carries the email and the password under `$set`. *)
Definition setCredentials : Admin.Body :=
  Admin.mkBody None None None None None None None None
    (Some (Admin.mkPaths None (Some "Taken@Admissionshala.com") (Some "plaintext")
                         None None None None None)).

(** A body that carries `isActive: false` under `$set`. *)
Definition setInactive : Admin.Body :=
  Admin.mkBody None None None None None None None None
    (Some (Admin.mkPaths None None None None None None (Some false) None)).

Definition course1 : Course.t :=
  Course.mk "64e000000000000000000001" "B.Tech Computer Science"
            "Four year engineering degree" "Engineering" None "4 years"
            (1000 # 1) (5000 # 1) "10+2 with PCM" "https://img/course.png"
            false true (9 # 2) 120%Z [("Semester 1", "Mathematics")]
            ["Software Engineer"] [] "active" "64a000000000000000000001"
            None 10%Z 10%Z.

Definition college1 : College.t :=
  College.mk "64f000000000000000000001" "Delhi Technical College"
             "Engineering college" None "Delhi" None "active"
             (Some "64a000000000000000000001") None 10%Z 10%Z.

End UserFixtures.

Module PopupFixtures.

Definition idA : oid := "64b000000000000000000001".
Definition idB : oid := "64b000000000000000000002".
Definition idC : oid := "64b000000000000000000003".

Definition popupA : Popup.t :=
  Popup.mk idA "Admissions open" "Apply now" "Learn More" None true 30000
           "#ffffff" "#333333" "#007bff" None None.

Definition popupB : Popup.t :=
  Popup.mk idB "Scholarships" "Deadline soon" "Learn More" None false 30000
           "#ffffff" "#333333" "#007bff" None None.

Definition noBody : Popup.Body :=
  Popup.mkBody None None None None None None None None None None None.

Definition activate : Popup.Body :=
  Popup.mkBody None None None None (Some true) None None None None None None.

Definition newC : Popup.Body :=
  Popup.mkBody (Some "Open day") (Some "Visit us") None None None None None None None
               None None.

End PopupFixtures.

Module ContentFixtures.

Definition hero (title : string) : Json :=
  JObj [("hero", JObj [("title", JStr title)])].

Definition home : Content.t :=
  Content.mk "64c000000000000000000001" "home" (Some (hero "Welcome"))
             "64a000000000000000000001" 2 true.

End ContentFixtures.

(** What `save` receives from the update branch of the route. *)
Definition edited (c : Content.t) (s : Json) (by_ : oid) (act : option bool) : Content.Doc :=
  let content := Content.set_lastUpdatedBy (Content.set_sections (Content.hydrate c) s) by_ in
  match act with
  | Some v => Content.set_isActive content v
  | None => content
  end.

(** The stored snapshot after the save of the update branch: the sections
    and the version change together, when the payload is not the stored
    value. *)
Definition saved (c : Content.t) (s : Json) (by_ : oid) (act : option bool)
  : Content.t :=
  Content.mk (Content._id c) (Content.page c)
     (if Content.same_sections s (Content.sections c) then Content.sections c
      else minimize s)
     by_
     (if Content.same_sections s (Content.sections c) then Content.version c
      else js_succ (Content.version c))
     (match act with Some v => v | None => Content.isActive c end).

Module BlogFixtures.

Definition idP : oid := "64d000000000000000000001".
Definition idQ : oid := "64d000000000000000000002".

Definition fifty : string :=
  "Choosing a college is a decision that shapes the next four years.".

Definition draftBody (st : option string) : Blog.Body :=
  Blog.mkBody (Some "How to choose a college") (Some "how-to-choose-a-college")
              (Some "A short guide to choosing.") (Some fifty) None
              (Some "Education") None None st None None None None.

Definition published : Blog.t :=
  Blog.mk idP "Admission tips" "admission-tips" "Ten tips for admission."
          fifty "" "Tips" [] None "published" false 7%Z 0%Z (Some 1000%Z) None None 5%Z.

End BlogFixtures.

(* ================================================================== *)
(** * Properties *)

Section PermissionFacts.
Import User.

Lemma Permission_eqb_eq (a b : Permission) : Permission_eqb a b = true <-> a = b.
Proof. destruct a, b; simpl; split; intro H; try reflexivity; discriminate. Qed.

Lemma includes_In (l : list Permission) (p : Permission) :
  includes l p = true <-> In p l.
Proof.
  induction l as [|x l IH]; simpl.
  - split; [discriminate | tauto].
  - rewrite orb_true_iff, Permission_eqb_eq, IH. tauto.
Qed.

(** Once the set holds every permission, spreading more into it adds nothing. *)
Lemma set_spread_saturated (seen xs : list Permission) :
  (forall p, includes seen p = true) -> set_spread seen xs = rev seen.
Proof.
  intros Hall. induction xs as [|x xs IH]; simpl.
  - reflexivity.
  - rewrite Hall. exact IH.
Qed.

Lemma set_spread_app_fresh (seen xs ys : list Permission) :
  NoDup (rev seen ++ xs) ->
  set_spread seen (xs ++ ys) = set_spread (rev xs ++ seen) ys.
Proof.
  revert seen. induction xs as [|x xs IH]; intros seen Hnd; simpl.
  - reflexivity.
  - destruct (includes seen x) eqn:E.
    + exfalso. apply includes_In in E.
      apply NoDup_remove_2 in Hnd. apply Hnd.
      apply in_or_app. left. apply in_rev in E. exact E.
    + rewrite IH.
      * rewrite <- app_assoc. reflexivity.
      * simpl. rewrite <- app_assoc. exact Hnd.
Qed.

End PermissionFacts.

(** C2. [hasPermission] answers true for every admin, and for any other role
    answers exactly the membership of the permission in the account's stored
    [permissions] list; the role's default set plays no part, so a moderator
    whose stored list is empty is refused every permission, including
    [create_course], which is among the moderator defaults. *)
Theorem C2_hasPermission_stored_set :
  (forall (u : User.t) (p : User.Permission),
      User.role u = User.admin -> User.hasPermission u p = true) /\
  (forall (u : User.t) (p : User.Permission),
      User.role u <> User.admin ->
      (User.hasPermission u p = true <-> In p (User.permissions u))) /\
  (forall (u : User.t) (p : User.Permission),
      User.role u = User.moderator -> User.permissions u = [] ->
      User.hasPermission u p = false) /\
  In User.create_course (User.rolePermissions User.moderator).
Proof.
  repeat split.
  - intros u p H. unfold User.hasPermission. rewrite H. reflexivity.
  - unfold User.hasPermission. destruct (User.role u); try congruence;
      simpl; apply includes_In.
  - unfold User.hasPermission. destruct (User.role u); try congruence;
      simpl; apply includes_In.
  - intros u p Hr Hp. unfold User.hasPermission. rewrite Hr, Hp. reflexivity.
  - simpl. auto.
Qed.

Lemma C2_hasPermission_stored_set_witness :
  User.hasPermission UserFixtures.root User.manage_users = true /\
  (User.hasPermission UserFixtures.mod1 User.create_course = true <-> In User.create_course []) /\
  User.hasPermission UserFixtures.mod1 User.create_course = false.
Proof.
  destruct C2_hasPermission_stored_set as (Hadmin & Hother & Hempty & _).
  split; [|split].
  - apply Hadmin. reflexivity.
  - apply (Hother UserFixtures.mod1 User.create_course). discriminate.
  - apply Hempty; reflexivity.
Defined.

(** C5. For an admin account [getPermissions] returns the eight permissions
    of the universe, each once and in the order of the role table, whatever
    the stored [permissions] list holds. *)
Theorem C5_admin_getPermissions_universe (u : User.t) :
  User.role u = User.admin ->
  User.getPermissions u =
    [User.create_course; User.edit_course; User.delete_course;
     User.create_college; User.edit_college; User.delete_college;
     User.manage_users; User.view_analytics].
Proof.
  intros Hr. unfold User.getPermissions. rewrite Hr.
  rewrite set_spread_app_fresh.
  - rewrite set_spread_saturated; [reflexivity|].
    intros p; destruct p; reflexivity.
  - simpl. repeat constructor; simpl; intuition discriminate.
Qed.

Lemma C5_admin_getPermissions_universe_witness :
  User.getPermissions
    (User.mk "64a000000000000000000009" "Second Admin" "second@admissionshala.com"
             "$2a$12$hash" User.admin "" None true
             [User.manage_users; User.manage_users; User.edit_course] 0)
  = [User.create_course; User.edit_course; User.delete_course;
     User.create_college; User.edit_college; User.delete_college;
     User.manage_users; User.view_analytics].
Proof.
  apply (C5_admin_getPermissions_universe
           (User.mk "64a000000000000000000009" "Second Admin"
                    "second@admissionshala.com" "$2a$12$hash" User.admin ""
                    None true
                    [User.manage_users; User.manage_users; User.edit_course] 0)).
  reflexivity.
Defined.

(** ** Popups *)

Section PopupFacts.
Import Popup.

Lemma id_with_isActive (p : t) (v : bool) : _id (with_isActive p v) = _id p.
Proof. reflexivity. Qed.

(** After the hook and the write of an active document [x], the active
    popups are exactly the stored documents that carry the id of [x]. *)
Lemma activeCount_activated (x : t) (docs : list t) :
  isActive x = true ->
  activeCount
    (map (fun p => if (_id p =? _id x) then x else p)
         (deactivate_others (_id x) docs))
  = count_occ string_dec (map _id docs) (_id x).
Proof.
  intros Hx. unfold activeCount, deactivate_others.
  induction docs as [|q docs IH]; simpl.
  - reflexivity.
  - destruct (_id q =? _id x) eqn:E.
    + rewrite E. rewrite Hx. simpl.
      apply String.eqb_eq in E.
      destruct (string_dec (_id q) (_id x)); [|contradiction].
      f_equal. exact IH.
    + rewrite id_with_isActive, E. simpl.
      apply String.eqb_neq in E.
      destruct (string_dec (_id q) (_id x)); [contradiction|].
      exact IH.
Qed.

Lemma findById_In (id : oid) (docs : list t) (p : t) :
  findById id docs = Some p -> In id (map _id docs) /\ _id p = id.
Proof.
  unfold findById. intros H. apply find_some in H. destruct H as [Hin He].
  apply String.eqb_eq in He. split; [|exact He].
  rewrite <- He. apply in_map. exact Hin.
Qed.

Lemma count_occ_NoDup_In (l : list string) (x : string) :
  NoDup l -> In x l -> count_occ string_dec l x = 1%nat.
Proof.
  intros Hnd Hin.
  pose proof (proj1 (NoDup_count_occ string_dec l) Hnd x) as Hle.
  pose proof (proj1 (count_occ_In string_dec l x) Hin) as Hge.
  lia.
Qed.

(** The document the toggle route hands to `save` when it switches an
    inactive popup on. *)
Lemma toggled_on_doc (p : t) (by_ : oid) :
  isActive p = false ->
  let d := set_updatedBy (set_isActive (hydrate p) (negb (isActive p))) by_ in
  isNew d = false /\ isModified d "isActive" = true /\
  fields d = with_updatedBy (with_isActive p true) (Some by_).
Proof.
  intros Hin. unfold set_updatedBy, set_isActive, hydrate, isModified.
  simpl. rewrite Hin. simpl.
  destruct (option_oid_eqb (updatedBy p) (Some by_)); simpl; auto.
Qed.

Lemma in_range (d : Z) :
  (5000 <= d <= 120000)%Z -> ((d <? 5000)%Z || (120000 <? d)%Z) = false.
Proof. intros H. apply orb_false_iff. split; apply Z.ltb_ge; lia. Qed.

(** `save` of a stored, valid document whose `isActive` was switched on. *)
Lemma save_activated (d : Doc) (docs : list t) :
  isNew d = false -> isModified d "isActive" = true ->
  (5000 <= displayDelay (fields d) <= 120000)%Z ->
  isActive (fields d) = true ->
  title (fields d) <> "" -> content (fields d) <> "" ->
  save d (Up docs) =
    Ok (Up (map (fun p => if (_id p =? _id (fields d)) then fields d else p)
                (deactivate_others (_id (fields d)) docs))).
Proof.
  intros Hn Hm Hd Ha Ht Hc. unfold save, validate, persist, pre_save.
  apply String.eqb_neq in Ht. apply String.eqb_neq in Hc.
  rewrite Ht, Hc, (in_range _ Hd), Hn, Ha, Hm. reflexivity.
Qed.

Lemma findById_activated (x : t) (docs : list t) :
  In (_id x) (map _id docs) ->
  findById (_id x)
    (map (fun p => if (_id p =? _id x) then x else p)
         (deactivate_others (_id x) docs)) = Some x.
Proof.
  unfold findById, deactivate_others.
  induction docs as [|q docs IH]; simpl; [contradiction|].
  intros Hmem. destruct (_id q =? _id x) eqn:E; simpl.
  - rewrite E. simpl. rewrite String.eqb_refl. reflexivity.
  - rewrite E. simpl. rewrite E. apply IH.
    destruct Hmem as [Hq|Hq]; [|exact Hq].
    apply String.eqb_neq in E. contradiction.
Qed.

(** The toggle route does what the hook is for: switching an inactive popup
    on through `save` leaves it as the only active one. *)
Lemma toggle_activation_single_active
  (raw : string) (id : oid) (u : User.t) (docs : list t) (p : t) :
  castObjectId "Popup" raw = Ok id ->
  NoDup (map _id docs) ->
  findById id docs = Some p ->
  isActive p = false ->
  title p <> "" -> content p <> "" ->
  (5000 <= displayDelay p <= 120000)%Z ->
  exists docs',
    toggle raw (Some u) (Up docs) =
      (respond 200 true "Popup activated successfully", Up docs') /\
    activeCount docs' = 1%nat /\
    option_map isActive (findById id docs') = Some true.
Proof.
  intros Hcast Hnd Hfind Hin Ht Hc Hd.
  destruct (findById_In _ _ _ Hfind) as [Hmem Hid].
  destruct (toggled_on_doc p (User._id u) Hin) as (Hn & Hm & Hf).
  unfold toggle. rewrite Hcast. cbn [bindR read]. rewrite Hfind.
  cbn [bindR req_user_id].
  rewrite save_activated; try assumption; try (rewrite Hf; assumption).
  2: rewrite Hf; reflexivity.
  cbn [bindR]. rewrite Hf. cbn [isActive with_updatedBy with_isActive].
  set (x := with_updatedBy (with_isActive p true) (Some (User._id u))).
  assert (Hx : _id x = id) by exact Hid.
  eexists; split; [reflexivity|].
  change (_id p) with (_id x). split.
  - rewrite activeCount_activated by reflexivity.
    apply count_occ_NoDup_In; [exact Hnd | rewrite Hx; exact Hmem].
  - rewrite <- Hx at 1. rewrite findById_activated; [reflexivity|].
    rewrite Hx. exact Hmem.
Qed.

Example toggle_switches_B_on :
  exists docs',
    toggle PopupFixtures.idB (Some UserFixtures.root)
      (Up [PopupFixtures.popupA; PopupFixtures.popupB]) =
      (respond 200 true "Popup activated successfully", Up docs') /\
    activeCount docs' = 1%nat /\
    option_map isActive (findById PopupFixtures.idB docs') = Some true.
Proof.
  apply (toggle_activation_single_active PopupFixtures.idB PopupFixtures.idB
           UserFixtures.root [PopupFixtures.popupA; PopupFixtures.popupB]
           PopupFixtures.popupB); try reflexivity; try discriminate.
  - repeat constructor; simpl; intuition discriminate.
  - simpl. lia.
Qed.

End PopupFacts.

(** C1. The single-active-popup rule is kept by `popup.save()` alone.  A
    `PUT /popup/:id` that sets `isActive: true` goes through
    `findByIdAndUpdate` and leaves the popup that was active before active
    as well; a creation leaves `isActive` at its schema default, which the
    hook does not count as modified, with the same outcome.  Both end with
    two active popups. *)
Theorem C1_activation_outside_toggle_leaves_two_active :
  (let r := Popup.update PopupFixtures.idB PopupFixtures.activate
              (Some UserFixtures.root)
              (Up [PopupFixtures.popupA; PopupFixtures.popupB]) in
   fst r = respond 200 true "Popup updated successfully" /\
   exists docs', snd r = Up docs' /\
     map Popup.isActive docs' = [true; true] /\
     Popup.activeCount docs' = 2%nat) /\
  (let r := Popup.create PopupFixtures.newC PopupFixtures.idC
              (Up [PopupFixtures.popupA]) in
   fst r = respond 201 true "Popup created successfully" /\
   exists docs', snd r = Up docs' /\
     map Popup.isActive docs' = [true; true] /\
     Popup.activeCount docs' = 2%nat).
Proof.
  split; simpl; (split; [reflexivity|]); eexists; (split; [reflexivity|]);
    split; reflexivity.
Qed.

(** C9.  Creation stores the new popup as active and deactivates nobody:
    the collection after a creation is the collection before it with the
    new popup appended, so the number of active popups grows by one and a
    popup that was active stays active.  `isActive` of the new popup is its
    schema default, which `isModified` does not count, and the hook that
    keeps a single active popup is passed over.  The creation itself
    happens for a body with a non-empty `content`, a `title` that is not
    blank and a `displayDelay` that is absent or within 5000..120000,
    whatever `isActive` the body carries; a body without `title` or
    without `content` is answered 400 and stores nothing. *)
Theorem C9_create_deactivates_no_popup :
  (forall (b : Popup.Body) (fresh : oid) (db : Db Popup.t),
      truthy (Popup.b_title b) = false \/ truthy (Popup.b_content b) = false ->
      Popup.create b fresh db =
        (respond 400 false "Title and content are required", db)) /\
  (forall (b : Popup.Body) (fresh : oid) (docs : list Popup.t),
      truthy (Popup.b_content b) = true ->
      truthy (option_map trim (Popup.b_title b)) = true ->
      (forall d, Popup.b_displayDelay b = Some d -> (5000 <= d <= 120000)%Z) ->
      exists p,
        Popup.create b fresh (Up docs) =
          (respond 201 true "Popup created successfully", Up (docs ++ [p])) /\
        Popup._id p = fresh /\ Popup.isActive p = true /\
        Some (Popup.title p) = option_map trim (Popup.b_title b) /\
        Some (Popup.content p) = Popup.b_content b /\
        Popup.activeCount (docs ++ [p]) = S (Popup.activeCount docs) /\
        (forall q, In q docs -> Popup.isActive q = true ->
                   (2 <= Popup.activeCount (docs ++ [p]))%nat)).
Proof.
  split.
  - intros b fresh db H. unfold Popup.create.
    destruct H as [H|H]; rewrite H; simpl; [reflexivity|].
    rewrite orb_true_r. reflexivity.
  - intros b fresh docs Hc Ht Hd.
    destruct b as [bt bc bbt bbl ba bd bbg btc bbc bcb bs]. simpl in *.
    destruct bt as [ti|]; [|discriminate].
    destruct bc as [co|]; [|discriminate].
    simpl in *.
    assert (Hti : (ti =? "") = false).
    { destruct ti; [discriminate | reflexivity]. }
    unfold Popup.create. simpl. rewrite Hti, Hc. simpl.
    unfold Popup.save, Popup.validate. simpl.
    apply negb_true_iff in Ht. apply negb_true_iff in Hc. rewrite Ht, Hc.
    assert (Hrange : ((Popup.or_default bd 30000 <? 5000)%Z
                      || (120000 <? Popup.or_default bd 30000)%Z) = false).
    { destruct bd as [d|]; simpl; [|reflexivity].
      apply in_range. exact (Hd d eq_refl). }
    rewrite Hrange. simpl.
    unfold Popup.pre_save, Popup.persist, Popup.isModified. simpl.
    match goal with
    | |- context [existsb ?f ?l] =>
        assert (Hm : existsb f l = false)
    end.
    { destruct bbt, bbl, bd, bbg, btc, bbc; reflexivity. }
    rewrite Hm. simpl.
    eexists; split; [reflexivity|].
    assert (Hcount : forall x, Popup.isActive x = true ->
              Popup.activeCount (docs ++ [x]) = S (Popup.activeCount docs)).
    { intros x Hx. unfold Popup.activeCount.
      rewrite filter_app, length_app. simpl. rewrite Hx. simpl. lia. }
    repeat split.
    + apply Hcount. reflexivity.
    + intros q Hq Hact. rewrite Hcount by reflexivity.
      assert (1 <= Popup.activeCount docs)%nat; [|lia].
      unfold Popup.activeCount.
      assert (Hin : In q (filter Popup.isActive docs)).
      { apply filter_In. split; assumption. }
      destruct (filter Popup.isActive docs); [contradiction | simpl; lia].
Qed.

Lemma C9_create_deactivates_no_popup_witness :
  Popup.create PopupFixtures.noBody PopupFixtures.idC (Up [PopupFixtures.popupA]) =
    (respond 400 false "Title and content are required", Up [PopupFixtures.popupA]) /\
  exists p,
    Popup.create
      (Popup.mkBody (Some "Open day") (Some "Visit us") None None (Some false)
                    None None None None None None)
      PopupFixtures.idC (Up [PopupFixtures.popupA]) =
      (respond 201 true "Popup created successfully",
       Up ([PopupFixtures.popupA] ++ [p])) /\
    Popup._id p = PopupFixtures.idC /\ Popup.isActive p = true /\
    Some (Popup.title p) = Some "Open day" /\
    Some (Popup.content p) = Some "Visit us" /\
    Popup.activeCount ([PopupFixtures.popupA] ++ [p]) = 2%nat /\
    (forall q, In q [PopupFixtures.popupA] -> Popup.isActive q = true ->
               (2 <= Popup.activeCount ([PopupFixtures.popupA] ++ [p]))%nat).
Proof.
  destruct C9_create_deactivates_no_popup as [Hmissing Hcreate].
  split.
  - apply Hmissing. left. reflexivity.
  - apply (Hcreate
             (Popup.mkBody (Some "Open day") (Some "Visit us") None None
                           (Some false) None None None None None None)
             PopupFixtures.idC [PopupFixtures.popupA]).
    + reflexivity.
    + reflexivity.
    + intros d H. discriminate H.
Defined.

(** ** Content pages *)




Section ContentFacts.
Import Content.


Lemma edited_sections_modified (c : t) (s : Json) (by_ : oid) (act : option bool) :
  isModified (edited c s by_ act) "sections" = negb (same_sections s (sections c)).
Proof.
  unfold edited, set_isActive, set_lastUpdatedBy, set_sections, mark,
    isModified, hydrate.
  destruct act as [v|]; simpl;
    destruct (same_sections s (sections c)); simpl;
    destruct (by_ =? lastUpdatedBy c); simpl;
    try destruct (Bool.eqb v (isActive c)); reflexivity.
Qed.

Lemma edited_fields (c : t) (s : Json) (by_ : oid) (act : option bool) :
  fields (edited c s by_ act) =
    mk (_id c) (page c) (Some s) by_ (version c)
       (match act with Some v => v | None => isActive c end).
Proof. destruct act; reflexivity. Qed.

Lemma edited_isNew (c : t) (s : Json) (by_ : oid) (act : option bool) :
  isNew (edited c s by_ act) = false.
Proof. destruct act; reflexivity. Qed.

Lemma write_edited (c : t) (s : Json) (by_ : oid) (act : option bool) :
  write (pre_save (edited c s by_ act)) c = saved c s by_ act.
Proof.
  destruct c as [i pg sec lu ver ia].
  unfold saved, edited, pre_save, write, set_isActive, set_lastUpdatedBy,
    set_sections, mark, isModified, hydrate.
  cbn [fields modified isNew _id page sections lastUpdatedBy version isActive orb].
  destruct (same_sections s sec) eqn:Es; cbn [negb];
    destruct (by_ =? lu) eqn:El; cbn [negb];
    destruct act as [v|]; cbn;
    try (destruct (Bool.eqb v ia) eqn:Ea; cbn);
    try (apply String.eqb_eq in El; subst lu);
    try (apply eqb_prop in Ea; subst ia); reflexivity.
Qed.

Lemma write_edited_keys (c : t) (s : Json) (by_ : oid) (act : option bool) (q : t) :
  _id (write (pre_save (edited c s by_ act)) q) = _id q /\
  page (write (pre_save (edited c s by_ act)) q) = page q.
Proof.
  split; [reflexivity|].
  unfold edited, pre_save, write, set_isActive, set_lastUpdatedBy,
    set_sections, mark, isModified, hydrate.
  cbn [fields modified isNew _id page sections lastUpdatedBy version isActive orb].
  destruct (same_sections s (sections c)); cbn [negb];
    destruct (by_ =? lastUpdatedBy c); cbn [negb];
    destruct act as [v|]; cbn;
    try (destruct (Bool.eqb v (isActive c)); cbn); reflexivity.
Qed.

Lemma findOne_page (pg : string) (docs : list t) (c : t) :
  findOne pg docs = Some c -> In c docs /\ page c = pg.
Proof.
  unfold findOne. intros H. apply find_some in H.
  destruct H as [Hin He]. apply String.eqb_eq in He. auto.
Qed.

(** Updating the documents of the id of the document found for a page, in
    a way that keeps their page, leaves the updated document the one found
    for that page. *)
Lemma findOne_replaced (pg : string) (docs : list t) (c : t) (g : t -> t) :
  findOne pg docs = Some c -> (forall q, page (g q) = page q) ->
  findOne pg (map (fun q => if (_id q =? _id c) then g q else q) docs)
    = Some (g c).
Proof.
  unfold findOne. intros Hf Hp.
  induction docs as [|q docs IH]; simpl in *; [discriminate|].
  destruct (page q =? pg) eqn:E.
  - injection Hf as ->. rewrite String.eqb_refl. simpl.
    rewrite Hp, E. reflexivity.
  - destruct (_id q =? _id c); simpl.
    + rewrite Hp, E. apply IH. exact Hf.
    + rewrite E. apply IH. exact Hf.
Qed.

(** The store after a save for a page that has a snapshot. *)
Lemma post_existing_result
  (pg : string) (s : Json) (act : option bool) (credential : option User.t)
  (account : User.t) (fresh : oid) (docs : list t) (c : t) :
  Middleware.auth credential = Middleware.Pass account ->
  json_truthy (Some s) = true ->
  validPage pg = true ->
  findOne pg docs = Some c ->
  exists r,
    post pg (Some s) act credential fresh (Up docs) =
      (r, Up (map (fun q => if (_id q =? _id c)
                            then write (pre_save (edited c s (User._id account) act)) q
                            else q) docs)) /\
    success r = true.
Proof.
  intros Hauth Ht Hv Hf.
  destruct (findOne_page _ _ _ Hf) as [_ Hpg].
  unfold post. rewrite Hauth, Ht. cbn [negb bindR read]. rewrite Hf.
  fold (edited c s (User._id account) act).
  unfold save, validate.
  rewrite edited_fields. cbn [page sections]. rewrite Hpg, Hv. cbn [negb].
  assert (Hs : match s with JNull => false | _ => true end = true).
  { destruct s; try reflexivity. discriminate Ht. }
  destruct s; try discriminate Hs; cbn [bindR read]; unfold persist;
    match goal with
    | |- context [pre_save ?d] =>
        assert (Hn : isNew (pre_save d) = false)
          by (unfold pre_save; destruct (isModified d "sections");
              cbn [isNew]; apply edited_isNew);
        assert (Hi : _id (fields (pre_save d)) = _id c)
          by (unfold pre_save; destruct (isModified d "sections");
              cbn [fields _id]; rewrite edited_fields; reflexivity)
    end;
    rewrite Hn, Hi; eexists; split; reflexivity.
Qed.

End ContentFacts.





(** ** Blogs *)

Lemma NoDup_map_unique {A K : Type} (key : A -> K) (l : list A) (a b : A) :
  NoDup (map key l) -> In a l -> In b l -> key a = key b -> a = b.
Proof.
  induction l as [|x l IH]; simpl; intros Hnd Ha Hb Hk; [contradiction|].
  inversion Hnd as [|? ? Hnotin Hnd']; subst.
  destruct Ha as [<-|Ha], Hb as [<-|Hb].
  - reflexivity.
  - exfalso. apply Hnotin. rewrite Hk. apply in_map. exact Hb.
  - exfalso. apply Hnotin. rewrite <- Hk. apply in_map. exact Ha.
  - apply IH; assumption.
Qed.

Section BlogFacts.
Import Blog.



Lemma pre_save_id (now : Z) (d : Doc) :
  _id (fields (pre_save now d)) = _id (fields d) /\
  isNew (pre_save now d) = isNew d.
Proof.
  unfold pre_save.
  match goal with
  | |- context [if ?c then _ else _] => destruct c
  end; split; reflexivity.
Qed.

Lemma save_Up (now : Z) (d : Doc) (docs : list t) (db' : Db t) :
  save now d (Up docs) = Ok db' ->
  db' = Up (persist (pre_save now d) docs).
Proof.
  unfold save. destruct (validate d); simpl; [|discriminate].
  intros H. injection H as <-. reflexivity.
Qed.

(** A handler leaves a running store running. *)
Lemma handle_Up (now : Z) (r : Request) (docs : list t) :
  exists docs', snd (handle now r (Up docs)) = Up docs'.
Proof.
  destruct r as [b file fresh | sl | raw b file | raw]; simpl.
  - unfold create. destruct (createValid b); simpl; [|eauto].
    destruct (find _ docs); simpl; [eauto|].
    destruct file; simpl; eauto.
    all: match goal with
         | |- context [save ?n ?d ?db] =>
             destruct (save n d db) as [db'|e] eqn:E; simpl; [|eauto];
             apply save_Up in E; subst; eauto
         end.
  - unfold view. simpl. destruct (find _ docs); simpl; [|eauto].
    match goal with
    | |- context [save ?n ?d ?db] =>
        destruct (save n d db) as [db'|e] eqn:E; simpl; [|eauto];
        apply save_Up in E; subst; eauto
    end.
  - unfold update. destruct file; simpl; eauto.
    all: destruct (b_slug b) as [sl|]; simpl; eauto.
    all: destruct (sl =? ""); simpl; eauto.
    all: destruct (castObjectId "Blog" raw); simpl; eauto.
    all: destruct (existsb _ docs); simpl; eauto.
  - unfold delete. destruct (castObjectId "Blog" raw); simpl; [|eauto].
    destruct (find _ docs); simpl; eauto.
Qed.





End BlogFacts.



(** ** Soft deletion *)

(** Updating the documents of one id keeps every id in place and turns the
    document found for that id into its update. *)
Lemma find_updated {A : Type} (key : A -> string) (f : A -> A) (id : string)
  (docs : list A) (a : A) :
  (forall x, key (f x) = key x) ->
  find (fun x => key x =? id) docs = Some a ->
  find (fun x => key x =? id)
       (map (fun x => if (key x =? id) then f x else x) docs) = Some (f a)
  /\ map key (map (fun x => if (key x =? id) then f x else x) docs) = map key docs.
Proof.
  intros Hkey Hf. split.
  - induction docs as [|q docs IH]; simpl in *; [discriminate|].
    destruct (key q =? id) eqn:E; simpl.
    + injection Hf as ->. rewrite Hkey, E. reflexivity.
    + rewrite E. apply IH. exact Hf.
  - clear Hf. induction docs as [|q docs IH]; simpl; [reflexivity|].
    rewrite IH. destruct (key q =? id); rewrite ?Hkey; reflexivity.
Qed.

(** C7. A delete request that is answered with success found the record,
    and leaves the collection with the same ids in the same places; the
    record found is now the old one with `status = 'deleted'`, `updatedBy`
    the caller and `updatedAt` the current time (course, college), or with
    `isActive = false` and `updatedAt` stamped (account), every other field
    as before. *)
Theorem C7_delete_is_soft :
  (forall now raw credential db r db',
      Course.delete now raw credential db = (r, db') -> success r = true ->
      exists account id docs c,
        Middleware.auth credential = Middleware.Pass account /\
        db = Up docs /\ castObjectId "Course" raw = Ok id /\
        find (fun x => Course._id x =? id) docs = Some c /\
        exists docs', db' = Up docs' /\
          map Course._id docs' = map Course._id docs /\
          find (fun x => Course._id x =? id) docs'
            = Some (Course.mk (Course._id c) (Course.title c)
                      (Course.description c) (Course.category c)
                      (Course.level c) (Course.duration c) (Course.fees_min c)
                      (Course.fees_max c) (Course.eligibility c)
                      (Course.image c) (Course.featured c) (Course.trending c)
                      (Course.rating c) (Course.enrollments c)
                      (Course.syllabus c) (Course.careerOpportunities c)
                      (Course.topColleges c) "deleted" (Course.createdBy c)
                      (Some (User._id account)) (Course.createdAt c) now)) /\
  (forall now raw credential db r db',
      College.delete now raw credential db = (r, db') -> success r = true ->
      exists account id docs c,
        Middleware.auth credential = Middleware.Pass account /\
        db = Up docs /\ castObjectId "College" raw = Ok id /\
        find (fun x => College._id x =? id) docs = Some c /\
        exists docs', db' = Up docs' /\
          map College._id docs' = map College._id docs /\
          find (fun x => College._id x =? id) docs'
            = Some (College.mk (College._id c) (College.name c)
                      (College.description c) (College.image c)
                      (College.address c) (College.website c) "deleted"
                      (College.createdBy c) (Some (User._id account))
                      (College.createdAt c) now)) /\
  (forall now raw credential db r db',
      Admin.deleteUser now raw credential db = (r, db') -> success r = true ->
      exists id docs u,
        db = Up docs /\ castObjectId "User" raw = Ok id /\
        find (fun x => User._id x =? id) docs = Some u /\
        exists docs', db' = Up docs' /\
          map User._id docs' = map User._id docs /\
          find (fun x => User._id x =? id) docs'
            = Some (User.mk (User._id u) (User.name u) (User.email u)
                      (User.password u) (User.role u) (User.avatar u)
                      (User.phone u) false (User.permissions u) now)).
Proof.
  split; [|split].
  - intros now raw credential db r db'. unfold Course.delete.
    destruct (Middleware.auth credential) as [account|rej] eqn:Ha; simpl.
    2:{ unfold Middleware.auth in Ha.
        destruct credential as [a|]; [destruct (User.isActive a)|];
          try discriminate; injection Ha as <-; intros H; injection H as <- <-;
          discriminate. }
    unfold Middleware.requirePermission.
    destruct (User.hasPermission account User.delete_course);
      [|intros H; injection H as <- <-; discriminate].
    unfold Course.findById, Course.updateWhere, Course.caught.
    destruct (castObjectId "Course" raw) as [id|e]; simpl.
    2:{ destruct (ename e =? "CastError"); intros H; injection H as <- <-; discriminate. }
    destruct db as [docs|e]; simpl.
    2:{ destruct (ename e =? "CastError"); intros H; injection H as <- <-; discriminate. }
    destruct (find _ docs) as [c|] eqn:Hf;
      [|intros H; injection H as <- <-; discriminate].
    intros H _. injection H as <- <-.
    exists account, id, docs, c. repeat (split; [reflexivity || assumption|]).
    eexists; split; [reflexivity|].
    destruct (find_updated Course._id
                (Course.softDeleted (User._id account) now) id docs c
                (fun x => eq_refl) Hf) as [H1 H2].
    split; [exact H2 | exact H1].
  - intros now raw credential db r db'. unfold College.delete.
    destruct (Middleware.auth credential) as [account|rej] eqn:Ha; simpl.
    2:{ unfold Middleware.auth in Ha.
        destruct credential as [a|]; [destruct (User.isActive a)|];
          try discriminate; injection Ha as <-; intros H; injection H as <- <-;
          discriminate. }
    unfold Middleware.requirePermission.
    destruct (User.hasPermission account User.delete_college);
      [|intros H; injection H as <- <-; discriminate].
    unfold College.findById, College.updateWhere, College.caught.
    destruct (castObjectId "College" raw) as [id|e]; simpl.
    2:{ destruct (ename e =? "CastError"); intros H; injection H as <- <-; discriminate. }
    destruct db as [docs|e]; simpl.
    2:{ destruct (ename e =? "CastError"); intros H; injection H as <- <-; discriminate. }
    destruct (find _ docs) as [c|] eqn:Hf;
      [|intros H; injection H as <- <-; discriminate].
    intros H _. injection H as <- <-.
    exists account, id, docs, c. repeat (split; [reflexivity || assumption|]).
    eexists; split; [reflexivity|].
    destruct (find_updated College._id
                (College.softDeleted (User._id account) now) id docs c
                (fun x => eq_refl) Hf) as [H1 H2].
    split; [exact H2 | exact H1].
  - intros now raw credential db r db'. unfold Admin.deleteUser, Admin.guard.
    destruct (Middleware.auth credential) as [account|rej] eqn:Ha; simpl.
    2:{ unfold Middleware.auth in Ha.
        destruct credential as [a|]; [destruct (User.isActive a)|];
          try discriminate; injection Ha as <-; intros H; injection H as <- <-;
          discriminate. }
    unfold Middleware.adminAuth.
    destruct (User.Role_eqb (User.role account) User.admin);
      [|intros H; injection H as <- <-; discriminate].
    unfold Admin.findById, Admin.updateWhere, Admin.caught.
    destruct (castObjectId "User" raw) as [id|e]; simpl.
    2:{ destruct (ename e =? "CastError"); intros H; injection H as <- <-; discriminate. }
    destruct db as [docs|e]; simpl.
    2:{ destruct (ename e =? "CastError"); intros H; injection H as <- <-; discriminate. }
    destruct (find _ docs) as [u|] eqn:Hf;
      [|intros H; injection H as <- <-; discriminate].
    destruct (raw =? User._id account);
      [intros H; injection H as <- <-; discriminate|].
    intros H _. injection H as <- <-.
    exists id, docs, u. repeat (split; [reflexivity || assumption|]).
    eexists; split; [reflexivity|].
    destruct (find_updated User._id (Admin.deactivated now) id docs u
                (fun x => eq_refl) Hf) as [H1 H2].
    split; [exact H2 | exact H1].
Qed.

Lemma C7_delete_is_soft_witness :
  (exists docs',
      snd (Course.delete 77 "64e000000000000000000001" (Some UserFixtures.root)
             (Up [UserFixtures.course1])) = Up docs' /\
      map Course.status docs' = ["deleted"] /\
      map Course.title docs' = ["B.Tech Computer Science"]) /\
  (exists docs',
      snd (College.delete 77 "64f000000000000000000001" (Some UserFixtures.root)
             (Up [UserFixtures.college1])) = Up docs' /\
      map College.status docs' = ["deleted"] /\
      map College.name docs' = ["Delhi Technical College"]) /\
  (exists docs',
      snd (Admin.deleteUser 77 "64a000000000000000000002" (Some UserFixtures.root)
             (Up [UserFixtures.root; UserFixtures.mod1])) = Up docs' /\
      map User.isActive docs' = [true; false] /\
      map User.email docs' = ["admin@admissionshala.com"; "mod@admissionshala.com"]).
Proof.
  destruct C7_delete_is_soft as (Hcourse & Hcollege & Huser).
  split; [|split].
  - destruct (Hcourse 77%Z "64e000000000000000000001" (Some UserFixtures.root)
                (Up [UserFixtures.course1]) _ _ eq_refl eq_refl)
      as (a & id & docs & c & _ & _ & _ & _ & docs' & Hd & _).
    exists docs'. split; [exact Hd|].
    vm_compute in Hd. injection Hd as <-. split; reflexivity.
  - destruct (Hcollege 77%Z "64f000000000000000000001" (Some UserFixtures.root)
                (Up [UserFixtures.college1]) _ _ eq_refl eq_refl)
      as (a & id & docs & c & _ & _ & _ & _ & docs' & Hd & _).
    exists docs'. split; [exact Hd|].
    vm_compute in Hd. injection Hd as <-. split; reflexivity.
  - destruct (Huser 77%Z "64a000000000000000000002" (Some UserFixtures.root)
                (Up [UserFixtures.root; UserFixtures.mod1]) _ _ eq_refl eq_refl)
      as (id & docs & u & _ & _ & _ & docs' & Hd & _).
    exists docs'. split; [exact Hd|].
    vm_compute in Hd. injection Hd as <-. split; reflexivity.
Defined.

(** ** Self-deletion, self-deactivation and the frame of a user update *)

Section AdminFacts.
Import Admin.

Lemma guard_admin (caller : User.t) :
  User.isActive caller = true -> User.role caller = User.admin ->
  guard (Some caller) = Middleware.Pass caller.
Proof.
  intros Hact Hrole. unfold guard, Middleware.auth, Middleware.andThen,
    Middleware.adminAuth. rewrite Hact, Hrole. reflexivity.
Qed.

Lemma guard_rejects (credential : option User.t) (r : Response) :
  guard credential = Middleware.Reject r ->
  r = respond 401 false "Unauthorized" \/ r = respond 403 false "Forbidden".
Proof.
  unfold guard, Middleware.auth, Middleware.andThen, Middleware.adminAuth.
  destruct credential as [a|]; [destruct (User.isActive a);
    [destruct (User.Role_eqb (User.role a) User.admin)|]|];
    intros H; try discriminate; injection H as <-; auto.
Qed.

Lemma findById_found (raw : string) (id : oid) (docs : list User.t) :
  castObjectId "User" raw = Ok id ->
  findById raw (Up docs) = Ok (find (fun x => User._id x =? id) docs).
Proof. intros H. unfold findById. rewrite H. reflexivity. Qed.

(** An update that passes the validators and meets no other user with the
    email it sets is applied to the user of that id. *)
Lemma findByIdAndUpdate_applied (now : Z) (raw : string) (id : oid)
  (u : Paths) (docs : list User.t) :
  castObjectId "User" raw = Ok id ->
  validateUpdate u = Ok tt ->
  (forall e, p_email u = Some e ->
     existsb (fun x => negb (User._id x =? id)
                       && (User.email x =? str_map lower e)) docs = false) ->
  findByIdAndUpdate now raw u (Up docs) =
    Ok (Up (map (fun x => if (User._id x =? id) then applyUpdate now u x else x) docs)).
Proof.
  intros Hc Hv He. unfold findByIdAndUpdate. rewrite Hc, Hv. cbn [bindR read].
  destruct (p_email u) as [e|]; [|reflexivity].
  rewrite (He e eq_refl), andb_false_r. reflexivity.
Qed.

(** The requests the two checks are written for are refused: the id of the
    caller as the caller carries it, and the boolean `false`. *)
Lemma exact_self_removal_refused
  (now : Z) (caller : User.t) (b : Body) (docs : list User.t) (u : User.t) :
  User.isActive caller = true -> User.role caller = User.admin ->
  b_isActive b = Some (JBool false) ->
  findById (User._id caller) (Up docs) = Ok (Some u) ->
  deleteUser now (User._id caller) (Some caller) (Up docs)
    = (respond 400 false "You cannot delete your own account", Up docs) /\
  updateUser now (User._id caller) b (Some caller) (Up docs)
    = (respond 400 false
         (if updateValid b then "You cannot deactivate your own account"
          else "Validation failed"), Up docs).
Proof.
  intros Hact Hrole Hb Hfind. unfold deleteUser, updateUser.
  rewrite (guard_admin caller Hact Hrole), Hfind, String.eqb_refl.
  split; [reflexivity|].
  destruct (updateValid b); cbn [negb]; [|reflexivity].
  unfold is_false. rewrite Hb. reflexivity.
Qed.

End AdminFacts.

(** C6.  The two checks that keep an admin from removing their own account
    compare texts: the id of the URL with `req.user.id`, and the submitted
    `isActive` with the boolean `false`.  An admin whose account is stored
    gets past them.  A deletion under any other spelling of the own id
    (the hexadecimal digits in upper case) is answered 200 and stores the
    account with `isActive = false`.  So is an update that leads to
    `isActive = false` by any way but the own id as the caller carries it
    together with the top-level boolean `false`: the text `false`, the
    number 0, `isActive: false` under `$set`, or another spelling of the
    id. *)
Theorem C6_admin_can_deactivate_own_account
  (now : Z) (caller : User.t) (docs : list User.t) (raw : string) :
  User.isActive caller = true ->
  User.role caller = User.admin ->
  castObjectId "User" raw = Ok (User._id caller) ->
  find (fun x => User._id x =? User._id caller) docs = Some caller ->
  (raw <> User._id caller ->
   exists docs',
     Admin.deleteUser now raw (Some caller) (Up docs)
       = (respond 200 true "User deactivated successfully", Up docs') /\
     option_map User.isActive
       (find (fun x => User._id x =? User._id caller) docs') = Some false) /\
  (forall b : Admin.Body,
     Admin.updateValid b = true ->
     (raw =? User._id caller) && Admin.is_false (Admin.b_isActive b) = false ->
     Admin.p_isActive (Admin.updateData b) = Some false ->
     Admin.p_email (Admin.updateData b) = None ->
     Admin.validateUpdate (Admin.updateData b) = Ok tt ->
     exists docs',
       Admin.updateUser now raw b (Some caller) (Up docs)
         = (respond 200 true "User updated successfully", Up docs') /\
       option_map User.isActive
         (find (fun x => User._id x =? User._id caller) docs') = Some false).
Proof.
  intros Hact Hrole Hcast Hfind. split.
  - intros Hne. unfold Admin.deleteUser.
    rewrite (guard_admin caller Hact Hrole), (findById_found raw _ docs Hcast), Hfind.
    apply String.eqb_neq in Hne. rewrite Hne.
    unfold Admin.updateWhere. rewrite Hcast. cbn [bindR read].
    eexists. split; [reflexivity|].
    rewrite (proj1 (find_updated User._id (Admin.deactivated now)
                      (User._id caller) docs caller (fun x => eq_refl) Hfind)).
    reflexivity.
  - intros b Hvalid Hpast Hoff Hmail Hv. unfold Admin.updateUser.
    rewrite (guard_admin caller Hact Hrole), Hvalid. cbn [negb].
    rewrite (findById_found raw _ docs Hcast), Hfind, Hpast.
    rewrite (findByIdAndUpdate_applied now raw (User._id caller) _ docs Hcast Hv).
    2:{ intros e He. rewrite Hmail in He. discriminate. }
    eexists. split; [reflexivity|].
    rewrite (proj1 (find_updated User._id (Admin.applyUpdate now (Admin.updateData b))
                      (User._id caller) docs caller (fun x => eq_refl) Hfind)).
    cbn [option_map Admin.applyUpdate User.isActive]. rewrite Hoff. reflexivity.
Qed.

Lemma C6_admin_can_deactivate_own_account_witness :
  (exists docs',
     Admin.deleteUser 5 "64A000000000000000000001" (Some UserFixtures.root)
       (Up [UserFixtures.root; UserFixtures.mod1])
       = (respond 200 true "User deactivated successfully", Up docs') /\
     option_map User.isActive
       (find (fun x => User._id x =? "64a000000000000000000001") docs') = Some false) /\
  (exists docs',
     Admin.updateUser 5 "64a000000000000000000001"
       (Admin.mkBody None None None None None None (Some (JStr "false")) None None)
       (Some UserFixtures.root) (Up [UserFixtures.root; UserFixtures.mod1])
       = (respond 200 true "User updated successfully", Up docs') /\
     option_map User.isActive
       (find (fun x => User._id x =? "64a000000000000000000001") docs') = Some false) /\
  (exists docs',
     Admin.updateUser 5 "64a000000000000000000001" UserFixtures.setInactive
       (Some UserFixtures.root) (Up [UserFixtures.root; UserFixtures.mod1])
       = (respond 200 true "User updated successfully", Up docs') /\
     option_map User.isActive
       (find (fun x => User._id x =? "64a000000000000000000001") docs') = Some false).
Proof.
  split; [|split].
  - apply (proj1 (C6_admin_can_deactivate_own_account 5%Z UserFixtures.root
                    [UserFixtures.root; UserFixtures.mod1]
                    "64A000000000000000000001" eq_refl eq_refl eq_refl eq_refl)).
    discriminate.
  - apply (proj2 (C6_admin_can_deactivate_own_account 5%Z UserFixtures.root
                    [UserFixtures.root; UserFixtures.mod1]
                    "64a000000000000000000001" eq_refl eq_refl eq_refl eq_refl)
                 (Admin.mkBody None None None None None None
                               (Some (JStr "false")) None None));
      reflexivity.
  - apply (proj2 (C6_admin_can_deactivate_own_account 5%Z UserFixtures.root
                    [UserFixtures.root; UserFixtures.mod1]
                    "64a000000000000000000001" eq_refl eq_refl eq_refl eq_refl)
                 UserFixtures.setInactive);
      reflexivity.
Defined.

(** A request that is refused leaves the collection as it was. *)
Ltac untouched :=
  eexists; eexists; split; [reflexivity|];
  repeat (split; [reflexivity|]);
  let H := fresh in intros H; discriminate H.

(** The two deletes do their work on a body that carries paths of the
    schema at its top level and no `$set`: whatever the caller and the
    outcome, the stored ids, emails and passwords are the same afterwards,
    position by position, and on success the user found under the id has
    the submitted name (trimmed), role, avatar, phone, `isActive` and
    permissions where the body gives them and the stored values where it
    does not. *)
Lemma update_without_set_keeps_email_and_password
  (now : Z) (raw : string) (b : Admin.Body) (credential : option User.t)
  (docs : list User.t) :
  Admin.b_set b = None ->
  exists r docs',
    Admin.updateUser now raw b credential (Up docs) = (r, Up docs') /\
    map User._id docs' = map User._id docs /\
    map User.email docs' = map User.email docs /\
    map User.password docs' = map User.password docs /\
    (success r = true ->
     exists id u u',
       castObjectId "User" raw = Ok id /\
       find (fun x => User._id x =? id) docs = Some u /\
       find (fun x => User._id x =? id) docs' = Some u' /\
       User.email u' = User.email u /\
       User.password u' = User.password u /\
       User.name u' = match Admin.b_name b with
                      | Some n => trim n | None => User.name u end /\
       Some (User.role u') = match Admin.b_role b with
                             | Some s => Admin.parseRole s
                             | None => Some (User.role u) end /\
       User.avatar u' = match Admin.b_avatar b with
                        | Some a => a | None => User.avatar u end /\
       User.phone u' = match Admin.b_phone b with
                       | Some p => Some p | None => User.phone u end /\
       User.isActive u' = match Admin.b_isActive b with
                          | Some v => Admin.castBoolean v
                          | None => User.isActive u end /\
       User.permissions u' = match Admin.b_permissions b with
                             | Some ps => ps | None => User.permissions u end).
Proof.
  intros Hset. unfold Admin.updateUser.
  destruct (Admin.guard credential) as [req_user|rej] eqn:Hg.
  2:{ destruct (guard_rejects _ _ Hg) as [-> | ->]; untouched. }
  destruct (Admin.updateValid b) eqn:Hvalid; simpl; [|untouched].
  unfold Admin.findById, Admin.findByIdAndUpdate, Admin.caught.
  destruct (castObjectId "User" raw) as [id|e]; simpl.
  2:{ destruct (ename e =? "CastError"); untouched. }
  destruct (find _ docs) as [u|] eqn:Hf; [|untouched].
  destruct ((raw =? User._id req_user) && Admin.is_false (Admin.b_isActive b));
    [untouched|].
  destruct (Admin.validateUpdate (Admin.updateData b)) as [[]|e]; cbn [bindR].
  2:{ destruct (ename e =? "CastError"); untouched. }
  assert (Hmail : Admin.p_email (Admin.updateData b) = None).
  { unfold Admin.updateData. rewrite Hset. reflexivity. }
  assert (Hpass : Admin.p_password (Admin.updateData b) = None).
  { unfold Admin.updateData. rewrite Hset. reflexivity. }
  rewrite Hset. cbn [Admin.p_email].
  destruct (find_updated User._id (Admin.applyUpdate now (Admin.updateData b))
              id docs u (fun x => eq_refl) Hf) as [H1 H2].
  eexists; eexists; split; [reflexivity|]. split; [exact H2|].
  split; [|split].
  - rewrite map_map. apply map_ext. intros x.
    destruct (User._id x =? id); [|reflexivity].
    unfold Admin.applyUpdate. rewrite Hmail. reflexivity.
  - rewrite map_map. apply map_ext. intros x.
    destruct (User._id x =? id); [|reflexivity].
    unfold Admin.applyUpdate. rewrite Hpass. reflexivity.
  - intros _. exists id, u, (Admin.applyUpdate now (Admin.updateData b) u).
    split; [reflexivity|]. split; [exact Hf|]. split; [exact H1|].
    unfold Admin.applyUpdate. rewrite Hmail, Hpass.
    unfold Admin.updateData. rewrite Hset.
    cbn [User.email User.password User.name User.role User.avatar User.phone
         User.isActive User.permissions Admin.p_name Admin.p_role
         Admin.p_avatar Admin.p_phone Admin.p_isActive Admin.p_permissions
         first].
    repeat (split; [reflexivity|]).
    split; [destruct (Admin.b_name b); reflexivity|].
    split.
    { destruct (Admin.b_role b) as [s|] eqn:Hr; cbn [first]; [|reflexivity].
      unfold Admin.updateValid in Hvalid. rewrite Hr in Hvalid. simpl in Hvalid.
      destruct (Admin.parseRole s); [reflexivity|].
      rewrite andb_false_r in Hvalid. simpl in Hvalid. discriminate. }
    split; [destruct (Admin.b_avatar b); reflexivity|].
    split; [destruct (Admin.b_phone b); reflexivity|].
    split; [destruct (Admin.b_isActive b); reflexivity|].
    destruct (Admin.b_permissions b); reflexivity.
Qed.

(** C10.  `delete updateData.password` and `delete updateData.email`
    remove the top-level keys of the body and nothing else.  An email and
    a password that come under `$set` are in the update document that
    reaches `findByIdAndUpdate`: when they pass the validators of the
    schema and no other user has that email, the update is answered 200
    and the user found under the id has the submitted email (in lower
    case) and the submitted password, stored as it was sent. *)
Theorem C10_set_operator_rewrites_email_and_password
  (now : Z) (raw : string) (id : oid) (b : Admin.Body) (caller u : User.t)
  (docs : list User.t) (e w : string) :
  User.isActive caller = true ->
  User.role caller = User.admin ->
  castObjectId "User" raw = Ok id ->
  find (fun x => User._id x =? id) docs = Some u ->
  Admin.updateValid b = true ->
  (raw =? User._id caller) && Admin.is_false (Admin.b_isActive b) = false ->
  Admin.p_email (Admin.updateData b) = Some e ->
  Admin.p_password (Admin.updateData b) = Some w ->
  Admin.validateUpdate (Admin.updateData b) = Ok tt ->
  existsb (fun x => negb (User._id x =? id)
                    && (User.email x =? str_map Admin.lower e)) docs = false ->
  exists docs' u',
    Admin.updateUser now raw b (Some caller) (Up docs)
      = (respond 200 true "User updated successfully", Up docs') /\
    find (fun x => User._id x =? id) docs' = Some u' /\
    User.email u' = str_map Admin.lower e /\
    User.password u' = w.
Proof.
  intros Hact Hrole Hcast Hfind Hvalid Hpast Hmail Hpass Hv Hfree.
  unfold Admin.updateUser.
  rewrite (guard_admin caller Hact Hrole), Hvalid. cbn [negb].
  rewrite (findById_found raw id docs Hcast), Hfind, Hpast.
  rewrite (findByIdAndUpdate_applied now raw id _ docs Hcast Hv).
  2:{ intros e' He'. rewrite Hmail in He'. injection He' as <-. exact Hfree. }
  eexists. eexists. split; [reflexivity|].
  split.
  - apply (find_updated User._id (Admin.applyUpdate now (Admin.updateData b))
             id docs u (fun x => eq_refl) Hfind).
  - unfold Admin.applyUpdate. cbn [User.email User.password].
    rewrite Hmail, Hpass. split; reflexivity.
Qed.

Lemma C10_set_operator_rewrites_email_and_password_witness :
  exists docs' u',
    Admin.updateUser 9 "64a000000000000000000002" UserFixtures.setCredentials
      (Some UserFixtures.root) (Up [UserFixtures.root; UserFixtures.mod1])
      = (respond 200 true "User updated successfully", Up docs') /\
    find (fun x => User._id x =? "64a000000000000000000002") docs' = Some u' /\
    User.email u' = "taken@admissionshala.com" /\
    User.password u' = "plaintext".
Proof.
  apply (C10_set_operator_rewrites_email_and_password 9%Z
           "64a000000000000000000002" "64a000000000000000000002"
           UserFixtures.setCredentials UserFixtures.root UserFixtures.mod1
           [UserFixtures.root; UserFixtures.mod1]
           "Taken@Admissionshala.com" "plaintext");
    reflexivity.
Defined.

(** ** Store failures at the handler boundary *)






(* ================================================================== *)
(** * Further properties of the code *)

(** ** Accounts *)

Section MorePermissionFacts.
Import User.

Lemma set_spread_spec (xs seen : list Permission) :
  NoDup seen ->
  NoDup (set_spread seen xs) /\
  forall p, In p (set_spread seen xs) <-> In p seen \/ In p xs.
Proof.
  revert seen. induction xs as [|x xs IH]; intros seen Hnd; simpl.
  - split; [apply NoDup_rev; exact Hnd|].
    intros p. rewrite <- in_rev. tauto.
  - destruct (includes seen x) eqn:E.
    + destruct (IH seen Hnd) as [H1 H2]. split; [exact H1|].
      intros p. rewrite H2. apply includes_In in E.
      split; [tauto|]. intros [H|[<-|H]]; tauto.
    + assert (Hnd' : NoDup (x :: seen)).
      { constructor; [|exact Hnd]. intros Hin. apply includes_In in Hin.
        congruence. }
      destruct (IH (x :: seen) Hnd') as [H1 H2]. split; [exact H1|].
      intros p. rewrite H2. simpl. tauto.
Qed.

Lemma before_at_no_at (s : string) (c : ascii) (l r : string) :
  before_at s = (l ++ String c r)%string -> c <> "@"%char.
Proof.
  revert l. induction s as [|a s IH]; intros l; simpl.
  - destruct l; discriminate.
  - destruct (Ascii.eqb a "@") eqn:E.
    + destruct l; discriminate.
    + destruct l as [|b l]; simpl; intros H; injection H as Ha Hs.
      * subst. intros ->. rewrite Ascii.eqb_refl in E. discriminate.
      * apply (IH l). exact Hs.
Qed.

Lemma before_at_prefix (s : string) :
  s = before_at s \/ exists rest, s = (before_at s ++ String "@" rest)%string.
Proof.
  induction s as [|a s IH]; simpl.
  - left. reflexivity.
  - destruct (Ascii.eqb a "@") eqn:E.
    + apply Ascii.eqb_eq in E. subst. right. exists s. reflexivity.
    + destruct IH as [IH|[rest IH]].
      * left. simpl. f_equal. exact IH.
      * right. exists rest. simpl. f_equal. exact IH.
Qed.

Lemma getPermissions_In (u : t) (p : Permission) :
  In p (getPermissions u) <->
  In p (rolePermissions (role u)) \/ In p (permissions u).
Proof.
  unfold getPermissions.
  destruct (set_spread_spec (rolePermissions (role u) ++ permissions u) []
              (NoDup_nil _)) as [_ H].
  rewrite H, in_app_iff. simpl. tauto.
Qed.

End MorePermissionFacts.

(** X1. [getPermissions] returns each permission at most once, and a
    permission is in the result exactly when it is a default of the role or
    is in the stored list. *)
Theorem X1_getPermissions_is_union (u : User.t) :
  NoDup (User.getPermissions u) /\
  forall p, In p (User.getPermissions u) <->
            In p (User.rolePermissions (User.role u)) \/ In p (User.permissions u).
Proof.
  unfold User.getPermissions.
  destruct (set_spread_spec
              (User.rolePermissions (User.role u) ++ User.permissions u) []
              (NoDup_nil _)) as [H1 H2].
  split; [exact H1|]. intros p. rewrite H2, in_app_iff. simpl. tauto.
Qed.

(** X2. Whatever [hasPermission] grants is among the permissions
    [getPermissions] reports, but not the other way round: a moderator with
    nothing stored is reported `create_course` and refused it. *)
Theorem X2_hasPermission_within_getPermissions :
  (forall (u : User.t) (p : User.Permission),
      User.hasPermission u p = true -> In p (User.getPermissions u)) /\
  (exists (u : User.t) (p : User.Permission),
      In p (User.getPermissions u) /\ User.hasPermission u p = false).
Proof.
  split.
  - intros u p H. apply getPermissions_In.
    unfold User.hasPermission in H.
    destruct (User.role u) eqn:Hr; simpl in H.
    + left. destruct p; simpl; tauto.
    + right. apply includes_In. exact H.
    + right. apply includes_In. exact H.
  - exists UserFixtures.mod1, User.create_course. split; [|reflexivity].
    simpl. auto.
Qed.

Lemma X2_hasPermission_within_getPermissions_witness :
  In User.delete_course
     (User.getPermissions
        (User.mk "64a000000000000000000003" "Editor" "editor@admissionshala.com"
                 "$2a$12$hash" User.user "" None true [User.delete_course] 0)).
Proof.
  apply (proj1 X2_hasPermission_within_getPermissions). reflexivity.
Defined.

(** X3. The display name is the name when there is one.  Without a name it
    is the part of the email before the first `@`: it holds no `@`, and the
    email is that part alone or that part followed by `@` and the rest. *)
Theorem X3_displayName (u : User.t) :
  (User.name u <> "" -> User.displayName u = User.name u) /\
  (User.name u = "" ->
   (User.email u = User.displayName u \/
    exists rest, User.email u = (User.displayName u ++ String "@" rest)%string) /\
   forall l c r, User.displayName u = (l ++ String c r)%string -> c <> "@"%char).
Proof.
  unfold User.displayName. split.
  - intros H. apply String.eqb_neq in H. rewrite H. reflexivity.
  - intros H. rewrite H. simpl. split.
    + apply before_at_prefix.
    + intros l c r. apply before_at_no_at.
Qed.

Lemma X3_displayName_witness :
  User.displayName UserFixtures.root = "Admin User" /\
  User.displayName
    (User.mk "64a000000000000000000004" "" "priya.s@admissionshala.com"
             "$2a$12$hash" User.user "" None true [] 0) = "priya.s".
Proof.
  split.
  - apply (proj1 (X3_displayName UserFixtures.root)). discriminate.
  - destruct (proj2 (X3_displayName
                       (User.mk "64a000000000000000000004" ""
                                "priya.s@admissionshala.com" "$2a$12$hash"
                                User.user "" None true [] 0)) eq_refl) as [_ _].
    reflexivity.
Defined.

(** ** Popups: toggle, delete, update *)

Section MorePopupFacts.
Import Popup.

(** The store after the toggle route switched an inactive popup on. *)
Lemma toggle_on_result (raw : string) (id : oid) (u : User.t)
  (docs : list t) (p : t) :
  castObjectId "Popup" raw = Ok id ->
  findById id docs = Some p ->
  isActive p = false -> title p <> "" -> content p <> "" ->
  (5000 <= displayDelay p <= 120000)%Z ->
  toggle raw (Some u) (Up docs) =
    (respond 200 true "Popup activated successfully",
     Up (map (fun q => if (_id q =? id)
                       then with_updatedBy (with_isActive p true) (Some (User._id u))
                       else q)
             (deactivate_others id docs))).
Proof.
  intros Hcast Hfind Hin Ht Hc Hd.
  destruct (findById_In _ _ _ Hfind) as [_ Hid].
  destruct (toggled_on_doc p (User._id u) Hin) as (Hn & Hm & Hf).
  unfold toggle. rewrite Hcast. cbn [bindR read]. rewrite Hfind.
  cbn [bindR req_user_id].
  rewrite save_activated; try assumption; try (rewrite Hf; assumption).
  2: rewrite Hf; reflexivity.
  cbn [bindR]. rewrite Hf. cbn [isActive with_updatedBy with_isActive _id].
  rewrite Hid. reflexivity.
Qed.

(** The document the toggle route hands to `save` when it switches an
    active popup off. *)
Lemma toggled_off_doc (p : t) (by_ : oid) :
  isActive p = true ->
  let d := set_updatedBy (set_isActive (hydrate p) (negb (isActive p))) by_ in
  isNew d = false /\
  fields d = with_updatedBy (with_isActive p false) (Some by_).
Proof.
  intros Hact. unfold set_updatedBy, set_isActive, hydrate, isModified.
  simpl. rewrite Hact. simpl.
  destruct (option_oid_eqb (updatedBy p) (Some by_)); simpl; auto.
Qed.

(** `save` of a stored, valid document that is not active: the hook does
    nothing. *)
Lemma save_inactive (d : Doc) (docs : list t) :
  isNew d = false -> (5000 <= displayDelay (fields d) <= 120000)%Z ->
  isActive (fields d) = false ->
  title (fields d) <> "" -> content (fields d) <> "" ->
  save d (Up docs) =
    Ok (Up (map (fun q => if (_id q =? _id (fields d)) then fields d else q) docs)).
Proof.
  intros Hn Hd Ha Ht Hc. unfold save, validate, persist, pre_save.
  apply String.eqb_neq in Ht. apply String.eqb_neq in Hc.
  rewrite Ht, Hc, (in_range _ Hd), Hn, Ha. reflexivity.
Qed.

(** The store after the toggle route switched an active popup off. *)
Lemma toggle_off_result (raw : string) (id : oid) (u : User.t)
  (docs : list t) (p : t) :
  castObjectId "Popup" raw = Ok id ->
  findById id docs = Some p ->
  isActive p = true -> title p <> "" -> content p <> "" ->
  (5000 <= displayDelay p <= 120000)%Z ->
  toggle raw (Some u) (Up docs) =
    (respond 200 true "Popup deactivated successfully",
     Up (map (fun q => if (_id q =? id)
                       then with_updatedBy (with_isActive p false) (Some (User._id u))
                       else q)
             docs)).
Proof.
  intros Hcast Hfind Hact Ht Hc Hd.
  destruct (findById_In _ _ _ Hfind) as [_ Hid].
  destruct (toggled_off_doc p (User._id u) Hact) as (Hn & Hf).
  unfold toggle. rewrite Hcast. cbn [bindR read]. rewrite Hfind.
  cbn [bindR req_user_id].
  rewrite save_inactive; try assumption; try (rewrite Hf; assumption);
    try (rewrite Hf; reflexivity).
  cbn [bindR]. rewrite Hf. cbn [isActive with_updatedBy with_isActive _id].
  rewrite Hid. reflexivity.
Qed.

Lemma activeCount_all_off (docs : list t) :
  (forall q, In q docs -> isActive q = false) -> activeCount docs = 0%nat.
Proof.
  unfold activeCount. induction docs as [|q docs IH]; intros H; simpl.
  - reflexivity.
  - rewrite (H q (or_introl eq_refl)). apply IH.
    intros x Hx. apply H. right. exact Hx.
Qed.

Lemma findById_replaced (id : oid) (x : t) (docs : list t) :
  _id x = id -> In id (map _id docs) ->
  findById id (map (fun q => if (_id q =? id) then x else q) docs) = Some x.
Proof.
  intros Hx. unfold findById.
  induction docs as [|q docs IH]; simpl; [contradiction|].
  intros Hmem. destruct (_id q =? id) eqn:E; simpl.
  - rewrite Hx, String.eqb_refl. reflexivity.
  - rewrite E. apply IH. destruct Hmem as [Hq|Hq]; [|exact Hq].
    apply String.eqb_neq in E. contradiction.
Qed.

Lemma deactivate_others_ids (id : oid) (docs : list t) :
  map _id (deactivate_others id docs) = map _id docs.
Proof.
  unfold deactivate_others. rewrite map_map. apply map_ext.
  intros q. destruct (_id q =? id); reflexivity.
Qed.

Lemma replaced_ids (id : oid) (x : t) (docs : list t) :
  _id x = id ->
  map _id (map (fun q => if (_id q =? id) then x else q) docs) = map _id docs.
Proof.
  intros Hx. rewrite map_map. apply map_ext_in. intros q _.
  destruct (_id q =? id) eqn:E; [|reflexivity].
  apply String.eqb_eq in E. congruence.
Qed.

Lemma activeCount_replaced_off (id : oid) (x : t) (docs : list t) :
  isActive x = false ->
  Nat.add (activeCount (map (fun q => if (_id q =? id) then x else q) docs))
          (List.length (filter (fun q => (_id q =? id) && isActive q) docs))
  = activeCount docs.
Proof.
  intros Hx. unfold activeCount.
  induction docs as [|q docs IH]; simpl; [reflexivity|].
  destruct (_id q =? id); simpl.
  - rewrite Hx. destruct (isActive q); simpl; lia.
  - destruct (isActive q); simpl; lia.
Qed.

Lemma filter_id_unique (id : oid) (docs : list t) (p : t) :
  NoDup (map _id docs) -> findById id docs = Some p -> isActive p = true ->
  List.length (filter (fun q => (_id q =? id) && isActive q) docs) = 1%nat.
Proof.
  unfold findById.
  induction docs as [|q docs IH]; simpl; [discriminate|].
  intros Hnd Hf Hact. inversion Hnd as [|? ? Hnotin Hnd']; subst.
  destruct (_id q =? id) eqn:E; simpl.
  - injection Hf as ->. rewrite Hact. simpl. f_equal.
    apply String.eqb_eq in E.
    assert (Hnone : forall x, In x docs -> (_id x =? id) && isActive x = false).
    { intros x Hx. destruct (_id x =? id) eqn:Ex; [|reflexivity].
      apply String.eqb_eq in Ex. exfalso. apply Hnotin.
      rewrite E, <- Ex. apply in_map. exact Hx. }
    clear - Hnone. induction docs as [|x docs IH]; simpl; [reflexivity|].
    rewrite (Hnone x (or_introl eq_refl)). apply IH.
    intros y Hy. apply Hnone. right. exact Hy.
  - apply IH; assumption.
Qed.

End MorePopupFacts.

(** X4. Switching an inactive popup on through the toggle route leaves it
    the one active popup: it is stored active, and every popup stored under
    another id is inactive.  The popup must be one `save` accepts: its
    title and content are there and its `displayDelay` is within
    5000..120000. *)
Theorem X4_toggle_on_leaves_one_active
  (raw : string) (id : oid) (u : User.t) (docs : list Popup.t) (p : Popup.t) :
  castObjectId "Popup" raw = Ok id ->
  NoDup (map Popup._id docs) ->
  Popup.findById id docs = Some p ->
  Popup.isActive p = false ->
  Popup.title p <> "" -> Popup.content p <> "" ->
  (5000 <= Popup.displayDelay p <= 120000)%Z ->
  exists docs',
    Popup.toggle raw (Some u) (Up docs) =
      (respond 200 true "Popup activated successfully", Up docs') /\
    map Popup._id docs' = map Popup._id docs /\
    Popup.activeCount docs' = 1%nat /\
    option_map Popup.isActive (Popup.findById id docs') = Some true /\
    forall q, In q docs' -> Popup._id q <> id -> Popup.isActive q = false.
Proof.
  intros Hcast Hnd Hfind Hin Ht Hc Hd.
  destruct (toggle_activation_single_active raw id u docs p
              Hcast Hnd Hfind Hin Ht Hc Hd) as (docs' & Hrun & Hcount & Hfound).
  exists docs'. split; [exact Hrun|].
  rewrite (toggle_on_result raw id u docs p Hcast Hfind Hin Ht Hc Hd) in Hrun.
  injection Hrun as <-.
  destruct (findById_In _ _ _ Hfind) as [_ Hid].
  split; [|split; [exact Hcount|split; [exact Hfound|]]].
  - rewrite replaced_ids by exact Hid. apply deactivate_others_ids.
  - intros q Hq Hne. apply in_map_iff in Hq. destruct Hq as (x & Hx & Hxin).
    destruct (Popup._id x =? id) eqn:E.
    + subst q. simpl in Hne. contradiction.
    + subst q. unfold Popup.deactivate_others in Hxin.
      apply in_map_iff in Hxin. destruct Hxin as (y & Hy & _).
      destruct (Popup._id y =? id) eqn:Ey.
      * subst x. rewrite Ey in E. discriminate.
      * subst x. reflexivity.
Qed.

Lemma X4_toggle_on_leaves_one_active_witness :
  exists docs',
    Popup.toggle PopupFixtures.idB (Some UserFixtures.root)
      (Up [PopupFixtures.popupA; PopupFixtures.popupB]) =
      (respond 200 true "Popup activated successfully", Up docs') /\
    map Popup._id docs' = [PopupFixtures.idA; PopupFixtures.idB] /\
    Popup.activeCount docs' = 1%nat /\
    option_map Popup.isActive (Popup.findById PopupFixtures.idB docs') = Some true /\
    forall q, In q docs' -> Popup._id q <> PopupFixtures.idB ->
              Popup.isActive q = false.
Proof.
  apply (X4_toggle_on_leaves_one_active PopupFixtures.idB PopupFixtures.idB
           UserFixtures.root [PopupFixtures.popupA; PopupFixtures.popupB]
           PopupFixtures.popupB); try reflexivity; try discriminate.
  - repeat constructor; simpl; intuition discriminate.
  - simpl. lia.
Defined.

(** X5. Switching an active popup off through the toggle route touches that
    popup alone: every other popup is stored as it was, and there is one
    active popup fewer.  The popup must be one `save` accepts: its title
    and content are there and its `displayDelay` is within 5000..120000. *)
Theorem X5_toggle_off_touches_one
  (raw : string) (id : oid) (u : User.t) (docs : list Popup.t) (p : Popup.t) :
  castObjectId "Popup" raw = Ok id ->
  NoDup (map Popup._id docs) ->
  Popup.findById id docs = Some p ->
  Popup.isActive p = true ->
  Popup.title p <> "" -> Popup.content p <> "" ->
  (5000 <= Popup.displayDelay p <= 120000)%Z ->
  exists docs',
    Popup.toggle raw (Some u) (Up docs) =
      (respond 200 true "Popup deactivated successfully", Up docs') /\
    map Popup._id docs' = map Popup._id docs /\
    option_map Popup.isActive (Popup.findById id docs') = Some false /\
    (forall q, In q docs -> Popup._id q <> id -> In q docs') /\
    (Popup.activeCount docs' + 1 = Popup.activeCount docs)%nat.
Proof.
  intros Hcast Hnd Hfind Hact Ht Hc Hd.
  destruct (findById_In _ _ _ Hfind) as [Hmem Hid].
  eexists. split; [apply (toggle_off_result raw id u docs p); assumption|].
  split; [apply replaced_ids; exact Hid|]. split; [|split].
  - rewrite findById_replaced; [reflexivity | exact Hid | exact Hmem].
  - intros q Hq Hne. apply in_map_iff. exists q. split; [|exact Hq].
    apply String.eqb_neq in Hne. rewrite Hne. reflexivity.
  - rewrite <- (activeCount_replaced_off id
                  (Popup.with_updatedBy (Popup.with_isActive p false)
                     (Some (User._id u))) docs eq_refl).
    rewrite (filter_id_unique id docs p Hnd Hfind Hact). reflexivity.
Qed.

Lemma X5_toggle_off_touches_one_witness :
  exists docs',
    Popup.toggle PopupFixtures.idA (Some UserFixtures.root)
      (Up [PopupFixtures.popupA; PopupFixtures.popupB]) =
      (respond 200 true "Popup deactivated successfully", Up docs') /\
    map Popup._id docs' = [PopupFixtures.idA; PopupFixtures.idB] /\
    option_map Popup.isActive (Popup.findById PopupFixtures.idA docs') = Some false /\
    (forall q, In q [PopupFixtures.popupA; PopupFixtures.popupB] ->
               Popup._id q <> PopupFixtures.idA -> In q docs') /\
    (Popup.activeCount docs' + 1 = 1)%nat.
Proof.
  apply (X5_toggle_off_touches_one PopupFixtures.idA PopupFixtures.idA
           UserFixtures.root [PopupFixtures.popupA; PopupFixtures.popupB]
           PopupFixtures.popupA); try reflexivity; try discriminate.
  - repeat constructor; simpl; intuition discriminate.
  - simpl. lia.
Defined.

(** X6. Switching a popup on and then off again leaves no popup active,
    whatever was active before: the popups the first toggle switched off
    stay off.  The popup must be one `save` accepts: its title and content
    are there and its `displayDelay` is within 5000..120000. *)
Theorem X6_toggle_on_then_off_leaves_none
  (raw : string) (id : oid) (u v : User.t) (docs : list Popup.t) (p : Popup.t) :
  castObjectId "Popup" raw = Ok id ->
  Popup.findById id docs = Some p ->
  Popup.isActive p = false ->
  Popup.title p <> "" -> Popup.content p <> "" ->
  (5000 <= Popup.displayDelay p <= 120000)%Z ->
  exists docs' docs'',
    Popup.toggle raw (Some u) (Up docs) =
      (respond 200 true "Popup activated successfully", Up docs') /\
    Popup.toggle raw (Some v) (Up docs') =
      (respond 200 true "Popup deactivated successfully", Up docs'') /\
    Popup.activeCount docs'' = 0%nat.
Proof.
  intros Hcast Hfind Hin Ht Hc Hd.
  destruct (findById_In _ _ _ Hfind) as [Hmem Hid].
  set (on := Popup.with_updatedBy (Popup.with_isActive p true) (Some (User._id u))).
  eexists. eexists.
  split; [apply (toggle_on_result raw id u docs p); assumption|].
  fold on.
  assert (Hfind' : Popup.findById id
             (map (fun q => if (Popup._id q =? id) then on else q)
                  (Popup.deactivate_others id docs)) = Some on).
  { apply findById_replaced; [exact Hid|].
    rewrite deactivate_others_ids. exact Hmem. }
  split; [apply (toggle_off_result raw id v _ on); try assumption; reflexivity|].
  apply activeCount_all_off. intros q Hq.
  apply in_map_iff in Hq. destruct Hq as (x & Hx & Hxin).
  destruct (Popup._id x =? id) eqn:E; [subst q; reflexivity|].
  subst q. apply in_map_iff in Hxin. destruct Hxin as (y & Hy & Hyin).
  destruct (Popup._id y =? id) eqn:Ey.
  - subst x. simpl in E. apply String.eqb_eq in Hid.
    simpl in E. rewrite Hid in E. discriminate.
  - subst x. unfold Popup.deactivate_others in Hyin.
    apply in_map_iff in Hyin. destruct Hyin as (z & Hz & _).
    destruct (Popup._id z =? id) eqn:Ez.
    + subst y. rewrite Ez in Ey. discriminate.
    + subst y. reflexivity.
Qed.

Lemma X6_toggle_on_then_off_leaves_none_witness :
  exists docs' docs'',
    Popup.toggle PopupFixtures.idB (Some UserFixtures.root)
      (Up [PopupFixtures.popupA; PopupFixtures.popupB]) =
      (respond 200 true "Popup activated successfully", Up docs') /\
    Popup.toggle PopupFixtures.idB (Some UserFixtures.mod1) (Up docs') =
      (respond 200 true "Popup deactivated successfully", Up docs'') /\
    Popup.activeCount docs'' = 0%nat.
Proof.
  apply (X6_toggle_on_then_off_leaves_none PopupFixtures.idB PopupFixtures.idB
           UserFixtures.root UserFixtures.mod1
           [PopupFixtures.popupA; PopupFixtures.popupB] PopupFixtures.popupB);
    try reflexivity; try discriminate.
  simpl. lia.
Defined.

(** X7. Deleting a popup removes the popups stored under that id and no
    other; a delete that is not answered with success (unknown or malformed
    id, failing store) leaves the collection as it was. *)
Theorem X7_popup_delete_removes_exactly_one (raw : string) (db : Db Popup.t) :
  (success (fst (Popup.delete raw db)) = true ->
   exists id docs docs',
     castObjectId "Popup" raw = Ok id /\ db = Up docs /\
     snd (Popup.delete raw db) = Up docs' /\
     Popup.findById id docs <> None /\
     Popup.findById id docs' = None /\
     forall q, In q docs' <-> In q docs /\ Popup._id q <> id) /\
  (success (fst (Popup.delete raw db)) = false ->
   snd (Popup.delete raw db) = db).
Proof.
  unfold Popup.delete.
  destruct (castObjectId "Popup" raw) as [id|e]; simpl;
    [|split; [discriminate | reflexivity]].
  destruct db as [docs|e]; simpl; [|split; [discriminate | reflexivity]].
  destruct (Popup.findById id docs) as [p|] eqn:Hf; simpl;
    [|split; [discriminate | reflexivity]].
  split; [|discriminate]. intros _.
  exists id, docs. eexists. repeat (split; [reflexivity|]).
  split; [rewrite Hf; discriminate|]. split.
  - unfold Popup.findById.
    destruct (find _ (filter _ docs)) as [q|] eqn:E; [|reflexivity].
    apply find_some in E. destruct E as [Hin Heq].
    apply filter_In in Hin. destruct Hin as [_ Hne].
    rewrite Heq in Hne. discriminate.
  - intros q. rewrite filter_In, negb_true_iff, String.eqb_neq. tauto.
Qed.

Lemma X7_popup_delete_removes_exactly_one_witness :
  snd (Popup.delete PopupFixtures.idA
         (Up [PopupFixtures.popupA; PopupFixtures.popupB]))
    = Up [PopupFixtures.popupB] /\
  snd (Popup.delete PopupFixtures.idC
         (Up [PopupFixtures.popupA; PopupFixtures.popupB]))
    = Up [PopupFixtures.popupA; PopupFixtures.popupB].
Proof.
  split.
  - destruct (proj1 (X7_popup_delete_removes_exactly_one PopupFixtures.idA
                       (Up [PopupFixtures.popupA; PopupFixtures.popupB]))
                eq_refl) as (id & docs & docs' & _ & _ & _ & _ & _ & _).
    reflexivity.
  - apply (proj2 (X7_popup_delete_removes_exactly_one PopupFixtures.idC
                    (Up [PopupFixtures.popupA; PopupFixtures.popupB]))).
    reflexivity.
Defined.

(** X8. The public route for the active popup answers with a stored popup
    that is active, and with none exactly when no stored popup is active. *)
Theorem X8_getActive_returns_an_active_popup (docs : list Popup.t) :
  fst (Popup.getActive (Up docs)) = mkResponse 200 true None None /\
  (snd (Popup.getActive (Up docs)) = None <-> Popup.activeCount docs = 0%nat) /\
  (forall p, snd (Popup.getActive (Up docs)) = Some p ->
     In p docs /\ Popup.isActive p = true).
Proof.
  unfold Popup.getActive, Popup.activeCount. simpl. split; [reflexivity|].
  split.
  - induction docs as [|q docs IH]; simpl; [tauto|].
    destruct (Popup.isActive q); simpl; [split; discriminate | exact IH].
  - intros p H. apply find_some in H. exact H.
Qed.



(** X10. A `displayDelay` below 5000 or above 120000 is refused by both
    write routes: creation answers 400 when title or content is missing and
    500 otherwise, an update answers 500, and the collection is unchanged. *)
Theorem X10_displayDelay_out_of_range (b : Popup.Body) (d : Z)
  (raw fresh : oid) (req_user : option User.t) (db : Db Popup.t) :
  Popup.b_displayDelay b = Some d ->
  (d < 5000 \/ 120000 < d)%Z ->
  (Popup.create b fresh db =
     (if truthy (Popup.b_title b) && truthy (Popup.b_content b)
      then respond 500 false "Server error"
      else respond 400 false "Title and content are required", db)) /\
  Popup.update raw b req_user db = (respond 500 false "Server error", db).
Proof.
  intros Hd Hrange.
  assert (Hout : ((d <? 5000)%Z || (120000 <? d)%Z) = true).
  { apply orb_true_iff. rewrite !Z.ltb_lt. exact Hrange. }
  split.
  - unfold Popup.create.
    destruct (truthy (Popup.b_title b)); simpl; [|reflexivity].
    destruct (truthy (Popup.b_content b)); simpl; [|reflexivity].
    unfold Popup.save, Popup.validate. simpl. rewrite Hd. simpl. rewrite Hout.
    destruct (trim _ =? ""); simpl; [reflexivity|].
    destruct (Popup.or_default (Popup.b_content b) "" =? ""); reflexivity.
  - unfold Popup.update, Popup.findByIdAndUpdate.
    destruct req_user as [u|]; simpl; [|reflexivity].
    destruct (castObjectId "Popup" raw) as [id|e]; simpl; [|reflexivity].
    destruct (Popup.castUpdate (Popup.updateData b)); simpl; [|reflexivity].
    assert (Hv : exists e, Popup.validateUpdate (Popup.updateData b) = Throw e).
    { unfold Popup.validateUpdate, Popup.updateData.
      cbn [Popup.p_title Popup.p_content Popup.p_displayDelay].
      rewrite Hd. cbn [first]. rewrite Hout.
      match goal with
      | |- context [option_map trim ?x] => destruct (option_map trim x) as [[|? ?]|]
      end;
        try match goal with
            | |- context [first (Popup.b_content b) ?y] =>
                destruct (first (Popup.b_content b) y) as [[|? ?]|]
            end; eexists; reflexivity. }
    destruct Hv as [e ->]. reflexivity.
Qed.

Lemma X10_displayDelay_out_of_range_witness :
  Popup.create
    (Popup.mkBody (Some "Open day") (Some "Visit us") None None None
                  (Some 1000%Z) None None None None None)
    PopupFixtures.idC (Up [PopupFixtures.popupA])
  = (respond 500 false "Server error", Up [PopupFixtures.popupA]) /\
  Popup.update PopupFixtures.idA
    (Popup.mkBody (Some "Open day") (Some "Visit us") None None None
                  (Some 1000%Z) None None None None None)
    (Some UserFixtures.root) (Up [PopupFixtures.popupA])
  = (respond 500 false "Server error", Up [PopupFixtures.popupA]).
Proof.
  apply (X10_displayDelay_out_of_range
           (Popup.mkBody (Some "Open day") (Some "Visit us") None None None
                         (Some 1000%Z) None None None None None)
           1000%Z PopupFixtures.idA PopupFixtures.idC (Some UserFixtures.root)
           (Up [PopupFixtures.popupA]) eq_refl).
  left. reflexivity.
Defined.

(** X11. On a request that carries no user, the update route answers 500
    and the toggle route never answers with success (404 for an unknown id,
    500 otherwise); neither changes the collection. *)
Theorem X11_popup_writes_need_a_user (raw : string) (b : Popup.Body)
  (db : Db Popup.t) :
  Popup.update raw b None db = (respond 500 false "Server error", db) /\
  snd (Popup.toggle raw None db) = db /\
  (fst (Popup.toggle raw None db) = respond 404 false "Popup not found" \/
   fst (Popup.toggle raw None db) = respond 500 false "Server error").
Proof.
  split; [reflexivity|].
  unfold Popup.toggle.
  destruct (castObjectId "Popup" raw) as [id|e]; simpl; [|auto].
  destruct db as [docs|e]; simpl; [|auto].
  destruct (Popup.findById id docs); simpl; auto.
Qed.

Lemma X8_getActive_returns_an_active_popup_witness :
  In PopupFixtures.popupA [PopupFixtures.popupB; PopupFixtures.popupA] /\
  Popup.isActive PopupFixtures.popupA = true.
Proof.
  apply (proj2 (proj2 (X8_getActive_returns_an_active_popup
                         [PopupFixtures.popupB; PopupFixtures.popupA]))).
  reflexivity.
Defined.

(** ** Content pages: first save, uniqueness, visibility, initialisation *)

Lemma NoDup_app_one {A : Type} (l : list A) (x : A) :
  NoDup l -> ~ In x l -> NoDup (l ++ [x]).
Proof.
  intros Hl Hx. apply NoDup_app; [exact Hl | repeat constructor; auto |].
  intros a Ha [<-|[]]. exact (Hx Ha).
Qed.

Section MoreContentFacts.
Import Content.

Lemma findOne_none (pg : string) (docs : list t) :
  findOne pg docs = None <-> ~ In pg (map page docs).
Proof.
  unfold findOne. induction docs as [|q docs IH]; simpl.
  - tauto.
  - destruct (page q =? pg) eqn:E.
    + apply String.eqb_eq in E. split; [discriminate|]. tauto.
    + apply String.eqb_neq in E. rewrite IH. tauto.
Qed.

Lemma findOne_app (pg : string) (docs more : list t) :
  findOne pg (docs ++ more) =
    match findOne pg docs with
    | Some c => Some c
    | None => findOne pg more
    end.
Proof.
  unfold findOne. induction docs as [|q docs IH]; simpl; [reflexivity|].
  destruct (page q =? pg); [reflexivity | exact IH].
Qed.

(** A payload the route accepts passes the `required` check of the
    schema. *)
Lemma truthy_required (s : Json) (pg : string) (by_ : oid) (v : Z) (act : bool)
  (i : oid) :
  json_truthy (Some s) = true -> validPage pg = true ->
  forall m n, validate (mkDoc (mk i pg (Some s) by_ v act) m n) = Ok tt.
Proof.
  intros Ht Hv m n. unfold validate. cbn [fields page sections].
  rewrite Hv. destruct s; try reflexivity. discriminate Ht.
Qed.

(** The store after a save for a page that has no snapshot. *)
Lemma post_new_result
  (pg : string) (s : Json) (act : option bool) (credential : option User.t)
  (account : User.t) (fresh : oid) (docs : list t) :
  Middleware.auth credential = Middleware.Pass account ->
  json_truthy (Some s) = true ->
  validPage pg = true ->
  findOne pg docs = None ->
  post pg (Some s) act credential fresh (Up docs) =
    (respond 200 true (pg ++ " content updated successfully"),
     Up (docs ++ [mk fresh pg (minimize s) (User._id account) 2
                     (match act with Some v => v | None => true end)])).
Proof.
  intros Hauth Ht Hv Hf.
  unfold post. rewrite Hauth, Ht. cbn [negb bindR read]. rewrite Hf.
  unfold save, newContent. rewrite (truthy_required s pg _ _ _ _ Ht Hv).
  reflexivity.
Qed.

Lemma replaced_pages (docs : list t) (id : oid) (g : t -> t) :
  (forall q, page (g q) = page q) ->
  map page (map (fun q => if (_id q =? id) then g q else q) docs)
    = map page docs.
Proof.
  intros Hp. rewrite map_map. apply map_ext. intros q.
  destruct (_id q =? id); [apply Hp | reflexivity].
Qed.

(** Whatever a save request does to a running store, it is one of three
    things. *)
Lemma post_cases (pg : string) (b_sections : option Json) (act : option bool)
  (credential : option User.t) (fresh : oid) (docs : list t) :
  snd (post pg b_sections act credential fresh (Up docs)) = Up docs
  \/ (exists c g, findOne pg docs = Some c /\
        (forall q, page (g q) = page q /\ _id (g q) = _id q) /\
        snd (post pg b_sections act credential fresh (Up docs))
          = Up (map (fun q => if (_id q =? _id c) then g q else q) docs))
  \/ (exists n, findOne pg docs = None /\ page n = pg /\
        snd (post pg b_sections act credential fresh (Up docs))
          = Up (docs ++ [n])).
Proof.
  destruct (Middleware.auth credential) as [account|r] eqn:Hauth.
  2:{ left. unfold post. rewrite Hauth. reflexivity. }
  destruct b_sections as [s|].
  2:{ left. unfold post. rewrite Hauth. reflexivity. }
  destruct (json_truthy (Some s)) eqn:Ht.
  2:{ left. unfold post. rewrite Hauth, Ht. reflexivity. }
  destruct (validPage pg) eqn:Hv.
  - destruct (findOne pg docs) as [c|] eqn:Hf.
    + right; left.
      destruct (post_existing_result pg s act credential account fresh docs c
                  Hauth Ht Hv Hf) as (r & Hr & _).
      exists c. eexists. split; [reflexivity|].
      rewrite Hr. cbn [snd]. split; [|reflexivity].
      intros q. destruct (write_edited_keys c s (User._id account) act q).
      split; assumption.
    + right; right. eexists. split; [reflexivity|].
      rewrite (post_new_result pg s act credential account fresh docs
                 Hauth Ht Hv Hf).
      split; [|reflexivity]. reflexivity.
  - left. unfold post. rewrite Hauth, Ht. cbn [negb bindR read].
    destruct (findOne pg docs) as [c|] eqn:Hf.
    + fold (edited c s (User._id account) act).
      unfold save, validate. rewrite edited_fields. cbn [page].
      destruct (findOne_page _ _ _ Hf) as [_ Hpg]. rewrite Hpg, Hv.
      reflexivity.
    + unfold save, validate, newContent. cbn [fields page]. rewrite Hv.
      reflexivity.
Qed.

End MoreContentFacts.

(** X12. The first save of a page stores its snapshot with version 2 (the
    default 1, incremented by the hook because every path of a new document
    is modified), active unless the body says otherwise, and the answer
    reads `updated`, not `created`.  The sections are stored as submitted
    less their empty objects, and not at all when nothing is left of
    them. *)
Theorem X12_first_save_stores_version_2
  (pg : string) (s : Json) (act : option bool) (credential : option User.t)
  (account : User.t) (fresh : oid) (docs : list Content.t) :
  Middleware.auth credential = Middleware.Pass account ->
  json_truthy (Some s) = true ->
  Content.validPage pg = true ->
  Content.findOne pg docs = None ->
  Content.post pg (Some s) act credential fresh (Up docs) =
    (respond 200 true (pg ++ " content updated successfully"),
     Up (docs ++ [Content.mk fresh pg (minimize s) (User._id account) 2
                     (match act with Some v => v | None => true end)])).
Proof.
  intros Hauth Ht Hv Hf.
  unfold Content.post. rewrite Hauth, Ht. cbn [negb bindR read]. rewrite Hf.
  unfold Content.save, Content.newContent.
  rewrite (truthy_required s pg _ _ _ _ Ht Hv).
  cbn [bindR read]. unfold Content.pre_save, Content.isModified.
  cbn [Content.modified existsb String.eqb Ascii.eqb Bool.eqb orb].
  unfold Content.persist.
  cbn [Content.isNew Content.fields Content._id Content.page Content.sections
       Content.lastUpdatedBy Content.version Content.isActive Content.written].
  reflexivity.
Qed.

Lemma X12_first_save_stores_version_2_witness :
  Content.post "about"
    (Some (JObj [("hero", JObj [("title", JStr "About us")]); ("team", JObj [])]))
    None (Some UserFixtures.root) "64c000000000000000000002"
    (Up [ContentFixtures.home]) =
    (respond 200 true "about content updated successfully",
     Up [ContentFixtures.home;
         Content.mk "64c000000000000000000002" "about"
           (Some (ContentFixtures.hero "About us")) "64a000000000000000000001"
           2 true]).
Proof.
  apply (X12_first_save_stores_version_2 "about"
           (JObj [("hero", JObj [("title", JStr "About us")]); ("team", JObj [])])
           None (Some UserFixtures.root)
           UserFixtures.root "64c000000000000000000002"
           [ContentFixtures.home]); reflexivity.
Defined.

(** X13. A save request keeps at most one snapshot per page: when ids and
    pages are unique in the collection, pages are unique after the request,
    whatever the request and its outcome; a page that had a snapshot keeps
    it under the same id. *)
Theorem X13_one_snapshot_per_page
  (pg : string) (b_sections : option Json) (act : option bool)
  (credential : option User.t) (fresh : oid) (docs : list Content.t) :
  NoDup (map Content._id docs) ->
  NoDup (map Content.page docs) ->
  exists docs',
    snd (Content.post pg b_sections act credential fresh (Up docs)) = Up docs' /\
    NoDup (map Content.page docs') /\
    forall q, In q docs ->
      exists q', In q' docs' /\ Content._id q' = Content._id q /\
                 Content.page q' = Content.page q.
Proof.
  intros Hid Hpg.
  destruct (post_cases pg b_sections act credential fresh docs)
    as [H | [(c & g & Hf & Hg & H) | (n & Hf & Hp & H)]]; rewrite H.
  - exists docs. split; [reflexivity|]. split; [exact Hpg|].
    intros q Hq. exists q. auto.
  - eexists. split; [reflexivity|].
    split.
    + rewrite replaced_pages; [exact Hpg | intros q; apply Hg].
    + intros q Hq. destruct (Content._id q =? Content._id c) eqn:E.
      * exists (g q). split.
        -- apply in_map_iff. exists q. rewrite E. auto.
        -- destruct (Hg q). auto.
      * exists q. split; [|auto].
        apply in_map_iff. exists q. rewrite E. auto.
  - eexists. split; [reflexivity|]. split.
    + rewrite map_app. simpl. apply NoDup_app_one; [exact Hpg|].
      rewrite Hp. apply findOne_none. exact Hf.
    + intros q Hq. exists q. split; [apply in_or_app; auto | auto].
Qed.

Lemma X13_one_snapshot_per_page_witness :
  exists docs',
    snd (Content.post "about" (Some (ContentFixtures.hero "About us")) None
           (Some UserFixtures.root) "64c000000000000000000002"
           (Up [ContentFixtures.home])) = Up docs' /\
    NoDup (map Content.page docs') /\
    forall q, In q [ContentFixtures.home] ->
      exists q', In q' docs' /\ Content._id q' = Content._id q /\
                 Content.page q' = Content.page q.
Proof.
  apply (X13_one_snapshot_per_page "about"
           (Some (ContentFixtures.hero "About us")) None
           (Some UserFixtures.root) "64c000000000000000000002"
           [ContentFixtures.home]);
    repeat constructor; simpl; tauto.
Defined.

(** X14. Saving a page with `isActive: false` hides it from the public
    route: the save is answered with success, and a `GET /:page` after it is
    answered 404, while the history route still finds the snapshot. *)
Theorem X14_inactive_page_is_hidden
  (pg : string) (s : Json) (credential : option User.t) (account : User.t)
  (fresh : oid) (docs : list Content.t) (c : Content.t) :
  Middleware.auth credential = Middleware.Pass account ->
  json_truthy (Some s) = true ->
  Content.validPage pg = true ->
  NoDup (map Content._id docs) ->
  NoDup (map Content.page docs) ->
  Content.findOne pg docs = Some c ->
  exists r db',
    Content.post pg (Some s) (Some false) credential fresh (Up docs) = (r, db') /\
    success r = true /\
    Content.get pg db' = (respond 404 false "Content not found for this page", None) /\
    fst (Content.history pg credential db') = mkResponse 200 true None None.
Proof.
  intros Hauth Ht Hv Hid Hpg Hf.
  destruct (post_existing_result pg s (Some false) credential account fresh
              docs c Hauth Ht Hv Hf) as (r & Hr & Hs).
  destruct (findOne_page _ _ _ Hf) as [Hc Hcp].
  eexists. eexists. split; [exact Hr|]. split; [exact Hs|].
  split.
  - unfold Content.get. cbn [read].
    destruct (find _ _) as [q|] eqn:E; [|reflexivity].
    exfalso. apply find_some in E. destruct E as [Hin Hq].
    apply andb_true_iff in Hq. destruct Hq as [Hqp Hqa].
    apply String.eqb_eq in Hqp.
    apply in_map_iff in Hin. destruct Hin as (x & Hx & Hxin).
    destruct (Content._id x =? Content._id c) eqn:Ex.
    + apply String.eqb_eq in Ex.
      rewrite (NoDup_map_unique Content._id docs x c Hid Hxin Hc Ex) in Hx.
      rewrite write_edited in Hx. subst q. simpl in Hqa. discriminate.
    + subst q. apply String.eqb_neq in Ex. apply Ex. f_equal.
      apply (NoDup_map_unique Content.page docs x c Hpg Hxin Hc). congruence.
  - unfold Content.history. rewrite Hauth. cbn [read].
    rewrite (findOne_replaced pg docs c _ Hf); [reflexivity|].
    intros q. apply write_edited_keys.
Qed.

Lemma X14_inactive_page_is_hidden_witness :
  exists r db',
    Content.post "home" (Some (ContentFixtures.hero "Closed")) (Some false)
      (Some UserFixtures.root) "64c000000000000000000002"
      (Up [ContentFixtures.home]) = (r, db') /\
    success r = true /\
    Content.get "home" db' = (respond 404 false "Content not found for this page", None) /\
    fst (Content.history "home" (Some UserFixtures.root) db')
      = mkResponse 200 true None None.
Proof.
  apply (X14_inactive_page_is_hidden "home" (ContentFixtures.hero "Closed")
           (Some UserFixtures.root) UserFixtures.root
           "64c000000000000000000002" [ContentFixtures.home]
           ContentFixtures.home); try reflexivity;
    repeat constructor; simpl; tauto.
Defined.

Section InitialiseFacts.
Import Content.

(** The loop over a list of valid pages with sections on a running store:
    what it adds comes after what was stored, and is a version-2 active
    snapshot of a page that had none. *)
Lemma initLoop_spec (items : list (string * Json)) :
  (forall pg s, In (pg, s) items ->
     validPage pg = true /\ json_truthy (Some s) = true) ->
  forall (i : nat) (fresh : nat -> oid) (by_ : oid) (results : list string)
         (docs : list t),
  exists added results',
    initLoop items i fresh by_ results (Up docs)
      = (None, results', Up (docs ++ added)) /\
    List.length results' = (List.length results + List.length items)%nat /\
    (forall pg s, In (pg, s) items -> findOne pg (docs ++ added) <> None) /\
    (forall d, In d added ->
       version d = 2%Z /\ isActive d = true /\ lastUpdatedBy d = by_ /\
       findOne (page d) docs = None /\
       exists s, In (page d, s) items /\ sections d = minimize s).
Proof.
  induction items as [|[pg s] items IH]; intros Hvalid i fresh by_ results docs.
  - exists [], results. simpl. rewrite app_nil_r, Nat.add_0_r.
    repeat split; try reflexivity; intros; contradiction.
  - assert (Hrest : forall pg' s', In (pg', s') items ->
              validPage pg' = true /\ json_truthy (Some s') = true).
    { intros pg' s' H. apply (Hvalid pg' s'). right. exact H. }
    cbn [initLoop read]. destruct (findOne pg docs) as [c|] eqn:Hf.
    + destruct (IH Hrest (S i) fresh by_
                  (results ++ [(pg ++ " content already exists")%string])%list docs)
        as (added & results' & Hrun & Hlen & Hall & Hadded).
      exists added, results'. split; [exact Hrun|]. split.
      * rewrite Hlen, length_app. simpl. lia.
      * split.
        -- intros pg' s' [H|H].
           ++ injection H as <- <-. rewrite findOne_app, Hf. discriminate.
           ++ apply (Hall pg' s' H).
        -- intros d Hd. destruct (Hadded d Hd) as (H1 & H2 & H3 & H4 & s' & H5 & H6).
           repeat (split; [assumption|]). exists s'. split; [right; exact H5 | exact H6].
    + destruct (Hvalid pg s (or_introl eq_refl)) as [Hv Ht].
      unfold save, newDefault.
      rewrite (truthy_required s pg _ _ _ _ Ht Hv).
      cbn [bindR read pre_save].
      unfold pre_save, persist, isModified. cbn.
      destruct (IH Hrest (S i) fresh by_
                  (results ++ [(pg ++ " content created")%string])%list
                  (docs ++ [mk (fresh i) pg (minimize s) by_ 2 true])%list)
        as (added & results' & Hrun & Hlen & Hall & Hadded).
      exists (mk (fresh i) pg (minimize s) by_ 2 true :: added), results'.
      replace (docs ++ mk (fresh i) pg (minimize s) by_ 2 true :: added)%list
        with ((docs ++ [mk (fresh i) pg (minimize s) by_ 2 true]) ++ added)%list
        by (rewrite <- app_assoc; reflexivity).
      split; [exact Hrun|]. split.
      * rewrite Hlen, length_app. simpl. lia.
      * split.
        -- intros pg' s' [H|H].
           ++ injection H as <- <-.
              rewrite !findOne_app, Hf. simpl.
              unfold findOne. simpl. rewrite String.eqb_refl. discriminate.
           ++ apply (Hall pg' s' H).
        -- intros d [<-|Hd].
           ++ simpl. repeat (split; [reflexivity|]). split; [exact Hf|].
              exists s. auto.
           ++ destruct (Hadded d Hd) as (H1 & H2 & H3 & H4 & s' & H5 & H6).
              repeat (split; [assumption|]). split.
              ** rewrite findOne_app in H4.
                 destruct (findOne (page d) docs); [discriminate | reflexivity].
              ** exists s'. split; [right; exact H5 | exact H6].
Qed.

(** When every page of the list has a snapshot the loop stores nothing. *)
Lemma initLoop_nothing_to_do (items : list (string * Json)) (i : nat)
  (fresh : nat -> oid) (by_ : oid) (results : list string) (docs : list t) :
  (forall pg s, In (pg, s) items -> findOne pg docs <> None) ->
  exists results',
    initLoop items i fresh by_ results (Up docs) = (None, results', Up docs).
Proof.
  revert i results. induction items as [|[pg s] items IH]; intros i results H.
  - exists results. reflexivity.
  - cbn [initLoop read].
    destruct (findOne pg docs) as [c|] eqn:Hf.
    + apply IH. intros pg' s' Hin. apply (H pg' s'). right. exact Hin.
    + exfalso. apply (H pg s (or_introl eq_refl)). exact Hf.
Qed.

(** The default contents hold no empty object: the store keeps them as
    they are. *)
Lemma defaultContents_kept (pg : string) (s : Json) :
  In (pg, s) defaultContents ->
  validPage pg = true /\ json_truthy (Some s) = true /\ minimize s = Some s.
Proof.
  intros H. simpl in H.
  destruct H as [H|[H|[H|[H|[]]]]]; injection H as <- <-;
    repeat split; reflexivity.
Qed.

End InitialiseFacts.

(** X15. Initialising the default content on a running store never touches
    what is stored: the collection afterwards is the old one followed by
    one snapshot (version 2, active, by the caller) for each of `home`,
    `about`, `contact` and `footer` that had none.  All four pages have a
    snapshot afterwards, and initialising again stores nothing more. *)
Theorem X15_initialize_adds_missing_pages_only
  (credential : option User.t) (account : User.t) (fresh fresh2 : nat -> oid)
  (docs : list Content.t) :
  Middleware.auth credential = Middleware.Pass account ->
  exists added results,
    Content.initialize credential fresh (Up docs) =
      (respond 200 true "Default content initialization completed",
       results, Up (docs ++ added)) /\
    List.length results = 4%nat /\
    (forall pg, In pg ["home"; "about"; "contact"; "footer"] ->
                Content.findOne pg (docs ++ added) <> None) /\
    (forall d, In d added ->
       Content.version d = 2%Z /\ Content.isActive d = true /\
       Content.lastUpdatedBy d = User._id account /\
       Content.findOne (Content.page d) docs = None /\
       exists s, Content.sections d = Some s /\
                 In (Content.page d, s) Content.defaultContents) /\
    exists results2,
      Content.initialize credential fresh2 (Up (docs ++ added)) =
        (respond 200 true "Default content initialization completed",
         results2, Up (docs ++ added)).
Proof.
  intros Hauth.
  assert (Hvalid : forall pg s, In (pg, s) Content.defaultContents ->
            Content.validPage pg = true /\ json_truthy (Some s) = true).
  { intros pg s H. destruct (defaultContents_kept pg s H) as (H1 & H2 & _).
    auto. }
  destruct (initLoop_spec Content.defaultContents Hvalid 0 fresh
              (User._id account) [] docs)
    as (added & results & Hrun & Hlen & Hall & Hadded).
  exists added, results. unfold Content.initialize. rewrite Hauth, Hrun.
  split; [reflexivity|]. split; [exact Hlen|]. split; [|split].
  - intros pg Hpg. simpl in Hpg.
    destruct Hpg as [<-|[<-|[<-|[<-|[]]]]];
      eapply Hall; simpl; eauto.
  - intros d Hd. destruct (Hadded d Hd) as (H1 & H2 & H3 & H4 & s & H5 & H6).
    repeat (split; [assumption|]). exists s. split; [|exact H5].
    rewrite H6. apply (defaultContents_kept _ _ H5).
  - destruct (initLoop_nothing_to_do Content.defaultContents 0 fresh2
                (User._id account) [] (docs ++ added) Hall) as (results2 & H2).
    exists results2. rewrite H2. reflexivity.
Qed.

Lemma X15_initialize_adds_missing_pages_only_witness :
  exists added results,
    Content.initialize (Some UserFixtures.root)
      (fun i => String (ascii_of_nat (48 + i)) "4c00000000000000000000f")
      (Up [ContentFixtures.home]) =
      (respond 200 true "Default content initialization completed",
       results, Up ([ContentFixtures.home] ++ added)) /\
    List.length results = 4%nat /\
    List.length added = 3%nat.
Proof.
  destruct (X15_initialize_adds_missing_pages_only (Some UserFixtures.root)
              UserFixtures.root
              (fun i => String (ascii_of_nat (48 + i)) "4c00000000000000000000f")
              (fun i => "64c0000000000000000000ff")
              [ContentFixtures.home] eq_refl)
    as (added & results & Hrun & Hlen & _).
  exists added, results. split; [exact Hrun|]. split; [exact Hlen|].
  vm_compute in Hrun. injection Hrun as _ Hadd.
  rewrite <- Hadd. reflexivity.
Defined.

Section ContentDeleteFacts.
Import Content.

Lemma remove_first_spec (pg : string) (docs : list t) (c : t) :
  NoDup (map page docs) -> findOne pg docs = Some c ->
  findOne pg (remove_first pg docs) = None /\
  S (List.length (remove_first pg docs)) = List.length docs /\
  forall q, In q docs -> page q <> pg -> In q (remove_first pg docs).
Proof.
  unfold findOne. induction docs as [|q docs IH]; simpl; [discriminate|].
  intros Hnd Hf. inversion Hnd as [|? ? Hnotin Hnd']; subst.
  destruct (page q =? pg) eqn:E.
  - apply String.eqb_eq in E. split; [|split; [reflexivity|]].
    + apply findOne_none. rewrite <- E. exact Hnotin.
    + intros x [<-|Hx] Hne; [contradiction | exact Hx].
  - destruct (IH Hnd' Hf) as (H1 & H2 & H3). simpl. rewrite E.
    split; [exact H1|]. split; [rewrite H2; reflexivity|].
    intros x [<-|Hx] Hne; [left; reflexivity | right; apply H3; assumption].
Qed.

End ContentDeleteFacts.

(** X16. Deleting a page removes its snapshot and nothing else; the page is
    then unknown to the history route, and saving it again stores a new
    snapshot whose version is 2, whatever the version was before, with the
    sections as submitted less their empty objects. *)
Theorem X16_delete_page_resets_version
  (pg : string) (s : Json) (credential : option User.t) (account : User.t)
  (fresh : oid) (docs : list Content.t) (c : Content.t) :
  Middleware.auth credential = Middleware.Pass account ->
  json_truthy (Some s) = true ->
  Content.validPage pg = true ->
  NoDup (map Content.page docs) ->
  Content.findOne pg docs = Some c ->
  exists docs',
    Content.delete pg credential (Up docs) =
      (respond 200 true "Content deleted successfully", Up docs') /\
    S (List.length docs') = List.length docs /\
    (forall q, In q docs -> Content.page q <> pg -> In q docs') /\
    Content.history pg credential (Up docs') =
      (respond 404 false "Content not found", None) /\
    Content.post pg (Some s) None credential fresh (Up docs') =
      (respond 200 true (pg ++ " content updated successfully"),
       Up (docs' ++ [Content.mk fresh pg (minimize s) (User._id account) 2 true])).
Proof.
  intros Hauth Ht Hv Hpg Hf.
  destruct (remove_first_spec pg docs c Hpg Hf) as (Hnone & Hlen & Hkeep).
  exists (Content.remove_first pg docs).
  unfold Content.delete, Content.history. rewrite Hauth. cbn [read].
  rewrite Hf, Hnone.
  split; [reflexivity|]. split; [exact Hlen|]. split; [exact Hkeep|].
  split; [reflexivity|].
  apply post_new_result; assumption.
Qed.

Lemma X16_delete_page_resets_version_witness :
  exists docs',
    Content.delete "home" (Some UserFixtures.root) (Up [ContentFixtures.home]) =
      (respond 200 true "Content deleted successfully", Up docs') /\
    S (List.length docs') = 1%nat /\
    (forall q, In q [ContentFixtures.home] -> Content.page q <> "home" -> In q docs') /\
    Content.history "home" (Some UserFixtures.root) (Up docs') =
      (respond 404 false "Content not found", None) /\
    Content.post "home" (Some (ContentFixtures.hero "Again")) None
      (Some UserFixtures.root) "64c000000000000000000005" (Up docs') =
      (respond 200 true "home content updated successfully",
       Up (docs' ++ [Content.mk "64c000000000000000000005" "home"
                       (Some (ContentFixtures.hero "Again"))
                       "64a000000000000000000001" 2 true])).
Proof.
  apply (X16_delete_page_resets_version "home" (ContentFixtures.hero "Again")
           (Some UserFixtures.root) UserFixtures.root
           "64c000000000000000000005" [ContentFixtures.home]
           ContentFixtures.home); try reflexivity.
  repeat constructor. simpl. tauto.
Defined.

(** ** Blogs: the update route, views, slugs, validation *)

Section MoreBlogFacts.
Import Blog.

Lemma trim_start_fixed (s : string) :
  match s with
  | EmptyString => True
  | String c _ => is_space c = false
  end -> trim_start s = s.
Proof. destruct s as [|c s]; simpl; [reflexivity|]. intros ->. reflexivity. Qed.

Lemma trim_start_head (s : string) :
  match trim_start s with
  | EmptyString => True
  | String c _ => is_space c = false
  end.
Proof.
  induction s as [|c s IH]; simpl; [exact I|].
  destruct (is_space c) eqn:E; [exact IH | exact E].
Qed.

Lemma trim_end_head (s : string) :
  match s with
  | EmptyString => True
  | String c _ => is_space c = false
  end ->
  match trim_end s with
  | EmptyString => True
  | String c _ => is_space c = false
  end.
Proof.
  destruct s as [|c s]; simpl; [auto|].
  intros H. destruct (trim_end s); [rewrite H|]; exact H.
Qed.

Lemma trim_end_idem (s : string) : trim_end (trim_end s) = trim_end s.
Proof.
  induction s as [|c s IH]; simpl; [reflexivity|].
  destruct (trim_end s) as [|c' t] eqn:E.
  - destruct (is_space c) eqn:Ec; simpl; [reflexivity|].
    rewrite Ec. reflexivity.
  - simpl in IH. simpl. rewrite IH. reflexivity.
Qed.

Lemma trim_idem (s : string) : trim (trim s) = trim s.
Proof.
  unfold trim.
  rewrite (trim_start_fixed (trim_end (trim_start s))).
  - apply trim_end_idem.
  - apply trim_end_head. apply trim_start_head.
Qed.

End MoreBlogFacts.





Section BlogCreateFacts.
Import Blog.

Lemma pre_save_fields (now : Z) (d : Doc) :
  exists p, fields (pre_save now d) = with_publishedAt (fields d) p.
Proof.
  unfold pre_save.
  match goal with
  | |- context [if ?c then _ else _] => destruct c
  end.
  - eexists. reflexivity.
  - exists (publishedAt (fields d)). destruct d as [[] ? ?]. reflexivity.
Qed.

Lemma save_new_result (now : Z) (d : Doc) (docs : list t) (db' : Db t) :
  isNew d = true ->
  save now d (Up docs) = Ok db' ->
  validate d = Ok tt /\ db' = Up (docs ++ [fields (pre_save now d)]).
Proof.
  intros Hnew H. unfold save in H.
  destruct (validate d) as [[]|e]; simpl in H; [|discriminate].
  split; [reflexivity|]. injection H as <-.
  unfold persist. rewrite (proj2 (pre_save_id now d)), Hnew. reflexivity.
Qed.

(** What a creation request may do to a running store. *)
Lemma create_cases (now : Z) (b : Body) (file : Upload) (fresh : oid)
  (docs : list t) :
  snd (create now b file fresh (Up docs)) = Up docs
  \/ exists n,
       snd (create now b file fresh (Up docs)) = Up (docs ++ [n]) /\
       fst (create now b file fresh (Up docs))
         = respond 201 true "Blog created successfully" /\
       _id n = fresh /\
       slug n = trim (Popup.or_default (b_slug b) "") /\
       ~ In (slug n) (map slug docs) /\
       validate (mkDoc n [] true) = Ok tt.
Proof.
  unfold create. destruct (createValid b); simpl; [|left; reflexivity].
  destruct (find _ docs) as [x|] eqn:Hf; simpl; [left; reflexivity|].
  assert (Hfree : ~ In (trim (Popup.or_default (b_slug b) "")) (map slug docs)).
  { intros Hin. apply in_map_iff in Hin. destruct Hin as (x & Hx & Hxin).
    pose proof (find_none _ _ Hf x Hxin) as Hn. simpl in Hn.
    rewrite Hx, String.eqb_refl in Hn. discriminate. }
  assert (Hnew : forall image,
            let d := newBlog fresh (sanitized b) image in
            forall db', save now d (Up docs) = Ok db' ->
            exists n, db' = Up (docs ++ [n]) /\ _id n = fresh /\
                      slug n = trim (Popup.or_default (b_slug b) "") /\
                      validate (mkDoc n [] true) = Ok tt).
  { intros image d db' Hs.
    destruct (save_new_result now d docs db' eq_refl Hs) as [Hv ->].
    destruct (pre_save_fields now d) as [p Hp].
    exists (fields (pre_save now d)). split; [reflexivity|].
    rewrite Hp. split; [reflexivity|]. split.
    - simpl. apply trim_idem.
    - exact Hv. }
  destruct file; simpl; try (left; reflexivity).
  all: match goal with
       | |- context [save ?n ?d ?db] =>
           destruct (save n d db) as [db'|e] eqn:E; simpl;
           [|left; reflexivity]
       end.
  all: apply Hnew in E; destruct E as (n & -> & Hid & Hslug & Hv).
  all: right; exists n; repeat (split; [reflexivity || assumption|]).
  all: split; [rewrite Hslug; exact Hfree | exact Hv].
Qed.

End BlogCreateFacts.

(** X19. Creating blogs keeps slugs unique: when no two stored blogs share
    a slug, none do after a creation request, whatever the request and its
    outcome. *)
Theorem X19_create_keeps_slugs_unique
  (now : Z) (b : Blog.Body) (file : Blog.Upload) (fresh : oid)
  (docs : list Blog.t) :
  NoDup (map Blog.slug docs) ->
  exists docs',
    snd (Blog.create now b file fresh (Up docs)) = Up docs' /\
    NoDup (map Blog.slug docs').
Proof.
  intros Hnd.
  destruct (create_cases now b file fresh docs)
    as [H | (n & H & _ & _ & _ & Hfree & _)]; rewrite H.
  - exists docs. auto.
  - eexists. split; [reflexivity|].
    rewrite map_app. simpl. apply NoDup_app_one; assumption.
Qed.

Lemma X19_create_keeps_slugs_unique_witness :
  exists docs',
    snd (Blog.create 2000 (BlogFixtures.draftBody (Some "published"))
           Blog.NoFile BlogFixtures.idQ (Up [BlogFixtures.published])) = Up docs' /\
    NoDup (map Blog.slug docs').
Proof.
  apply (X19_create_keeps_slugs_unique 2000%Z
           (BlogFixtures.draftBody (Some "published")) Blog.NoFile
           BlogFixtures.idQ [BlogFixtures.published]).
  repeat constructor. simpl. tauto.
Defined.

(** X20. The request validators of blog creation are wider than the schema:
    a category outside the seven of the schema, or an excerpt of more than
    300 characters, passes them and fails on `save`.  The answer is 500 with
    the validation text in `error`, and nothing is stored. *)
Theorem X20_create_wider_than_schema
  (now : Z) (b : Blog.Body) (file : Blog.Upload) (fresh : oid)
  (docs : list Blog.t) :
  Blog.createValid b = true ->
  find (fun x => Blog.slug x =? trim (Popup.or_default (Blog.b_slug b) "")) docs = None ->
  file <> Blog.UploadFailed ->
  Blog.validCategory (trim (Popup.or_default (Blog.b_category b) "")) = false \/
  (300 < String.length (trim (Popup.or_default (Blog.b_excerpt b) "")))%nat ->
  exists msg,
    Blog.create now b file fresh (Up docs) =
      (mkResponse 500 false (Some "Error creating blog") (Some msg), Up docs).
Proof.
  intros Hvalid Hfree Hfile Hbad.
  assert (Hthrow : forall image, exists e,
            Blog.validate (Blog.newBlog fresh (Blog.sanitized b) image) = Throw e).
  { intros image. unfold Blog.validate. cbn [Blog.fields Blog.newBlog].
    cbn [Blog.title Blog.slug Blog.excerpt Blog.content Blog.category
         Blog.status Blog.seoDescription Blog.sanitized Blog.b_title
         Blog.b_slug Blog.b_excerpt Blog.b_content Blog.b_category
         Popup.or_default].
    rewrite !trim_idem.
    match goal with
    | |- context [if ?c then _ else _] => destruct c; [eexists; reflexivity|]
    end.
    destruct (300 <? _)%nat eqn:E300; [eexists; reflexivity|].
    destruct (negb (Blog.validCategory _)) eqn:Ecat; [eexists; reflexivity|].
    exfalso. destruct Hbad as [Hc|He].
    - rewrite Hc in Ecat. discriminate.
    - apply Nat.ltb_ge in E300. lia. }
  unfold Blog.create. rewrite Hvalid. cbn [negb].
  cbn [Blog.b_slug Blog.sanitized Popup.or_default bindR read].
  rewrite Hfree.
  destruct file as [| |url]; [|congruence|].
  - destruct (Hthrow (Blog.b_featuredImage (Blog.sanitized b))) as [e He].
    unfold Blog.save. rewrite He. eexists. reflexivity.
  - destruct (Hthrow (Some url)) as [e He].
    unfold Blog.save. rewrite He. eexists. reflexivity.
Qed.

Lemma X20_create_wider_than_schema_witness :
  exists msg,
    Blog.create 2000
      (Blog.mkBody (Some "How to choose a college") (Some "how-to-choose-a-college")
                   (Some "A short guide to choosing.") (Some BlogFixtures.fifty)
                   None (Some "Sports") None None None None None None None)
      Blog.NoFile BlogFixtures.idQ (Up [BlogFixtures.published]) =
      (mkResponse 500 false (Some "Error creating blog") (Some msg),
       Up [BlogFixtures.published]).
Proof.
  apply (X20_create_wider_than_schema 2000%Z
           (Blog.mkBody (Some "How to choose a college") (Some "how-to-choose-a-college")
                        (Some "A short guide to choosing.") (Some BlogFixtures.fifty)
                        None (Some "Sports") None None None None None None None)
           Blog.NoFile BlogFixtures.idQ [BlogFixtures.published]);
    try reflexivity.
  - discriminate.
  - left. reflexivity.
Defined.

(** X21. Deleting a blog is physical: the blogs of that id are gone, every
    other blog is stored as before, and reading the deleted blog by its slug
    is answered 404 from then on (slugs being unique). *)
Theorem X21_deleted_blog_is_gone
  (now : Z) (raw : string) (id : oid) (docs : list Blog.t) (b : Blog.t) :
  castObjectId "Blog" raw = Ok id ->
  NoDup (map Blog.slug docs) ->
  find (fun x => Blog._id x =? id) docs = Some b ->
  exists docs',
    Blog.delete raw (Up docs) =
      (respond 200 true "Blog deleted successfully", Up docs') /\
    (forall q, In q docs' <-> In q docs /\ Blog._id q <> id) /\
    Blog.view now (Blog.slug b) (Up docs') =
      (respond 404 false "Blog not found", Up docs').
Proof.
  intros Hcast Hnd Hf.
  unfold Blog.delete. rewrite Hcast. cbn [bindR read]. rewrite Hf.
  eexists. split; [reflexivity|]. split.
  - intros q. rewrite filter_In, negb_true_iff, String.eqb_neq. tauto.
  - unfold Blog.view. cbn [bindR read].
    destruct (find _ (filter _ docs)) as [x|] eqn:E; [|reflexivity].
    exfalso. apply find_some in E. destruct E as [Hin Hx].
    apply filter_In in Hin. destruct Hin as [Hin Hne].
    apply andb_true_iff in Hx. destruct Hx as [Hs _].
    apply String.eqb_eq in Hs.
    apply find_some in Hf. destruct Hf as [Hb Hbid].
    rewrite (NoDup_map_unique Blog.slug docs x b Hnd Hin Hb Hs) in Hne.
    rewrite Hbid in Hne. discriminate.
Qed.

Lemma X21_deleted_blog_is_gone_witness :
  exists docs',
    Blog.delete BlogFixtures.idP (Up [BlogFixtures.published]) =
      (respond 200 true "Blog deleted successfully", Up docs') /\
    (forall q, In q docs' <-> In q [BlogFixtures.published] /\ Blog._id q <> BlogFixtures.idP) /\
    Blog.view 9 "admission-tips" (Up docs') =
      (respond 404 false "Blog not found", Up docs').
Proof.
  apply (X21_deleted_blog_is_gone 9%Z BlogFixtures.idP BlogFixtures.idP
           [BlogFixtures.published] BlogFixtures.published); try reflexivity.
  repeat constructor. simpl. tauto.
Defined.

(** ** Colleges and courses: creation, update, soft deletion *)

Section MoreCollegeFacts.
Import College.

Lemma guard_pass (p : User.Permission) (credential : option User.t)
  (account : User.t) :
  Middleware.andThen (Middleware.auth credential)
    (Middleware.requirePermission p) = Middleware.Pass account ->
  credential = Some account /\ User.isActive account = true /\
  User.hasPermission account p = true.
Proof.
  unfold Middleware.andThen, Middleware.auth, Middleware.requirePermission.
  destruct credential as [a|]; [|discriminate].
  destruct (User.isActive a) eqn:Ea; [|discriminate].
  destruct (User.hasPermission a p) eqn:Ep; [|discriminate].
  intros H. injection H as <-. auto.
Qed.

(** What a request may do to a running collection of colleges: nothing, add
    the college it brings, or rewrite the colleges of one id, each keeping
    its id and either keeping its status or becoming deleted. *)
Lemma handle_cases_college (now : Z) (credential : option User.t)
  (r : Request) (docs : list t) :
  exists docs',
    snd (handle now credential r (Up docs)) = Up docs' /\
    (docs' = docs
     \/ (exists n, brings r (_id n) /\ status n = "active" /\
                   docs' = (docs ++ [n])%list)
     \/ (exists id f,
           (forall x, _id (f x) = _id x /\
                      (status (f x) = status x \/ status (f x) = "deleted")) /\
           docs' = map (fun x => if (_id x =? id) then f x else x) docs)).
Proof.
  assert (Hsame : exists docs',
            Up docs = Up docs' /\
            (docs' = docs
             \/ (exists n, brings r (_id n) /\ status n = "active" /\
                           docs' = (docs ++ [n])%list)
             \/ (exists id f,
                   (forall x, _id (f x) = _id x /\
                              (status (f x) = status x \/ status (f x) = "deleted")) /\
                   docs' = map (fun x => if (_id x =? id) then f x else x) docs)))
    by (exists docs; auto).
  destruct r as [b file fresh | raw b file | raw]; cbn [handle].
  - unfold create.
    destruct (Middleware.andThen _ _) as [u|rej]; [|exact Hsame].
    destruct (createValid b); cbn [negb]; [|exact Hsame].
    destruct file; try exact Hsame.
    all: match goal with
         | |- context [validate ?c] => destruct (validate c) as [[]|e]
         end; cbn [bindR read snd].
    all: try (destruct (is_duplicate_key e); exact Hsame).
    all: eexists; split; [reflexivity|]; right; left.
    all: eexists; (split; [|split; [|reflexivity]]); reflexivity.
  - unfold update.
    destruct (Middleware.andThen _ _) as [u|rej]; [|exact Hsame].
    unfold findById, updateWhere, caught.
    destruct (castObjectId "College" raw) as [id|e]; cbn [bindR read].
    2:{ destruct (ename e =? "CastError"); exact Hsame. }
    destruct (find _ docs); [|exact Hsame].
    destruct file; try exact Hsame.
    all: destruct (validateUpdate b) as [[]|e]; cbn [bindR read snd].
    all: try (destruct (ename e =? "CastError"); exact Hsame).
    all: eexists; split; [reflexivity|]; right; right.
    all: exists id; eexists; split; [|reflexivity].
    all: intros x; split; [reflexivity | left; reflexivity].
  - unfold delete.
    destruct (Middleware.andThen _ _) as [u|rej]; [|exact Hsame].
    unfold findById, updateWhere, caught.
    destruct (castObjectId "College" raw) as [id|e]; cbn [bindR read].
    2:{ destruct (ename e =? "CastError"); exact Hsame. }
    destruct (find _ docs); [|exact Hsame].
    cbn [snd]. eexists; split; [reflexivity|]; right; right.
    exists id; eexists; split; [|reflexivity].
    intros x; split; [reflexivity | right; reflexivity].
Qed.

End MoreCollegeFacts.

(** X22. A college is created from the name, description, address and
    uploaded image alone: it is stored active, without a website, created
    and updated by the caller at the current time, whatever `status` or
    `website` the body carries.  A name, description or address that is
    blank passes the request validators, fails on `save` and is answered
    500 with nothing stored. *)
Theorem X22_college_create
  (now : Z) (b : College.Body) (file : Blog.Upload) (fresh : oid)
  (credential : option User.t) (account : User.t) (docs : list College.t) :
  Middleware.andThen (Middleware.auth credential)
    (Middleware.requirePermission User.create_college) = Middleware.Pass account ->
  College.createValid b = true ->
  file <> Blog.UploadFailed ->
  let nm := trim (Popup.or_default (College.b_name b) "") in
  let ds := trim (Popup.or_default (College.b_description b) "") in
  let ad := trim (Popup.or_default (College.b_address b) "") in
  (nm <> "" -> ds <> "" -> ad <> "" ->
   College.create now b file fresh credential (Up docs) =
     (respond 201 true "College created successfully",
      Up (docs ++ [College.mk fresh nm ds
                     (match file with Blog.Uploaded url => Some url | _ => None end)
                     ad None "active" (Some (User._id account))
                     (Some (User._id account)) now now]))) /\
  (nm = "" \/ ds = "" \/ ad = "" ->
   College.create now b file fresh credential (Up docs) =
     (respond 500 false "Server error while creating college", Up docs)).
Proof.
  intros Hguard Hvalid Hfile nm ds ad.
  unfold College.create. rewrite Hguard, Hvalid. cbn [negb].
  fold nm ds ad. unfold College.newCollege, College.validate.
  cbn [College.name College.description College.address].
  assert (Hnm : trim nm = nm) by apply trim_idem.
  rewrite Hnm.
  split.
  - intros H1 H2 H3.
    apply String.eqb_neq in H1. apply String.eqb_neq in H2.
    apply String.eqb_neq in H3. rewrite H1, H2, H3.
    destruct file; [reflexivity | congruence | reflexivity].
  - intros H.
    assert (Hbad : (nm =? "") || (ds =? "") || (ad =? "") = true).
    { destruct H as [H|[H|H]]; rewrite H; simpl; rewrite ?orb_true_r;
        reflexivity. }
    rewrite Hbad.
    destruct file; [reflexivity | congruence | reflexivity].
Qed.

Lemma X22_college_create_witness :
  College.create 50
    (College.mkBody (Some " Delhi Technical College ") (Some "Engineering college")
                    (Some "Delhi") (Some "deleted") (Some "http://dtc.example"))
    (Blog.Uploaded "https://img/dtc.png") "64f000000000000000000002"
    (Some UserFixtures.root) (Up []) =
    (respond 201 true "College created successfully",
     Up [College.mk "64f000000000000000000002" "Delhi Technical College"
           "Engineering college" (Some "https://img/dtc.png") "Delhi" None
           "active" (Some "64a000000000000000000001")
           (Some "64a000000000000000000001") 50 50]) /\
  College.create 50
    (College.mkBody (Some "   ") (Some "Engineering college") (Some "Delhi")
                    None None)
    Blog.NoFile "64f000000000000000000002" (Some UserFixtures.root) (Up []) =
    (respond 500 false "Server error while creating college", Up []).
Proof.
  split.
  - apply (proj1 (X22_college_create 50%Z
             (College.mkBody (Some " Delhi Technical College ")
                (Some "Engineering college") (Some "Delhi") (Some "deleted")
                (Some "http://dtc.example"))
             (Blog.Uploaded "https://img/dtc.png") "64f000000000000000000002"
             (Some UserFixtures.root) UserFixtures.root [] eq_refl eq_refl
             ltac:(discriminate))); discriminate.
  - apply (proj2 (X22_college_create 50%Z
             (College.mkBody (Some "   ") (Some "Engineering college")
                (Some "Delhi") None None)
             Blog.NoFile "64f000000000000000000002"
             (Some UserFixtures.root) UserFixtures.root [] eq_refl eq_refl
             ltac:(discriminate))).
    left. reflexivity.
Defined.

(** X23. An update of a college that is answered with success rewrites the
    college of that id and no other, and only its name, description,
    address and image: its status, website, creator and creation time are
    as before, `updatedBy` is the caller and `updatedAt` the current time.
    A text the body leaves out or sends empty keeps the stored one. *)
Theorem X23_college_update_frame
  (now : Z) (raw : string) (b : College.Body) (file : Blog.Upload)
  (credential : option User.t) (docs : list College.t) :
  success (fst (College.update now raw b file credential (Up docs))) = true ->
  exists account id c c' docs',
    credential = Some account /\ castObjectId "College" raw = Ok id /\
    find (fun x => College._id x =? id) docs = Some c /\
    snd (College.update now raw b file credential (Up docs)) = Up docs' /\
    find (fun x => College._id x =? id) docs' = Some c' /\
    map College._id docs' = map College._id docs /\
    (forall q, In q docs -> College._id q <> id -> In q docs') /\
    College._id c' = College._id c /\
    College.status c' = College.status c /\
    College.website c' = College.website c /\
    College.createdBy c' = College.createdBy c /\
    College.createdAt c' = College.createdAt c /\
    College.updatedBy c' = Some (User._id account) /\
    College.updatedAt c' = now /\
    (College.nonempty (College.b_name b) = None -> College.name c' = College.name c) /\
    (College.nonempty (College.b_description b) = None ->
     College.description c' = College.description c) /\
    (College.nonempty (College.b_address b) = None ->
     College.address c' = College.address c).
Proof.
  unfold College.update.
  destruct (Middleware.andThen _ _) as [u|rej] eqn:Hg.
  2:{ unfold Middleware.andThen, Middleware.auth, Middleware.requirePermission in Hg.
      destruct credential as [a|]; [destruct (User.isActive a);
        [destruct (User.hasPermission a User.edit_college)|]|];
        try discriminate; injection Hg as <-; discriminate. }
  destruct (guard_pass _ _ _ Hg) as (-> & _ & _).
  unfold College.findById, College.updateWhere, College.caught.
  destruct (castObjectId "College" raw) as [id|e]; simpl.
  2:{ destruct (ename e =? "CastError"); discriminate. }
  destruct (find _ docs) as [c|] eqn:Hf; [|discriminate].
  assert (Hgoal : forall img,
    exists c' docs',
      Up (map (fun x => if (College._id x =? id)
                        then College.applyUpdate now b img (User._id u) x
                        else x) docs) = Up docs' /\
      find (fun x => College._id x =? id) docs' = Some c' /\
      map College._id docs' = map College._id docs /\
      (forall q, In q docs -> College._id q <> id -> In q docs') /\
      College._id c' = College._id c /\
      College.status c' = College.status c /\
      College.website c' = College.website c /\
      College.createdBy c' = College.createdBy c /\
      College.createdAt c' = College.createdAt c /\
      College.updatedBy c' = Some (User._id u) /\
      College.updatedAt c' = now /\
      (College.nonempty (College.b_name b) = None -> College.name c' = College.name c) /\
      (College.nonempty (College.b_description b) = None ->
       College.description c' = College.description c) /\
      (College.nonempty (College.b_address b) = None ->
       College.address c' = College.address c)).
  { intros img.
    destruct (find_updated College._id
                (College.applyUpdate now b img (User._id u)) id docs c
                (fun x => eq_refl) Hf) as [H1 H2].
    exists (College.applyUpdate now b img (User._id u) c). eexists.
    split; [reflexivity|]. split; [exact H1|]. split; [exact H2|].
    split.
    - intros q Hq Hne. apply in_map_iff. exists q. split; [|exact Hq].
      apply String.eqb_neq in Hne. rewrite Hne. reflexivity.
    - repeat (split; [reflexivity|]).
      unfold College.applyUpdate. simpl.
      split; [|split]; intros ->; reflexivity. }
  destruct file; simpl; try discriminate.
  all: destruct (College.validateUpdate b) as [[]|e]; simpl;
    [|destruct (ename e =? "CastError"); discriminate].
  all: intros _.
  all: match goal with
       | |- context [College.applyUpdate _ _ ?img _] =>
           destruct (Hgoal img) as (c' & docs' & Hd & Hrest)
       end.
  all: exists u, id, c, c', docs'.
  all: split; [reflexivity|]; split; [reflexivity|]; split; [exact Hf|].
  all: split; [exact Hd | exact Hrest].
Qed.

Lemma X23_college_update_frame_witness :
  exists docs',
    snd (College.update 60 "64f000000000000000000001"
           (College.mkBody (Some "Delhi Institute") None None (Some "deleted")
                           (Some "http://x.example"))
           Blog.NoFile (Some UserFixtures.root)
           (Up [UserFixtures.college1])) = Up docs' /\
    map College.name docs' = ["Delhi Institute"] /\
    map College.status docs' = ["active"] /\
    map College.website docs' = [None].
Proof.
  destruct (X23_college_update_frame 60%Z "64f000000000000000000001"
              (College.mkBody (Some "Delhi Institute") None None (Some "deleted")
                              (Some "http://x.example"))
              Blog.NoFile (Some UserFixtures.root) [UserFixtures.college1]
              eq_refl)
    as (a & id & c & c' & docs' & _ & _ & _ & Hd & _).
  exists docs'. split; [exact Hd|].
  vm_compute in Hd. injection Hd as <-. repeat split.
Defined.

(** X24. For colleges deletion is final: no creation, update or deletion
    request brings a college whose status is `deleted` back to another
    status (ids being unique and a creation bringing an id of its own). *)
Theorem X24_deleted_college_stays_deleted
  (now : Z) (credential : option User.t) (r : College.Request)
  (docs docs' : list College.t) (c c' : College.t) :
  NoDup (map College._id docs) ->
  In c docs -> College.status c = "deleted" ->
  ~ College.brings r (College._id c) ->
  snd (College.handle now credential r (Up docs)) = Up docs' ->
  In c' docs' -> College._id c' = College._id c ->
  College.status c' = "deleted".
Proof.
  intros Hnd Hc Hs Hfresh Hstep Hc' Hid.
  destruct (handle_cases_college now credential r docs)
    as (d & Hd & Hcases).
  rewrite Hd in Hstep. injection Hstep as ->.
  destruct Hcases as [-> | [(n & Hn & _ & ->) | (id & f & Hf & ->)]].
  - rewrite (NoDup_map_unique College._id docs c' c Hnd Hc' Hc Hid). exact Hs.
  - apply in_app_or in Hc'. destruct Hc' as [Hc'|[<-|[]]].
    + rewrite (NoDup_map_unique College._id docs c' c Hnd Hc' Hc Hid). exact Hs.
    + exfalso. apply Hfresh. rewrite <- Hid.
      destruct r; simpl in *; try contradiction. exact Hn.
  - apply in_map_iff in Hc'. destruct Hc' as (q & Hq & Hqin).
    destruct (College._id q =? id).
    + subst c'. destruct (Hf q) as [Hfid Hfs].
      rewrite Hfid in Hid.
      assert (Hqc : q = c)
        by exact (NoDup_map_unique College._id docs q c Hnd Hqin Hc Hid).
      subst q. destruct Hfs as [Hfs|Hfs]; [|exact Hfs].
      rewrite Hfs. exact Hs.
    + subst c'.
      rewrite (NoDup_map_unique College._id docs q c Hnd Hqin Hc Hid). exact Hs.
Qed.

Lemma X24_deleted_college_stays_deleted_witness :
  College.status
    (College.applyUpdate 70
       (College.mkBody (Some "Reopened") None None (Some "active") None)
       None "64a000000000000000000001"
       (College.softDeleted "64a000000000000000000001" 60 UserFixtures.college1))
  = "deleted".
Proof.
  apply (X24_deleted_college_stays_deleted 70%Z (Some UserFixtures.root)
           (College.Update "64f000000000000000000001"
              (College.mkBody (Some "Reopened") None None (Some "active") None)
              Blog.NoFile)
           [College.softDeleted "64a000000000000000000001" 60 UserFixtures.college1]
           [College.applyUpdate 70
              (College.mkBody (Some "Reopened") None None (Some "active") None)
              None "64a000000000000000000001"
              (College.softDeleted "64a000000000000000000001" 60 UserFixtures.college1)]
           (College.softDeleted "64a000000000000000000001" 60 UserFixtures.college1)).
  - repeat constructor. simpl. tauto.
  - simpl. auto.
  - reflexivity.
  - simpl. tauto.
  - reflexivity.
  - simpl. auto.
  - reflexivity.
Defined.

(** X25. A deleted college is still found by id: after a successful delete
    the public `GET /:id` answers 200 with the selected fields of the
    record (name, description, image, address, status and the two time
    stamps), status `deleted` and `updatedAt` the time of the delete, and a
    second delete is answered with success again, not 404. *)
Theorem X25_deleted_college_still_served
  (now now2 : Z) (raw : string) (id : oid) (credential : option User.t)
  (account : User.t) (docs : list College.t) (c : College.t) :
  Middleware.andThen (Middleware.auth credential)
    (Middleware.requirePermission User.delete_college) = Middleware.Pass account ->
  castObjectId "College" raw = Ok id ->
  find (fun x => College._id x =? id) docs = Some c ->
  exists docs',
    College.delete now raw credential (Up docs) =
      (respond 200 true "College deleted successfully", Up docs') /\
    College.getById raw (Up docs') =
      (mkResponse 200 true None None,
       Some (College.mkSelected (College._id c) (College.name c)
               (College.description c) (College.image c) (College.address c)
               "deleted" (College.createdAt c) now)) /\
    fst (College.delete now2 raw credential (Up docs')) =
      respond 200 true "College deleted successfully".
Proof.
  intros Hg Hcast Hf.
  destruct (find_updated College._id
              (College.softDeleted (User._id account) now) id docs c
              (fun x => eq_refl) Hf) as [H1 _].
  eexists. split; [|split].
  - unfold College.delete. rewrite Hg.
    unfold College.findById, College.updateWhere. rewrite Hcast.
    cbn [bindR read]. rewrite Hf. reflexivity.
  - unfold College.getById, College.findById. rewrite Hcast.
    cbn [bindR read]. rewrite H1. reflexivity.
  - unfold College.delete. rewrite Hg.
    unfold College.findById, College.updateWhere. rewrite Hcast.
    cbn [bindR read]. rewrite H1. reflexivity.
Qed.

Lemma X25_deleted_college_still_served_witness :
  exists docs',
    College.delete 60 "64f000000000000000000001" (Some UserFixtures.root)
      (Up [UserFixtures.college1]) =
      (respond 200 true "College deleted successfully", Up docs') /\
    College.getById "64f000000000000000000001" (Up docs') =
      (mkResponse 200 true None None,
       Some (College.mkSelected (College._id UserFixtures.college1)
               (College.name UserFixtures.college1)
               (College.description UserFixtures.college1)
               (College.image UserFixtures.college1)
               (College.address UserFixtures.college1)
               "deleted" (College.createdAt UserFixtures.college1) 60)) /\
    fst (College.delete 61 "64f000000000000000000001" (Some UserFixtures.root)
           (Up docs')) =
      respond 200 true "College deleted successfully".
Proof.
  apply (X25_deleted_college_still_served 60%Z 61%Z "64f000000000000000000001"
           "64f000000000000000000001" (Some UserFixtures.root) UserFixtures.root
           [UserFixtures.college1] UserFixtures.college1); reflexivity.
Defined.

(** `save` refuses a soft-deleted course: whatever the other validators
    say, `deleted` is not in the enum of `status`. *)
Lemma soft_deleted_course_invalid (by_ : oid) (now : Z) (c : Course.t) :
  exists msg,
    Course.validate (Course.softDeleted by_ now c)
      = Throw (Course.ValidationError msg).
Proof.
  unfold Course.validate.
  cbn [Course.softDeleted Course.title Course.description Course.category
       Course.duration Course.eligibility Course.image Course.fees_min
       Course.fees_max Course.rating Course.enrollments Course.status
       Course.syllabus Course.careerOpportunities].
  change (Course.validStatus "deleted") with false. cbn [negb].
  repeat match goal with
         | |- context [if ?x then Throw _ else _] =>
             destruct x; [eexists; reflexivity|]
         end.
  eexists; reflexivity.
Qed.

(** X26. Reading a course by id never changes the collection: the view
    count the route computes is not a path of the schema and `save` has
    nothing to write.  A stored course that passes the validators of the
    schema is answered 200.  A course that was soft-deleted is not served
    any more: `save` validates it first, its status `deleted` is outside
    the enum, and after a successful delete `GET /:id` answers 500. *)
Theorem X26_course_read_stores_nothing :
  (forall (raw : string) (db : Db Course.t),
      snd (Course.getOne raw db) = db) /\
  (forall (raw : string) (id : oid) (docs : list Course.t) (c : Course.t),
      castObjectId "Course" raw = Ok id ->
      find (fun x => Course._id x =? id) docs = Some c ->
      Course.validate c = Ok tt ->
      Course.getOne raw (Up docs)
        = (mkResponse 200 true None None, Some c, Up docs)) /\
  (forall (now : Z) (raw : string) (id : oid) (credential : option User.t)
          (account : User.t) (docs : list Course.t) (c : Course.t),
      Middleware.andThen (Middleware.auth credential)
        (Middleware.requirePermission User.delete_course) = Middleware.Pass account ->
      castObjectId "Course" raw = Ok id ->
      find (fun x => Course._id x =? id) docs = Some c ->
      exists docs',
        Course.delete now raw credential (Up docs) =
          (respond 200 true "Course deleted successfully", Up docs') /\
        Course.getOne raw (Up docs') =
          (respond 500 false "Server error while fetching course", None, Up docs')).
Proof.
  split; [|split].
  - intros raw db. unfold Course.getOne, Course.findById, Course.save.
    destruct (castObjectId "Course" raw) as [id|e]; cbn [bindR]; [|reflexivity].
    destruct db as [docs|e]; cbn [bindR read]; [|reflexivity].
    destruct (find _ docs) as [c|]; [|reflexivity].
    cbn [Course.fields Course.bump_views Course.hydrate Course.modified].
    destruct (Course.validate c); reflexivity.
  - intros raw id docs c Hcast Hf Hv.
    unfold Course.getOne, Course.findById, Course.save. rewrite Hcast.
    cbn [bindR read]. rewrite Hf.
    cbn [Course.fields Course.bump_views Course.hydrate Course.modified].
    rewrite Hv. reflexivity.
  - intros now raw id credential account docs c Hg Hcast Hf.
    destruct (find_updated Course._id
                (Course.softDeleted (User._id account) now) id docs c
                (fun x => eq_refl) Hf) as [H1 _].
    eexists. split.
    + unfold Course.delete. rewrite Hg.
      unfold Course.findById, Course.updateWhere. rewrite Hcast.
      cbn [bindR read]. rewrite Hf. reflexivity.
    + unfold Course.getOne, Course.findById, Course.save. rewrite Hcast.
      cbn [bindR read]. rewrite H1.
      cbn [Course.fields Course.bump_views Course.hydrate Course.modified].
      destruct (soft_deleted_course_invalid (User._id account) now c) as [msg ->].
      reflexivity.
Qed.

Lemma X26_course_read_stores_nothing_witness :
  Course.getOne "64e000000000000000000001" (Up [UserFixtures.course1])
    = (mkResponse 200 true None None, Some UserFixtures.course1,
       Up [UserFixtures.course1]) /\
  exists docs',
    Course.delete 77 "64e000000000000000000001" (Some UserFixtures.root)
      (Up [UserFixtures.course1]) =
      (respond 200 true "Course deleted successfully", Up docs') /\
    Course.getOne "64e000000000000000000001" (Up docs') =
      (respond 500 false "Server error while fetching course", None, Up docs').
Proof.
  split.
  - apply (proj1 (proj2 X26_course_read_stores_nothing)
             "64e000000000000000000001" "64e000000000000000000001"
             [UserFixtures.course1] UserFixtures.course1); reflexivity.
  - apply (proj2 (proj2 X26_course_read_stores_nothing) 77%Z
             "64e000000000000000000001" "64e000000000000000000001"
             (Some UserFixtures.root) UserFixtures.root
             [UserFixtures.course1] UserFixtures.course1); reflexivity.
Defined.
